(** * pyDAPLink: the client transport and the unix socket layer

    A shallow embedding of [pyDAPLink/client/transport.py] (the per-board
    session: reentrant locking, deferred transfers, read pipelining) and of
    [pyDAPLink/socket/unix_socket.py] (connections and the listening socket
    with its interruptible accept), followed by the properties the
    specification states about them.

    Python integers are [Z]; a method that may raise returns an [Outcome];
    the object a method mutates is threaded through explicitly. *)

From Stdlib Require Import ZArith NArith Bool Lia.
From Stdlib Require Import Ascii HexadecimalString.
From stdpp Require Import base list strings gmap.

Local Open Scope Z_scope.

(** ** Python values and exceptions shared by both modules *)

(** The exceptions the modelled code raises or lets through. *)
Inductive exn : Type :=
| ServerError (type : string)   (* broker-reported error; [.type] is its class name *)
| CommandError (msg : string)
| NameError (name : string)
| KeyError (key : string)
| AttributeError (attr : string)
| IndexError
| AssertionError
| OSError (msg : string)
| SocketError (msg : string).

(** How a call ends: it returns a value or an exception escapes it. *)
Inductive Outcome (A : Type) : Type :=
| Return (a : A)
| Raise (e : exn).
Arguments Return {A} a.
Arguments Raise {A} e.

(** ['%x' % z] and ['%04x' % z]: lower-case hexadecimal, the sign first,
    zero-padded to [width] characters. *)
Definition hex_digits (n : N) : string :=
  NilZero.string_of_uint (N.to_hex_uint n).

Fixpoint zeros (k : nat) : string :=
  match k with
  | O => ""
  | S k' => "0" +:+ zeros k'
  end.

Definition fmt_x (width : nat) (z : Z) : string :=
  let digits := hex_digits (Z.abs_N z) in
  let sign := if z <? 0 then "-" else "" in
  sign +:+ zeros (width - String.length sign - String.length digits) +:+ digits.

Module Transport.

(** *** The command vocabulary of the session *)

(** The opaque results the broker produces for reads. *)
Inductive value : Type :=
| VInt (z : Z)
| VBlock (l : list Z).

(** [self._command(name, args)]: one constructor per command name the
    session sends, with the entries of its argument dictionary. *)
Inductive Command : Type :=
| board_info (id : Z)
| board_enumerate (vid pid : Z)
| board_select (id : Z)
| board_deselect
| dap_init (frequency packet_count : option Z)
| dap_uninit
| dap_info (request : Z)
| reset_cmd
| reset_assert
| reset_deassert
| dap_frequency (frequency : Z)
| dap_packet_count (packet_count : Z)
| write_dp (addr data : Z)
| read_dp (addr : Z)
| write_ap (addr data : Z)
| read_ap (addr : Z)
| write_mem (transfer_size : Z) (addr data : Z)
| read_mem (transfer_size : Z) (addr : Z)
| write_block (addr : Z) (data : list Z)
| read_block (addr count : Z)
| flush_cmd.

(** The reply dictionary; a key that is absent is [None]. *)
Record ReplyData : Type := mkReply {
  selected : option bool;
  result : option value;
  reads : option (list value);
  vendor : option string;
  product : option string;
  serial : option string
}.

Definition empty_reply : ReplyData := mkReply None None None None None None.
Definition selected_reply (b : bool) : ReplyData :=
  mkReply (Some b) None None None None None.
Definition reads_reply (l : list value) : ReplyData :=
  mkReply None None (Some l) None None None.

(** What is visible on the channel, oldest first: the commands sent, and
    the connections the session's own client opened and closed. *)
Inductive Event : Type :=
| Sent (c : Command)
| Opened (address : string)
| Closed.

(** The peer.  [answer h c] is what [client.command] does for command [c]
    after history [h]: it returns the reply dictionary or raises.  [dial h a]
    is what connecting to address [a] does: [None] when it succeeds. *)
Record Broker : Type := mkBroker {
  answer : list Event -> Command -> Outcome ReplyData;
  dial : list Event -> string -> option exn
}.

(** *** The objects *)

(** Modelled from the spec: [client.DAPLinkClient] (client/client.py is not
    among the sources).  The session uses its [address], [init()] (sets the
    Connection up), [command()] (sends a named command and returns the reply)
    and [uninit()] (closes the Connection). *)
Record Client : Type := mkClient {
  address : string;
  connected : bool
}.

(** [DAPLinkClientTransport].  The attributes [init()] creates are [None]
    until it has run. *)
Record Session : Type := mkSession {
  _client : Client;
  vid : Z;
  pid : Z;
  iid : Z;
  vendor_name : string;
  product_name : string;
  serial_number : string;
  _nested_locks : Z;
  deferred_transfer : bool;
  _buffer : list value;
  _lock_attempts : option Z;
  _new_socket : option bool
}.

(** The session together with the channel history. *)
Record World : Type := mkWorld {
  self : Session;
  wire : list Event
}.

Definition set_client (c : Client) (s : Session) : Session :=
  mkSession c (vid s) (pid s) (iid s) (vendor_name s) (product_name s)
    (serial_number s) (_nested_locks s) (deferred_transfer s) (_buffer s)
    (_lock_attempts s) (_new_socket s).
Definition set_nested_locks (n : Z) (s : Session) : Session :=
  mkSession (_client s) (vid s) (pid s) (iid s) (vendor_name s) (product_name s)
    (serial_number s) n (deferred_transfer s) (_buffer s)
    (_lock_attempts s) (_new_socket s).
Definition set_deferred_transfer (b : bool) (s : Session) : Session :=
  mkSession (_client s) (vid s) (pid s) (iid s) (vendor_name s) (product_name s)
    (serial_number s) (_nested_locks s) b (_buffer s)
    (_lock_attempts s) (_new_socket s).
Definition set_buffer (l : list value) (s : Session) : Session :=
  mkSession (_client s) (vid s) (pid s) (iid s) (vendor_name s) (product_name s)
    (serial_number s) (_nested_locks s) (deferred_transfer s) l
    (_lock_attempts s) (_new_socket s).
Definition set_init_args (attempts : Z) (new_socket : bool) (s : Session) : Session :=
  mkSession (_client s) (vid s) (pid s) (iid s) (vendor_name s) (product_name s)
    (serial_number s) (_nested_locks s) (deferred_transfer s) (_buffer s)
    (Some attempts) (Some new_socket).

Definition update (f : Session -> Session) (w : World) : World :=
  mkWorld (f (self w)) (wire w).

(** *** Computations on the world

    [None] is a call that has not returned within the fuel given to the
    retry loop of [lock]. *)
Definition M (A : Type) : Type := World -> option (World * Outcome A).

Definition ret {A} (a : A) : M A := fun w => Some (w, Return a).
Definition raise {A} (e : exn) : M A := fun w => Some (w, Raise e).
Definition bind {A B} (m : M A) (k : A -> M B) : M B :=
  fun w =>
    match m w with
    | None => None
    | Some (w1, Raise e) => Some (w1, Raise e)
    | Some (w1, Return a) => k a w1
    end.
Definition get : M Session := fun w => Some (w, Return (self w)).
Definition modify (f : Session -> Session) : M unit :=
  fun w => Some (update f w, Return tt).

Notation "'do' x <- m ; k" := (bind m (fun x => k))
  (at level 10, x name, m at level 100, k at level 200).
Notation "'run' m ; k" := (bind m (fun _ => k))
  (at level 10, m at level 100, k at level 200).

(** [try: body / except: handler]: the handler sees every exception. *)
Definition try_except {A} (body : M A) (handler : exn -> M A) : M A :=
  fun w =>
    match body w with
    | Some (w1, Raise e) => handler e w1
    | r => r
    end.

(** [try: body / finally: final], which is what [with self:] amounts to
    once [__enter__] has returned: [final] runs on every exit of [body],
    and an exception of [final] replaces the outcome of [body]. *)
Definition try_finally {A} (body : M A) (final : M unit) : M A :=
  fun w =>
    match body w with
    | None => None
    | Some (w1, r) =>
        match final w1 with
        | None => None
        | Some (w2, Raise e) => Some (w2, Raise e)
        | Some (w2, Return _) => Some (w2, r)
        end
    end.

(** The names bound at module level in transport.py: its two imports of
    project names, [logging], the three read modes and the class. *)
Definition module_globals : list string :=
  ["CommandError"; "client"; "logging"; "READ_START"; "READ_NOW"; "READ_END";
   "DAPLinkClientTransport"]%string.

Definition name_bound (name : string) : bool :=
  bool_decide (name ∈ module_globals).

(** Read modes. *)
Definition READ_START : Z := 1.
Definition READ_NOW : Z := 2.
Definition READ_END : Z := 3.

Definition unable_to_select (s : Session) : string :=
  "Unable to select device " +:+ fmt_x 4 (vid s) +:+ ":" +:+ fmt_x 4 (pid s)
    +:+ ":" +:+ fmt_x 0 (iid s).

Definition unable_to_lock (s : Session) : string :=
  "Unable to lock device " +:+ fmt_x 4 (vid s) +:+ ":" +:+ fmt_x 4 (pid s)
    +:+ ":" +:+ fmt_x 0 (iid s) +:+ ", may be in use by another process".

Section WithBroker.

Variable broker : Broker.
(** Iterations the retry loop of [lock] may take before the model gives up. *)
Variable fuel : nat.

(** [_command]: defers to the client, which sends the command and returns
    the reply or raises the error the channel reports. *)
Definition _command (c : Command) : M ReplyData :=
  fun w => Some (mkWorld (self w) (wire w ++ [Sent c]), answer broker (wire w) c).

Definition locked (s : Session) : bool := 0 <? _nested_locks s.

(** The [except ServerError as err:] clause of [lock].  Matching evaluates
    the name [ServerError] first; [server_error_bound] says whether the
    module binds it. *)
Definition lock_except {A} (server_error_bound : bool) (e : exn) : M A :=
  if server_error_bound then
    match e with
    | ServerError type =>
        if String.eqb type "KeyError" then
          do s <- get; raise (CommandError (unable_to_select s))
        else raise e
    | _ => raise e
    end
  else raise (NameError "ServerError").

(** The [while ... else] loop of [lock]. *)
Fixpoint lock_loop (server_error_bound : bool) (n : nat) (attempts : Z) : M unit :=
  fun w =>
    match _lock_attempts (self w) with
    | None => Some (w, Raise (AttributeError "_lock_attempts"))
    | Some budget =>
        if (budget =? 0) || (attempts <? budget) then
          match n with
          | O => None
          | S n' =>
              (do confirmed <-
                 try_except
                   (do data <- _command (board_select (iid (self w)));
                    match selected data with
                    | None => raise (KeyError "selected")
                    | Some b => ret b
                    end)
                   (lock_except server_error_bound);
               if confirmed : bool then ret tt
               else lock_loop server_error_bound n' (attempts + 1)) w
          end
        else Some (w, Raise (CommandError (unable_to_lock (self w))))
    end.

(** [lock], with the resolution of the name [ServerError] left open. *)
Definition lock_with (server_error_bound : bool) : M unit :=
  run modify (fun s => set_nested_locks (_nested_locks s + 1) s);
  do s <- get;
  if 1 <? _nested_locks s then ret tt
  else lock_loop server_error_bound fuel 0.

(** [lock] as the module runs it. *)
Definition lock : M unit := lock_with (name_bound "ServerError").

Definition unlock : M unit :=
  do s <- get;
  run (if _nested_locks s =? 1
       then (do _ <- _command board_deselect; ret tt)
       else ret tt);
  do s' <- get;
  if 0 <? _nested_locks s'
  then modify (fun s => set_nested_locks (_nested_locks s - 1) s)
  else ret tt.

(** [with self: body]: [__enter__] locks; [__exit__] unlocks on every exit
    of the body and returns nothing, so an exception of the body goes on. *)
Definition with_self {A} (body : M A) : M A :=
  run lock; try_finally body unlock.

(** [self._client.init()] and [self._client.uninit()] of the client the
    session created for itself. *)
Definition client_init : M unit :=
  fun w =>
    let c := _client (self w) in
    match dial broker (wire w) (address c) with
    | Some e => Some (w, Raise e)
    | None =>
        Some (mkWorld (set_client (mkClient (address c) true) (self w))
                      (wire w ++ [Opened (address c)]), Return tt)
    end.

Definition client_uninit : M unit :=
  fun w =>
    let c := _client (self w) in
    Some (mkWorld (set_client (mkClient (address c) false) (self w))
                  (wire w ++ [Closed]), Return tt).

(** The [if v] of the dictionary comprehension in [init]: [None] and [0]
    are left out. *)
Definition truthy (v : option Z) : option Z :=
  match v with
  | Some z => if z =? 0 then None else Some z
  | None => None
  end.

Definition init (frequency packet_count : option Z)
    (lock_attempts : Z) (new_socket : bool) : M unit :=
  run modify (set_init_args lock_attempts new_socket);
  run (if new_socket then
         run modify (fun s => set_client (mkClient (address (_client s)) false) s);
         run client_init;
         do s <- get;
         do _ <- _command (board_enumerate (vid s) (pid s)); ret tt
       else ret tt);
  run lock;
  do _ <- _command (dap_init (truthy frequency) (truthy packet_count)); ret tt.

Definition uninit : M unit :=
  run with_self (do _ <- _command dap_uninit; ret tt);
  do s <- get;
  match _new_socket s with
  | None => raise (AttributeError "_new_socket")
  | Some true => client_uninit
  | Some false => ret tt
  end.

Definition info (request : Z) : M (option value) :=
  with_self (do resp <- _command (dap_info request); ret (result resp)).

Definition reset : M unit :=
  with_self (do _ <- _command reset_cmd; ret tt).

Definition assertReset (asserted : bool) : M unit :=
  with_self (if asserted
             then (do _ <- _command reset_assert; ret tt)
             else (do _ <- _command reset_deassert; ret tt)).

Definition setClock (frequency : Z) : M unit :=
  with_self (do _ <- _command (dap_frequency frequency); ret tt).

Definition setPacketCount (packet_count : Z) : M unit :=
  with_self (do _ <- _command (dap_packet_count packet_count); ret tt).

Definition flush : M unit :=
  with_self
    (do data <- _command flush_cmd;
     match reads data with
     | Some l => modify (fun s => set_buffer (_buffer s ++ l) s)
     | None => ret tt
     end).

Definition setDeferredTransfer (enable : bool) : M unit :=
  do s <- get;
  run (if deferred_transfer s && negb enable then flush else ret tt);
  modify (set_deferred_transfer enable).

(** Complete write command. *)
Definition _write : M unit :=
  do s <- get;
  if negb (deferred_transfer s) then flush else ret tt.

(** Complete read command: [self._buffer.pop(0)] after a flush when the
    buffer is empty. *)
Definition _read : M value :=
  do s <- get;
  run (match _buffer s with [] => flush | _ => ret tt end);
  do s' <- get;
  match _buffer s' with
  | [] => raise IndexError
  | v :: rest => run modify (set_buffer rest); ret v
  end.

Definition issues (mode : Z) : bool := (mode =? READ_NOW) || (mode =? READ_START).
Definition consumes (mode : Z) : bool := (mode =? READ_NOW) || (mode =? READ_END).

(** The body shared by [readDP], [readAP] and [readMem]; a call that does
    not consume returns Python's [None]. *)
Definition read_body (c : Command) (mode : Z) : M (option value) :=
  run (if issues mode then (do _ <- _command c; ret tt) else ret tt);
  if consumes mode then (do v <- _read; ret (Some v)) else ret None.

Definition writeDP (addr data : Z) : M unit :=
  with_self (run _command (write_dp addr data); _write).

Definition readDP (addr : Z) (mode : Z) : M (option value) :=
  with_self (read_body (read_dp addr) mode).

Definition writeAP (addr data : Z) : M unit :=
  with_self (run _command (write_ap addr data); _write).

Definition readAP (addr : Z) (mode : Z) : M (option value) :=
  with_self (read_body (read_ap addr) mode).

Definition valid_transfer_size (transfer_size : Z) : bool :=
  (transfer_size =? 8) || (transfer_size =? 16) || (transfer_size =? 32).

Definition writeMem (addr data : Z) (transfer_size : Z) : M unit :=
  if valid_transfer_size transfer_size
  then with_self (run _command (write_mem transfer_size addr data); _write)
  else raise AssertionError.

Definition readMem (addr : Z) (transfer_size : Z) (mode : Z) : M (option value) :=
  if valid_transfer_size transfer_size
  then with_self (read_body (read_mem transfer_size addr) mode)
  else raise AssertionError.

Definition writeBlock32 (addr : Z) (data : list Z) : M unit :=
  with_self (run _command (write_block addr data); _write).

Definition readBlock32 (addr count : Z) : M value :=
  with_self (run _command (read_block addr count); _read).

End WithBroker.


(** *** Sequences of calls, and what the specification says of them *)

Inductive Call : Type := CLock | CUnlock.

Definition do_call (broker : Broker) (fuel : nat) (c : Call) : M unit :=
  match c with
  | CLock => lock broker fuel
  | CUnlock => unlock broker
  end.

Fixpoint run_calls (broker : Broker) (fuel : nat) (cs : list Call) : M unit :=
  match cs with
  | [] => ret tt
  | c :: rest => run do_call broker fuel c; run_calls broker fuel rest
  end.

Definition is_lock (c : Call) : bool :=
  match c with CLock => true | CUnlock => false end.

Definition count_locks (cs : list Call) : Z :=
  Z.of_nat (length (filter (fun c => is_lock c = true) cs)).
Definition count_unlocks (cs : list Call) : Z :=
  Z.of_nat (length (filter (fun c => is_lock c = false) cs)).

(** The specification's formula read on the totals: the number of lock
    calls minus the number of unlock calls, clipped at 0. *)
Definition clipped_difference (cs : list Call) : Z :=
  Z.max 0 (count_locks cs - count_unlocks cs).

(** The same count with the clipping applied at every call: an unlock at
    depth 0 is not counted. *)
Fixpoint depth_after (d : Z) (cs : list Call) : Z :=
  match cs with
  | [] => d
  | CLock :: rest => depth_after (d + 1) rest
  | CUnlock :: rest => depth_after (Z.max 0 (d - 1)) rest
  end.

(** The unlock calls of [cs] that are made at depth 0. *)
Fixpoint idle_unlocks (d : Z) (cs : list Call) : Z :=
  match cs with
  | [] => 0
  | CLock :: rest => idle_unlocks (d + 1) rest
  | CUnlock :: rest =>
      (if d =? 0 then 1 else 0) + idle_unlocks (Z.max 0 (d - 1)) rest
  end.

(** The requests the specification allows: a select at each lock call made
    at depth 0, a deselect at each unlock call made at depth 1. *)
Fixpoint expected_traffic (id : Z) (d : Z) (cs : list Call) : list Event :=
  match cs with
  | [] => []
  | CLock :: rest =>
      (if d =? 0 then [Sent (board_select id)] else [])
        ++ expected_traffic id (d + 1) rest
  | CUnlock :: rest =>
      (if d =? 1 then [Sent board_deselect] else [])
        ++ expected_traffic id (Z.max 0 (d - 1)) rest
  end.

(** *** Conditions on the broker *)

(** A reply that confirms the selection. *)
Definition confirms (r : Outcome ReplyData) : bool :=
  match r with
  | Return d => match selected d with Some true => true | _ => false end
  | Raise _ => false
  end.

(** A reply that reports the device busy. *)
Definition reports_busy (r : Outcome ReplyData) : bool :=
  match r with
  | Return d => match selected d with Some false => true | _ => false end
  | Raise _ => false
  end.

Definition succeeds (r : Outcome ReplyData) : bool :=
  match r with Return _ => true | Raise _ => false end.

Definition grants_select (broker : Broker) : Prop :=
  forall h id, confirms (answer broker h (board_select id)) = true.

Definition accepts_deselect (broker : Broker) : Prop :=
  forall h, succeeds (answer broker h board_deselect) = true.

Definition is_select (e : Event) : bool :=
  match e with Sent (board_select _) => true | _ => false end.

Fixpoint count_selects (h : list Event) : nat :=
  match h with
  | [] => O
  | e :: rest => ((if is_select e then 1 else 0) + count_selects rest)%nat
  end.

(** After history [h0] the broker reports the device busy to exactly the
    next [busy] select requests and confirms every later one. *)
Definition busy_then_free (broker : Broker) (h0 : list Event) (busy : nat) : Prop :=
  forall h id,
    if (count_selects h <? busy)%nat
    then reports_busy (answer broker (h0 ++ h) (board_select id)) = true
    else confirms (answer broker (h0 ++ h) (board_select id)) = true.

(** A broker that reports busy to the first [busy] selects it sees. *)
Definition busy_broker (busy : nat) : Broker :=
  mkBroker
    (fun h c =>
       match c with
       | board_select _ =>
           Return (selected_reply (negb (count_selects h <? busy)%nat))
       | _ => Return empty_reply
       end)
    (fun _ _ => None).

(** A broker that answers every select by raising [e]. *)
Definition refusing_broker (e : exn) : Broker :=
  mkBroker
    (fun _ c =>
       match c with
       | board_select _ => Raise e
       | _ => Return empty_reply
       end)
    (fun _ _ => None).

(** No command raises and every select is confirmed. *)
Definition cooperative (broker : Broker) : Prop :=
  grants_select broker /\ forall h c, succeeds (answer broker h c) = true.

Definition is_read (c : Command) : bool :=
  match c with
  | read_dp _ | read_ap _ | read_mem _ _ | read_block _ _ => true
  | _ => false
  end.

(** The read requests of a history that no flush has followed yet, oldest
    first. *)
Definition note_event (pending : list Command) (e : Event) : list Command :=
  match e with
  | Sent flush_cmd => []
  | Sent c => if is_read c then pending ++ [c] else pending
  | _ => pending
  end.

Definition pending_reads (h : list Event) : list Command :=
  fold_left note_event h [].

(** The broker's side of the read pipeline: a flush reply carries one
    result for each pending read request, in the order of the requests;
    [value_of h c] is the broker's result for request [c] when the flush
    arrives after history [h]. *)
Definition flushes_in_order (broker : Broker)
    (value_of : list Event -> Command -> value) : Prop :=
  forall h, exists d,
    answer broker h flush_cmd = Return d /\
    reads d = Some (map (value_of h) (pending_reads h)).

(** A broker that grants every select and answers a flush with the results
    of the pending reads, taken from [mem]. *)
Definition fifo_broker (mem : Command -> value) : Broker :=
  mkBroker
    (fun h c =>
       match c with
       | board_select _ => Return (selected_reply true)
       | flush_cmd => Return (reads_reply (map mem (pending_reads h)))
       | _ => Return empty_reply
       end)
    (fun _ _ => None).

Definition is_flush (e : Event) : bool :=
  match e with Sent flush_cmd => true | _ => false end.

Fixpoint count_flushes (h : list Event) : nat :=
  match h with
  | [] => O
  | e :: rest => ((if is_flush e then 1 else 0) + count_flushes rest)%nat
  end.

(** What one lock-scoped operation puts on the channel at depth [d]: its
    own requests [mid], between a select and a deselect when the session
    was not locked. *)
Definition framed (d id : Z) (mid : list Event) : list Event :=
  (if d =? 0 then [Sent (board_select id)] else [])
    ++ mid ++ (if d =? 0 then [Sent board_deselect] else []).

(** The world as [with self:] enters its body (the select confirmed), and
    as it leaves a body that ended in [w2] (the deselect accepted). *)
Definition entering (w : World) : World :=
  mkWorld (set_nested_locks (_nested_locks (self w) + 1) (self w))
    (wire w ++ if _nested_locks (self w) =? 0
               then [Sent (board_select (iid (self w)))] else []).

Definition leaving (d : Z) (w2 : World) : World :=
  mkWorld (set_nested_locks d (self w2))
    (wire w2 ++ if d =? 0 then [Sent board_deselect] else []).

(** The read operations that take a mode, and the write operations. *)
Inductive ReadRequest : Type :=
| ReadDP (addr : Z)
| ReadAP (addr : Z)
| ReadMem (addr transfer_size : Z).

Definition read_request (broker : Broker) (fuel : nat) (r : ReadRequest)
    (mode : Z) : M (option value) :=
  match r with
  | ReadDP addr => readDP broker fuel addr mode
  | ReadAP addr => readAP broker fuel addr mode
  | ReadMem addr transfer_size => readMem broker fuel addr transfer_size mode
  end.

Definition read_command (r : ReadRequest) : Command :=
  match r with
  | ReadDP addr => read_dp addr
  | ReadAP addr => read_ap addr
  | ReadMem addr transfer_size => read_mem transfer_size addr
  end.

Definition valid_read (r : ReadRequest) : bool :=
  match r with
  | ReadMem _ transfer_size => valid_transfer_size transfer_size
  | _ => true
  end.

Inductive WriteOp : Type :=
| WriteDP (addr data : Z)
| WriteAP (addr data : Z)
| WriteMem (addr data transfer_size : Z)
| WriteBlock32 (addr : Z) (data : list Z).

Definition write_op (broker : Broker) (fuel : nat) (o : WriteOp) : M unit :=
  match o with
  | WriteDP addr data => writeDP broker fuel addr data
  | WriteAP addr data => writeAP broker fuel addr data
  | WriteMem addr data transfer_size => writeMem broker fuel addr data transfer_size
  | WriteBlock32 addr data => writeBlock32 broker fuel addr data
  end.

Definition write_command (o : WriteOp) : Command :=
  match o with
  | WriteDP addr data => write_dp addr data
  | WriteAP addr data => write_ap addr data
  | WriteMem addr data transfer_size => write_mem transfer_size addr data
  | WriteBlock32 addr data => write_block addr data
  end.

Definition valid_write (o : WriteOp) : bool :=
  match o with
  | WriteMem _ _ transfer_size => valid_transfer_size transfer_size
  | _ => true
  end.

Fixpoint run_reads (broker : Broker) (fuel : nat) (rs : list ReadRequest)
    (mode : Z) : M (list (option value)) :=
  match rs with
  | [] => ret []
  | r :: rest =>
      do v <- read_request broker fuel r mode;
      do vs <- run_reads broker fuel rest mode;
      ret (v :: vs)
  end.

(** What a consuming read makes of the buffer [l] it finds after its
    flush: [l.pop(0)]. *)
Definition popped (l : list value) : Outcome (option value) :=
  match l with
  | [] => Raise IndexError
  | v :: _ => Return (Some v)
  end.

Fixpoint run_writes (broker : Broker) (fuel : nat) (os : list WriteOp) : M unit :=
  match os with
  | [] => ret tt
  | o :: rest => run write_op broker fuel o; run_writes broker fuel rest
  end.

(** Results for the sample runs: a read of address [a] yields [a + 1000]. *)
Definition sample_mem (c : Command) : value :=
  match c with
  | read_dp a | read_ap a | read_mem _ a => VInt (a + 1000)
  | read_block a n => VBlock [a; n]
  | _ => VInt 0
  end.

(** A session as the constructor leaves it. *)
Definition fresh_session : Session :=
  mkSession (mkClient "/tmp/pydaplink/socket" true) 3368 516 1
    "ARM" "DAPLink CMSIS-DAP" "0240000034544e45" 0 false [] None None.

Definition connects (broker : Broker) : Prop :=
  forall h a, dial broker h a = None.


(** The session has been through [init] with a budget that is not
    negative, and its depth is not negative. *)
Definition ready (s : Session) : Prop :=
  (exists budget, _lock_attempts s = Some budget /\ 0 <= budget)
  /\ 0 <= _nested_locks s.

(** A broker that grants every select and answers everything else with an
    empty dictionary. *)
Definition granting : Broker :=
  mkBroker
    (fun _ c =>
       match c with
       | board_select _ => Return (selected_reply true)
       | _ => Return empty_reply
       end)
    (fun _ _ => None).

(** A session as [init] leaves its attributes, at depth [d]. *)
Definition sample_session (d : Z) (budget : Z) : Session :=
  mkSession (mkClient "/tmp/pydaplink/socket" true) 3368 516 1
    "ARM" "DAPLink CMSIS-DAP" "0240000034544e45" d false [] (Some budget)
    (Some true).

(** *** The remaining operations, taken together *)

(** The lock-scoped operations that send one command and return nothing:
    [reset], [assertReset], [setClock], [setPacketCount]. *)
Inductive SimpleOp : Type :=
| OpReset
| OpAssertReset (asserted : bool)
| OpSetClock (frequency : Z)
| OpSetPacketCount (packet_count : Z).

Definition simple_op (broker : Broker) (fuel : nat) (o : SimpleOp) : M unit :=
  match o with
  | OpReset => reset broker fuel
  | OpAssertReset asserted => assertReset broker fuel asserted
  | OpSetClock frequency => setClock broker fuel frequency
  | OpSetPacketCount packet_count => setPacketCount broker fuel packet_count
  end.

Definition simple_command (o : SimpleOp) : Command :=
  match o with
  | OpReset => reset_cmd
  | OpAssertReset true => reset_assert
  | OpAssertReset false => reset_deassert
  | OpSetClock frequency => dap_frequency frequency
  | OpSetPacketCount packet_count => dap_packet_count packet_count
  end.

(** Every public method of the session other than [init], [uninit],
    [lock] and [unlock]. *)
Inductive Op : Type :=
| OInfo (request : Z)
| OSimple (o : SimpleOp)
| OSetDeferredTransfer (enable : bool)
| OWrite (o : WriteOp)
| ORead (r : ReadRequest) (mode : Z)
| OReadBlock32 (addr count : Z)
| OFlush.

(** What a method hands back, when it hands back anything. *)
Inductive Result : Type :=
| RNone
| RValue (v : value).

Definition of_option (o : option value) : Result :=
  match o with Some v => RValue v | None => RNone end.

Definition run_op (broker : Broker) (fuel : nat) (o : Op) : M Result :=
  match o with
  | OInfo request => do v <- info broker fuel request; ret (of_option v)
  | OSimple o => run simple_op broker fuel o; ret RNone
  | OSetDeferredTransfer enable =>
      run setDeferredTransfer broker fuel enable; ret RNone
  | OWrite o => run write_op broker fuel o; ret RNone
  | ORead r mode => do v <- read_request broker fuel r mode; ret (of_option v)
  | OReadBlock32 addr count =>
      do v <- readBlock32 broker fuel addr count; ret (RValue v)
  | OFlush => run flush broker fuel; ret RNone
  end.

Fixpoint run_ops (broker : Broker) (fuel : nat) (os : list Op) : M unit :=
  match os with
  | [] => ret tt
  | o :: rest => run run_op broker fuel o; run_ops broker fuel rest
  end.

(** What no method but [init] touches: the ids, the names, the client and
    the arguments of [init]. *)
Definition same_identity (s s' : Session) : Prop :=
  _client s' = _client s /\ vid s' = vid s /\ pid s' = pid s /\ iid s' = iid s
  /\ vendor_name s' = vendor_name s /\ product_name s' = product_name s
  /\ serial_number s' = serial_number s
  /\ _lock_attempts s' = _lock_attempts s /\ _new_socket s' = _new_socket s.

(** From [w] to [w']: the identity is kept, the channel history has only
    grown, and a depth that was not negative is not negative. *)
Definition steady (w w' : World) : Prop :=
  same_identity (self w) (self w')
  /\ wire w `prefix_of` wire w'
  /\ (0 <= _nested_locks (self w) -> 0 <= _nested_locks (self w')).


(** Every run of [m] relates the world before to the world after. *)
Definition preserves {A} (R : World -> World -> Prop) (m : M A) : Prop :=
  forall w w' r, m w = Some (w', r) -> R w w'.

Definition raised {A} (r : Outcome A) : Prop :=
  match r with Raise _ => True | Return _ => False end.

(** Every run of [m] leaves the depth of a locked session as it was, and
    the depth of an unlocked session at 0, or at 1 together with an
    exception. *)
Definition settles {A} (m : M A) : Prop :=
  forall w w' r, m w = Some (w', r) ->
    (1 <= _nested_locks (self w) ->
     _nested_locks (self w') = _nested_locks (self w))
    /\ (_nested_locks (self w) = 0 ->
        _nested_locks (self w') = 0
        \/ (_nested_locks (self w') = 1 /\ raised r)).

(** A broker that grants every select and raises [e] for the commands
    picked by [bad]. *)
Definition failing_broker (bad : Command -> bool) (e : exn) : Broker :=
  mkBroker
    (fun _ c =>
       match c with
       | board_select _ => Return (selected_reply true)
       | _ => if bad c then Raise e else Return empty_reply
       end)
    (fun _ _ => None).

Definition is_reset (c : Command) : bool :=
  match c with reset_cmd => true | _ => false end.

(** The outcome of a command, with [f] applied to the reply. *)
Definition answered {A} (f : ReplyData -> A) (r : Outcome ReplyData) : Outcome A :=
  match r with Return d => Return (f d) | Raise e => Raise e end.

(** The outcome of a command, with the reply dropped. *)
Definition dropped (r : Outcome ReplyData) : Outcome unit :=
  answered (fun _ => tt) r.

(** One command between the select and the deselect of an unlocked
    session whose select is confirmed: the world and the outcome, on every
    exit.  [f] is what the method makes of the reply. *)
Definition scoped_once {A} (broker : Broker) (f : ReplyData -> A)
    (c : Command) (w : World) : World * Outcome A :=
  let h1 := wire w ++ [Sent (board_select (iid (self w)))] in
  let h2 := h1 ++ [Sent c] in
  match answer broker h2 board_deselect with
  | Return _ =>
      (mkWorld (self w) (h2 ++ [Sent board_deselect]), answered f (answer broker h1 c))
  | Raise e =>
      (mkWorld (set_nested_locks 1 (self w)) (h2 ++ [Sent board_deselect]), Raise e)
  end.

End Transport.

(** ** unix_socket.py *)

Module UnixSocket.

(** Python 2 [str] as sent and received on a socket. *)
Abbreviation bytes := string.

(** A call that may stay blocked: [Blocked], or finished with an outcome. *)
Inductive Step (A : Type) : Type :=
| Blocked
| Finished (r : Outcome A).
Arguments Blocked {A}.
Arguments Finished {A} r.

(** A connected stream socket, as far as the module uses it.  [sendall],
    [recv] and [shutdown] may raise; [S] is the state of the endpoint. *)
Record StreamSocket (S : Type) : Type := mkStreamSocket {
  sock_sendall : S -> bytes -> S * Outcome unit;
  sock_recv : S -> Z -> S * Outcome bytes;
  sock_shutdown : S -> S * Outcome unit;
  sock_settimeout : S -> option Z -> S;
  sock_close : S -> S
}.
Arguments mkStreamSocket {S}.
Arguments sock_sendall {S}.
Arguments sock_recv {S}.
Arguments sock_shutdown {S}.
Arguments sock_settimeout {S}.
Arguments sock_close {S}.

Module UnixConnection.

Record t (S : Type) : Type := mk {
  _socket : S;
  _isalive : bool
}.
Arguments mk {S}.
Arguments _socket {S}.
Arguments _isalive {S}.

Section Methods.

Context {S : Type} (ops : StreamSocket S).

(** [UnixConnection(socket)]. *)
Definition new (socket : S) : t S := mk socket true.

Definition send (c : t S) (data : bytes) : t S * Outcome unit :=
  let (s', r) := sock_sendall ops (_socket c) data in
  (mk s' (_isalive c), r).

Definition recv (c : t S) (size : Z) : t S * Outcome bytes :=
  let (s', r) := sock_recv ops (_socket c) size in
  match r with
  | Return data =>
      (mk s' (if String.eqb data "" then false else _isalive c), Return data)
  | Raise e => (mk s' (_isalive c), Raise e)
  end.

Definition isalive (c : t S) : bool := _isalive c.

(** [socket.error] is swallowed, anything else goes on. *)
Definition shutdown (c : t S) : t S * Outcome unit :=
  let (s', r) := sock_shutdown ops (_socket c) in
  match r with
  | Raise (SocketError _) => (mk s' false, Return tt)
  | _ => (mk s' false, r)
  end.

Definition close (c : t S) : t S :=
  mk (sock_close ops (_socket c)) (_isalive c).

(** The calls a user makes on a connection after the first ones. *)
Inductive Call : Type :=
| Send (data : bytes)
| Recv (size : Z).

Definition call (c : t S) (k : Call) : t S * Outcome bytes :=
  match k with
  | Send data =>
      let (c', r) := send c data in
      (c', match r with Return _ => Return ""%string | Raise e => Raise e end)
  | Recv size => recv c size
  end.

Fixpoint calls (c : t S) (ks : list Call) : t S :=
  match ks with
  | [] => c
  | k :: rest => calls (fst (call c k)) rest
  end.

End Methods.

(** An endpoint whose peer has shut down its sending side: every [recv]
    is at end of stream, and what is sent is still taken. *)
Definition half_closed : StreamSocket (list string) :=
  mkStreamSocket
    (fun sent data => (sent ++ [data], Return tt))
    (fun sent _ => (sent, Return ""%string))
    (fun sent => (sent, Return tt))
    (fun sent _ => sent)
    (fun sent => sent).

End UnixConnection.

(** *** The file system the listening socket is bound in *)

Definition S_IFMT : Z := 61440.    (* 0o170000 *)
Definition S_IFSOCK : Z := 49152.  (* 0o140000 *)
Definition S_IFREG : Z := 32768.   (* 0o100000 *)
Definition S_IFDIR : Z := 16384.   (* 0o040000 *)

(** [stat.S_ISSOCK] and [stat.S_ISDIR]. *)
Definition S_ISSOCK (mode : Z) : bool := Z.land mode S_IFMT =? S_IFSOCK.
Definition S_ISDIR (mode : Z) : bool := Z.land mode S_IFMT =? S_IFDIR.

(** What [os.stat] and [os.access(path, os.W_OK)] report of an entry. *)
Record Node : Type := mkNode {
  st_mode : Z;
  w_ok : bool
}.

(** The entries by path, the directories [os.makedirs] is allowed to
    create, and the paths [os.unlink] has been called with, oldest first.
    Write permission on a directory stands for the right to add and remove
    its entries. *)
Record FS : Type := mkFS {
  files : gmap string Node;
  may_mkdir : gset string;
  unlinks : list string
}.

Fixpoint drop_while {A} (f : A -> bool) (l : list A) : list A :=
  match l with
  | [] => []
  | x :: rest => if f x then drop_while f rest else l
  end.

Definition is_slash (c : ascii) : bool := Ascii.eqb c "/"%char.

(** [os.path.dirname]: everything up to the last slash, without trailing
    slashes unless it consists of slashes only. *)
Definition dirname (p : string) : string :=
  let head_rev :=
    drop_while (fun c => negb (is_slash c)) (rev (String.list_ascii_of_string p)) in
  if forallb is_slash head_rev
  then String.string_of_list_ascii (rev head_rev)
  else String.string_of_list_ascii (rev (drop_while is_slash head_rev)).

Definition dir_writable (d : string) (fs : FS) : bool :=
  match files fs !! d with
  | Some n => S_ISDIR (st_mode n) && w_ok n
  | None => false
  end.

(** [os.makedirs(d)]. *)
Definition makedirs (d : string) (fs : FS) : FS * Outcome unit :=
  if String.eqb d "" then (fs, Raise (OSError "No such file or directory"))
  else
    match files fs !! d with
    | Some _ => (fs, Raise (OSError "File exists"))
    | None =>
        if bool_decide (d ∈ may_mkdir fs)
        then (mkFS (<[d := mkNode (S_IFDIR + 493) true]> (files fs))
                (may_mkdir fs) (unlinks fs), Return tt)
        else (fs, Raise (OSError "Permission denied"))
    end.

(** [os.stat(path).st_mode]. *)
Definition stat_mode (path : string) (fs : FS) : Outcome Z :=
  match files fs !! path with
  | Some n => Return (st_mode n)
  | None => Raise (OSError "No such file or directory")
  end.

(** [os.access(path, os.W_OK)]. *)
Definition access_w (path : string) (fs : FS) : bool :=
  match files fs !! path with
  | Some n => w_ok n
  | None => false
  end.

(** [os.unlink(path)]. *)
Definition unlink (path : string) (fs : FS) : FS * Outcome unit :=
  let fs' := mkFS (files fs) (may_mkdir fs) (unlinks fs ++ [path]) in
  match files fs !! path with
  | None => (fs', Raise (OSError "No such file or directory"))
  | Some n =>
      if S_ISDIR (st_mode n) then (fs', Raise (OSError "Is a directory"))
      else if dir_writable (dirname path) fs
      then (mkFS (delete path (files fs)) (may_mkdir fs) (unlinks fs ++ [path]),
            Return tt)
      else (fs', Raise (OSError "Permission denied"))
  end.

(** The entry [bind] creates. *)
Definition fresh_socket_node : Node := mkNode (S_IFSOCK + 493) true.

(** [socket.bind(path)] on an AF_UNIX socket: the path must be free, in a
    directory that takes new entries. *)
Definition bind_path (path : string) (fs : FS) : FS * Outcome unit :=
  match files fs !! path with
  | Some _ => (fs, Raise (SocketError "Address already in use"))
  | None =>
      match files fs !! dirname path with
      | None => (fs, Raise (SocketError "No such file or directory"))
      | Some _ =>
          if dir_writable (dirname path) fs
          then (mkFS (<[path := fresh_socket_node]> (files fs))
                  (may_mkdir fs) (unlinks fs), Return tt)
          else (fs, Raise (SocketError "Permission denied"))
      end
  end.

Module UnixServer.

(** The listening socket object. *)
Record Sock : Type := mkSock {
  timeout : option Z;
  bound : option string;
  listening : bool;
  closed : bool
}.

(** Modelled from the spec: [socket_pair()] (utility.py is not among the
    sources), the auxiliary self-connected pair used purely as an interrupt
    signal.  [unread] is what was written into end 0 and not read from
    end 1. *)
Record Pipe : Type := mkPipe {
  unread : bytes;
  end0_closed : bool;
  end1_closed : bool
}.

Definition socket_pair : Pipe := mkPipe "" false false.

(** [UnixServer]: [_shutdown_pipe] and [_socket] exist once [open] has
    created them. *)
Record t : Type := mk {
  address : string;
  _isalive : bool;
  _timeout : option Z;
  _shutdown_pipe : option Pipe;
  _socket : option Sock
}.

(** [UnixServer(address, timeout)]. *)
Definition new (address : string) (timeout : option Z) : t :=
  mk address false timeout None None.

(** The file system and, per listening socket, the connections that wait
    to be accepted, oldest first. *)
Record OS (S : Type) : Type := mkOS {
  fs : FS;
  backlog : list S
}.
Arguments mkOS {S}.
Arguments fs {S}.
Arguments backlog {S}.

Section Methods.

Context {S : Type} (ops : StreamSocket S).

(** The [try: ... except OSError: pass] around the removal of a socket
    file left behind. *)
Definition remove_stale (path : string) (f : FS) : FS :=
  match stat_mode path f with
  | Return mode =>
      if S_ISSOCK mode && access_w path f then fst (unlink path f) else f
  | Raise _ => f
  end.

Definition open (sv : t) (os : OS S) : t * OS S * Outcome unit :=
  let f1 := fst (makedirs (dirname (address sv)) (fs os)) in
  let pipe := socket_pair in
  let f2 := remove_stale (address sv) f1 in
  let sk := mkSock (_timeout sv) None false false in
  match bind_path (address sv) f2 with
  | (f3, Raise e) =>
      (mk (address sv) (_isalive sv) (_timeout sv) (Some pipe) (Some sk),
       mkOS f3 (backlog os), Raise e)
  | (f3, Return _) =>
      (mk (address sv) true (_timeout sv) (Some pipe)
          (Some (mkSock (_timeout sv) (Some (address sv)) true false)),
       mkOS f3 (backlog os), Return tt)
  end.

(** [select([self._socket, self._shutdown_pipe[1]], [], [])]: returns
    when a connection waits or the interrupt pair holds data. *)
Definition select_wait (sv : t) (os : OS S) : Step unit :=
  match _socket sv, _shutdown_pipe sv with
  | None, _ => Finished (Raise (AttributeError "_socket"))
  | Some _, None => Finished (Raise (AttributeError "_shutdown_pipe"))
  | Some sk, Some p =>
      if closed sk || end1_closed p
      then Finished (Raise (SocketError "Bad file descriptor"))
      else if (listening sk && negb (bool_decide (backlog os = [])))
              || negb (String.eqb (unread p) "")
      then Finished (Return tt)
      else Blocked
  end.

(** What [accept] does once [select] has returned. *)
Definition accept_finish (sv : t) (os : OS S)
    : OS S * Step (option (UnixConnection.t S)) :=
  if negb (_isalive sv) then (os, Finished (Return None))
  else
    match _socket sv with
    | None => (os, Finished (Raise (AttributeError "_socket")))
    | Some sk =>
        if closed sk
        then (os, Finished (Raise (SocketError "Bad file descriptor")))
        else if negb (listening sk)
        then (os, Finished (Raise (SocketError "Invalid argument")))
        else
          match backlog os with
          | [] =>
              match timeout sk with
              | None => (os, Blocked)
              | Some _ => (os, Finished (Raise (SocketError "timed out")))
              end
          | conn :: rest =>
              (mkOS (fs os) rest,
               Finished (Return (Some (UnixConnection.new
                                         (sock_settimeout ops conn (_timeout sv))))))
          end
    end.

Definition accept (sv : t) (os : OS S)
    : OS S * Step (option (UnixConnection.t S)) :=
  match select_wait sv os with
  | Blocked => (os, Blocked)
  | Finished (Raise e) => (os, Finished (Raise e))
  | Finished (Return _) => accept_finish sv os
  end.

Definition isalive (sv : t) : bool := _isalive sv.

(** The two statements of [shutdown]. *)
Definition shutdown_flag (sv : t) : t :=
  mk (address sv) false (_timeout sv) (_shutdown_pipe sv) (_socket sv).

Definition shutdown_signal (sv : t) : t * Outcome unit :=
  match _shutdown_pipe sv with
  | None => (sv, Raise (AttributeError "_shutdown_pipe"))
  | Some p =>
      if end0_closed p then (sv, Raise (SocketError "Bad file descriptor"))
      else (mk (address sv) (_isalive sv) (_timeout sv)
              (Some (mkPipe (unread p +:+ "shutdown") (end0_closed p) (end1_closed p)))
              (_socket sv), Return tt)
  end.

Definition shutdown (sv : t) : t * Outcome unit :=
  shutdown_signal (shutdown_flag sv).

Definition close (sv : t) (os : OS S) : t * OS S * Outcome unit :=
  match _socket sv with
  | None => (sv, os, Raise (AttributeError "_socket"))
  | Some sk =>
      let sk' := mkSock (timeout sk) (bound sk) (listening sk) true in
      match _shutdown_pipe sv with
      | None =>
          (mk (address sv) (_isalive sv) (_timeout sv) None (Some sk'), os,
           Raise (AttributeError "_shutdown_pipe"))
      | Some p =>
          (mk (address sv) (_isalive sv) (_timeout sv)
              (Some (mkPipe (unread p) true true)) (Some sk'),
           mkOS (fst (unlink (address sv) (fs os))) (backlog os), Return tt)
      end
  end.


(** *** [accept] in one thread, [shutdown] in another

    The statements of the two methods as atomic actions; a schedule is any
    order in which they and arriving connections happen. *)
Inductive Action : Type :=
| AcceptSelect
| AcceptFinish
| ShutdownFlag
| ShutdownSignal
| Arrives (conn : S).

Inductive AcceptPc : Type :=
| AtSelect
| AfterSelect
| Returned (r : Outcome (option (UnixConnection.t S))).

Inductive ShutdownPc : Type :=
| AtFlag
| AtSignal
| ShutdownReturned (r : Outcome unit).

Record Sys : Type := mkSys {
  server : t;
  world : OS S;
  accepting : AcceptPc;
  shutting : ShutdownPc
}.

(** One action; [None] when the thread is not at that statement or the
    statement stays blocked. *)
Definition step (a : Action) (y : Sys) : option Sys :=
  match a with
  | AcceptSelect =>
      match accepting y with
      | AtSelect =>
          match select_wait (server y) (world y) with
          | Blocked => None
          | Finished (Return _) =>
              Some (mkSys (server y) (world y) AfterSelect (shutting y))
          | Finished (Raise e) =>
              Some (mkSys (server y) (world y) (Returned (Raise e)) (shutting y))
          end
      | _ => None
      end
  | AcceptFinish =>
      match accepting y with
      | AfterSelect =>
          match accept_finish (server y) (world y) with
          | (_, Blocked) => None
          | (os', Finished r) =>
              Some (mkSys (server y) os' (Returned r) (shutting y))
          end
      | _ => None
      end
  | ShutdownFlag =>
      match shutting y with
      | AtFlag =>
          Some (mkSys (shutdown_flag (server y)) (world y) (accepting y) AtSignal)
      | _ => None
      end
  | ShutdownSignal =>
      match shutting y with
      | AtSignal =>
          let (sv', r) := shutdown_signal (server y) in
          Some (mkSys sv' (world y) (accepting y) (ShutdownReturned r))
      | _ => None
      end
  | Arrives conn =>
      Some (mkSys (server y)
              (mkOS (fs (world y)) (backlog (world y) ++ [conn]))
              (accepting y) (shutting y))
  end.


Fixpoint exec (schedule : list Action) (y : Sys) : option Sys :=
  match schedule with
  | [] => Some y
  | a :: rest =>
      match step a y with
      | None => None
      | Some y' => exec rest y'
      end
  end.

End Methods.

End UnixServer.

(** Whether [path] holds a socket file the process may write to: the guard
    in front of the [os.unlink] of [open]. *)
Definition stale_socket (path : string) (f : FS) : bool :=
  match files f !! path with
  | Some n => S_ISSOCK (st_mode n) && w_ok n
  | None => false
  end.

(** A directory with a socket file left in it; [w] is whether the process
    may write to the socket file. *)
Definition leftover_fs (w : bool) : FS :=
  mkFS (<["/tmp/pydaplink/socket" := mkNode (S_IFSOCK + 493) w]>
          (<["/tmp/pydaplink" := mkNode (S_IFDIR + 493) true]> ∅))
       ∅ [].

Definition sample_server : UnixServer.t :=
  UnixServer.new "/tmp/pydaplink/socket" None.

(** The same server as [open] leaves it when it succeeds. *)
Definition listening_server : UnixServer.t :=
  UnixServer.mk "/tmp/pydaplink/socket" true None
    (Some UnixServer.socket_pair)
    (Some (UnixServer.mkSock None (Some "/tmp/pydaplink/socket"%string) true false)).

(** *** Sequences of calls on a connection *)

Inductive Method : Type :=
| MSend (data : bytes)
| MRecv (size : Z)
| MShutdown
| MClose.

Section ConnectionCalls.

Context {S : Type} (ops : StreamSocket S).

Definition method (c : UnixConnection.t S) (m : Method) : UnixConnection.t S :=
  match m with
  | MSend data => fst (UnixConnection.send ops c data)
  | MRecv size => fst (UnixConnection.recv ops c size)
  | MShutdown => fst (UnixConnection.shutdown ops c)
  | MClose => UnixConnection.close ops c
  end.

Fixpoint methods (c : UnixConnection.t S) (ms : list Method) : UnixConnection.t S :=
  match ms with
  | [] => c
  | m :: rest => methods (method c m) rest
  end.

(** What the socket itself does when the same calls are made on it. *)
Definition socket_after (s : S) (m : Method) : S :=
  match m with
  | MSend data => fst (sock_sendall ops s data)
  | MRecv size => fst (sock_recv ops s size)
  | MShutdown => fst (sock_shutdown ops s)
  | MClose => sock_close ops s
  end.

(** Whether call [m] on a socket in state [s] is a shutdown or a receive
    at end of stream. *)
Definition ends_liveness (s : S) (m : Method) : bool :=
  match m with
  | MRecv size =>
      match snd (sock_recv ops s size) with
      | Return data => String.eqb data ""
      | Raise _ => false
      end
  | MShutdown => true
  | _ => false
  end.

Fixpoint any_ends_liveness (s : S) (ms : list Method) : bool :=
  match ms with
  | [] => false
  | m :: rest => ends_liveness s m || any_ends_liveness (socket_after s m) rest
  end.

End ConnectionCalls.

(** *** UnixClient *)

Module UnixClient.

(** [UnixClient]: a connection whose socket exists once [open] has
    connected it. *)
Record t (S : Type) : Type := mk {
  address : string;
  _isalive : bool;
  _timeout : option Z;
  _socket : option S
}.
Arguments mk {S}.
Arguments address {S}.
Arguments _isalive {S}.
Arguments _timeout {S}.
Arguments _socket {S}.

Section Methods.

Context {S : Type} (ops : StreamSocket S).
(** [connect address] is what connecting a new stream socket to [address]
    does: the connected endpoint, or the error raised. *)
Variable connect : string -> Outcome S.

(** [UnixClient(address, timeout)]. *)
Definition new (address : string) (timeout : option Z) : t S :=
  mk address false timeout None.

Definition open (c : t S) : t S * Outcome unit :=
  match connect (address c) with
  | Raise e => (c, Raise e)
  | Return s =>
      (mk (address c) true (_timeout c)
          (Some (sock_settimeout ops s (_timeout c))), Return tt)
  end.

(** The inherited [send] and [recv]. *)
Definition send (c : t S) (data : bytes) : t S * Outcome unit :=
  match _socket c with
  | None => (c, Raise (AttributeError "_socket"))
  | Some s =>
      let (c', r) := UnixConnection.send ops (UnixConnection.mk s (_isalive c)) data in
      (mk (address c) (UnixConnection._isalive c') (_timeout c)
          (Some (UnixConnection._socket c')), r)
  end.

Definition recv (c : t S) (size : Z) : t S * Outcome bytes :=
  match _socket c with
  | None => (c, Raise (AttributeError "_socket"))
  | Some s =>
      let (c', r) := UnixConnection.recv ops (UnixConnection.mk s (_isalive c)) size in
      (mk (address c) (UnixConnection._isalive c') (_timeout c)
          (Some (UnixConnection._socket c')), r)
  end.

Definition isalive (c : t S) : bool := _isalive c.

End Methods.

End UnixClient.

(** *** UnixSocket *)


(** *** Repeated accepts *)

Section AcceptMany.

Context {S : Type} (ops : StreamSocket S).

(** [n] calls of [accept], each on what the one before left; the results
    oldest first. *)
Fixpoint accept_n (sv : UnixServer.t) (os : UnixServer.OS S) (n : nat)
    : UnixServer.OS S * list (Step (option (UnixConnection.t S))) :=
  match n with
  | O => (os, [])
  | Datatypes.S n' =>
      let (os1, r) := UnixServer.accept ops sv os in
      let (os2, rs) := accept_n sv os1 n' in
      (os2, r :: rs)
  end.

(** The connection [accept] makes of a waiting endpoint. *)
Definition accepted (sv : UnixServer.t) (conn : S)
    : Step (option (UnixConnection.t S)) :=
  Finished (Return (Some (UnixConnection.new
                            (sock_settimeout ops conn (UnixServer._timeout sv))))).

End AcceptMany.

(** The file system [open] hands to [bind]: after the [makedirs] and the
    removal of a leftover socket file. *)
Definition prepared (sv : UnixServer.t) (f : FS) : FS :=
  UnixServer.remove_stale (UnixServer.address sv)
    (fst (makedirs (dirname (UnixServer.address sv)) f)).

(** A directory with a regular file where the socket should go. *)
Definition occupied_fs : FS :=
  mkFS (<["/tmp/pydaplink/socket" := mkNode (S_IFREG + 420) true]>
          (<["/tmp/pydaplink" := mkNode (S_IFDIR + 493) true]> ∅))
       ∅ [].

(** A file system with nothing in it, in which /tmp/pydaplink may be
    created. *)
Definition bare_fs : FS := mkFS ∅ {["/tmp/pydaplink"%string]} [].

(** A server that is alive and whose socket listens. *)
Definition serving (sv : UnixServer.t) : Prop :=
  UnixServer._isalive sv = true
  /\ exists sk p,
       UnixServer._socket sv = Some sk /\ UnixServer._shutdown_pipe sv = Some p
       /\ UnixServer.closed sk = false /\ UnixServer.listening sk = true
       /\ UnixServer.end1_closed p = false /\ UnixServer.unread p = ""%string.

End UnixSocket.

(** ** Properties of the session *)

Module TransportFacts.
Import Transport.

Ltac unfold_m :=
  unfold with_self, bind, ret, raise, get, modify, update, try_except,
    try_finally, _command in *; simpl in *.

Example lock_twice_unlock_twice :
  option_map (fun r => (_nested_locks (self (fst r)), wire (fst r)))
    (run_calls granting 1 [CLock; CLock; CUnlock; CUnlock]
       (mkWorld (sample_session 0 5) []))
  = Some (0, [Sent (board_select 1); Sent board_deselect]).
Proof. reflexivity. Qed.

Example unlock_then_lock :
  option_map (fun r => (_nested_locks (self (fst r)), wire (fst r)))
    (run_calls granting 1 [CUnlock; CLock] (mkWorld (sample_session 0 5) []))
  = Some (1, [Sent (board_select 1)]).
Proof. reflexivity. Qed.

Example fmt_x_pads : fmt_x 4 3368 = "0d28"%string /\ fmt_x 4 (-1) = "-001"%string.
Proof. split; reflexivity. Qed.

Example unable_to_lock_message :
  unable_to_lock (sample_session 0 5)
  = "Unable to lock device 0d28:0204:1, may be in use by another process"%string.
Proof. reflexivity. Qed.

Example server_error_is_not_bound : name_bound "ServerError" = false.
Proof. reflexivity. Qed.

(** *** Single calls of [lock] and [unlock] *)

Section LockUnlock.

Variable broker : Broker.
Variable fuel : nat.

Lemma confirms_inv (r : Outcome ReplyData) :
  confirms r = true -> exists d, r = Return d /\ selected d = Some true.
Proof.
  destruct r as [d|e]; simpl; [|discriminate].
  destruct (selected d) as [[|]|] eqn:E; try discriminate.
  intros _. exists d. split; [reflexivity | exact E].
Qed.

Lemma succeeds_inv (r : Outcome ReplyData) :
  succeeds r = true -> exists d, r = Return d.
Proof. destruct r as [d|e]; simpl; [eauto | discriminate]. Qed.

(** A reentrant [lock] only counts. *)
Lemma lock_with_reentrant b w :
  1 <= _nested_locks (self w) ->
  lock_with broker fuel b w
  = Some (update (set_nested_locks (_nested_locks (self w) + 1)) w, Return tt).
Proof.
  intros Hd. unfold lock_with. unfold_m.
  destruct (Z.ltb_spec 1 (_nested_locks (self w) + 1)); [reflexivity | lia].
Qed.

(** The outermost [lock] against a broker whose first reply confirms. *)
Lemma lock_with_first_confirmed b w budget n :
  fuel = S n ->
  _nested_locks (self w) = 0 ->
  _lock_attempts (self w) = Some budget -> 0 <= budget ->
  confirms (answer broker (wire w) (board_select (iid (self w)))) = true ->
  lock_with broker fuel b w
  = Some (mkWorld (set_nested_locks 1 (self w))
                  (wire w ++ [Sent (board_select (iid (self w)))]), Return tt).
Proof.
  intros -> Hd Hb Hpos Hc. unfold lock_with. unfold_m. rewrite Hd. simpl.
  rewrite Hb.
  replace ((budget =? 0) || (0 <? budget)) with true by
    (symmetry; apply orb_true_iff; destruct (Z.eqb_spec budget 0); [left | right];
     [reflexivity | apply Z.ltb_lt; lia]).
  unfold_m.
  apply confirms_inv in Hc as (d & -> & Hs). rewrite Hs. reflexivity.
Qed.

Lemma lock_with_granted b w :
  grants_select broker -> (1 <= fuel)%nat -> ready (self w) ->
  lock_with broker fuel b w
  = Some (mkWorld (set_nested_locks (_nested_locks (self w) + 1) (self w))
            (wire w ++ if _nested_locks (self w) =? 0
                       then [Sent (board_select (iid (self w)))] else []),
          Return tt).
Proof.
  intros Hg Hf [(budget & Hb & Hpos) Hd].
  destruct (Z.eqb_spec (_nested_locks (self w)) 0) as [E|E].
  - assert (exists n, fuel = S n) as [n Hn] by (exists (pred fuel); lia).
    rewrite (lock_with_first_confirmed b w budget n); auto.
    rewrite E. reflexivity.
  - rewrite lock_with_reentrant by lia.
    unfold update. rewrite app_nil_r. reflexivity.
Qed.

(** [unlock] on a session that is not locked: nothing changes and nothing
    is sent, whatever the broker. *)
Lemma unlock_idle w :
  _nested_locks (self w) = 0 -> unlock broker w = Some (w, Return tt).
Proof.
  intros Hd. unfold unlock. unfold_m. rewrite Hd. simpl. rewrite Hd. reflexivity.
Qed.

Lemma unlock_accepted w :
  accepts_deselect broker -> 0 <= _nested_locks (self w) ->
  unlock broker w
  = Some (mkWorld (set_nested_locks (Z.max 0 (_nested_locks (self w) - 1)) (self w))
            (wire w ++ if _nested_locks (self w) =? 1
                       then [Sent board_deselect] else []),
          Return tt).
Proof.
  intros Ha Hd. unfold unlock. unfold_m.
  destruct (Z.eqb_spec (_nested_locks (self w)) 1) as [E|E].
  - destruct (succeeds_inv _ (Ha (wire w))) as [d ->]. simpl.
    rewrite E. simpl. rewrite E. reflexivity.
  - simpl. rewrite app_nil_r.
    destruct (Z.ltb_spec 0 (_nested_locks (self w))).
    + rewrite Z.max_r by lia. reflexivity.
    + assert (_nested_locks (self w) = 0) as E0 by lia.
      rewrite E0. simpl. destruct w as [[] ?]; simpl in *; subst; reflexivity.
Qed.

(** *** The reference count *)

Lemma depth_after_nonneg cs : forall d, 0 <= d -> 0 <= depth_after d cs.
Proof.
  induction cs as [|[|] cs IH]; intros d Hd; simpl; [assumption | |];
    apply IH; lia.
Qed.

Lemma count_locks_cons c cs :
  count_locks (c :: cs) = (if is_lock c then 1 else 0) + count_locks cs.
Proof.
  unfold count_locks. destruct c.
  - rewrite filter_cons_True by reflexivity. cbn [length is_lock]. lia.
  - rewrite filter_cons_False by discriminate. cbn [is_lock]. lia.
Qed.

Lemma count_unlocks_cons c cs :
  count_unlocks (c :: cs) = (if is_lock c then 0 else 1) + count_unlocks cs.
Proof.
  unfold count_unlocks. destruct c.
  - rewrite filter_cons_False by discriminate. cbn [is_lock]. lia.
  - rewrite filter_cons_True by reflexivity. cbn [length is_lock]. lia.
Qed.

(** The depth is the difference of the two counts once the unlock calls
    made at depth 0 are given back. *)
Lemma depth_after_counts cs : forall d, 0 <= d ->
  depth_after d cs = d + count_locks cs - count_unlocks cs + idle_unlocks d cs.
Proof.
  induction cs as [|c cs IH]; intros d Hd.
  - unfold count_locks, count_unlocks. simpl. lia.
  - rewrite count_locks_cons, count_unlocks_cons. destruct c; simpl.
    + rewrite IH by lia. lia.
    + rewrite IH by lia. destruct (Z.eqb_spec d 0); lia.
Qed.

Lemma idle_unlocks_nonneg cs : forall d, 0 <= idle_unlocks d cs.
Proof.
  induction cs as [|[|] cs IH]; intros d; simpl; [lia | apply IH |].
  specialize (IH (Z.max 0 (d - 1))). destruct (d =? 0); lia.
Qed.

Lemma depth_after_clipped cs :
  idle_unlocks 0 cs = 0 -> depth_after 0 cs = clipped_difference cs.
Proof.
  intros Hi. pose proof (depth_after_nonneg cs 0 ltac:(lia)) as Hn.
  rewrite depth_after_counts in * by lia. unfold clipped_difference. lia.
Qed.

Lemma depth_after_app cs1 cs2 : forall d,
  depth_after d (cs1 ++ cs2) = depth_after (depth_after d cs1) cs2.
Proof. induction cs1 as [|[|] cs1 IH]; intros d; simpl; auto. Qed.

Lemma expected_traffic_app id cs1 cs2 : forall d,
  expected_traffic id d (cs1 ++ cs2)
  = expected_traffic id d cs1 ++ expected_traffic id (depth_after d cs1) cs2.
Proof.
  induction cs1 as [|[|] cs1 IH]; intros d; simpl; auto;
    rewrite IH, app_assoc; reflexivity.
Qed.

Lemma nested_locks_depth n : forall d,
  depth_after d (replicate n CLock) = d + Z.of_nat n.
Proof. induction n as [|n IH]; intros d; simpl; [lia | rewrite IH; lia]. Qed.

Lemma nested_locks_traffic id n : forall d, 1 <= d ->
  expected_traffic id d (replicate n CLock) = [].
Proof.
  induction n as [|n IH]; intros d Hd; simpl; [reflexivity|].
  rewrite IH by lia. destruct (Z.eqb_spec d 0); [lia | reflexivity].
Qed.

Lemma nested_unlocks n : forall d id, d = Z.of_nat n ->
  depth_after d (replicate n CUnlock) = 0 /\
  expected_traffic id d (replicate n CUnlock)
  = if d =? 0 then [] else [Sent board_deselect].
Proof.
  induction n as [|n IH]; intros d id Hd; simpl.
  - subst d. simpl. split; reflexivity.
  - destruct (IH (Z.max 0 (d - 1)) id ltac:(lia)) as [IH1 IH2].
    rewrite IH1, IH2. split; [reflexivity|].
    destruct (Z.eqb_spec d 1), (Z.eqb_spec (Z.max 0 (d - 1)) 0),
      (Z.eqb_spec d 0); try lia; reflexivity.
Qed.

(** A nest of locks of any depth, released again, is one select and one
    deselect. *)
Lemma nest_traffic id n :
  depth_after 0 (replicate (S n) CLock ++ replicate (S n) CUnlock) = 0 /\
  expected_traffic id 0 (replicate (S n) CLock ++ replicate (S n) CUnlock)
  = [Sent (board_select id); Sent board_deselect].
Proof.
  rewrite depth_after_app, expected_traffic_app, nested_locks_depth.
  destruct (nested_unlocks (S n) (0 + Z.of_nat (S n)) id ltac:(lia)) as [H1 H2].
  rewrite H1, H2. split; [reflexivity|].
  change (replicate (S n) CLock) with (CLock :: replicate n CLock).
  cbn [expected_traffic]. rewrite nested_locks_traffic by lia.
  destruct (Z.eqb_spec (0 + Z.of_nat (S n)) 0); [lia | reflexivity].
Qed.

Lemma ready_set_nested_locks s n :
  ready s -> 0 <= n -> ready (set_nested_locks n s).
Proof. intros [Hb _] Hn. split; [exact Hb | exact Hn]. Qed.

Lemma set_nested_locks_twice a b s :
  set_nested_locks a (set_nested_locks b s) = set_nested_locks a s.
Proof. reflexivity. Qed.

(** The code against the reference: depth and traffic of any sequence. *)
Lemma run_calls_refines cs : forall w,
  grants_select broker -> accepts_deselect broker -> (1 <= fuel)%nat ->
  ready (self w) ->
  run_calls broker fuel cs w
  = Some (mkWorld (set_nested_locks (depth_after (_nested_locks (self w)) cs) (self w))
            (wire w ++ expected_traffic (iid (self w)) (_nested_locks (self w)) cs),
          Return tt).
Proof.
  induction cs as [|c cs IH]; intros w Hg Ha Hf Hr.
  - simpl. unfold ret. rewrite app_nil_r.
    destruct w as [[] ?]; reflexivity.
  - pose proof Hr as [_ Hd].
    cbn [run_calls]. unfold bind at 1. destruct c; cbn [do_call].
    + unfold lock. rewrite lock_with_granted by assumption.
      rewrite IH; auto; [| apply ready_set_nested_locks; [assumption | simpl; lia]].
      simpl. rewrite <- app_assoc. reflexivity.
    + rewrite unlock_accepted by assumption.
      rewrite IH; auto; [| apply ready_set_nested_locks; [assumption | simpl; lia]].
      simpl. rewrite <- app_assoc. reflexivity.
Qed.

End LockUnlock.

(** *** Reentrant locking *)

(** C1, as the specification words it, fails: after [unlock(); lock()] on an
    unlocked session whose selects are all confirmed the depth is 1, while
    the number of lock calls minus the number of unlock calls, clipped at 0,
    is 0. *)
Lemma C1_clipped_total_counterexample :
  ~ (forall cs w',
       run_calls granting 1 cs (mkWorld (sample_session 0 5) [])
       = Some (w', Return tt) ->
       _nested_locks (self w') = clipped_difference cs).
Proof.
  intros H. specialize (H [CUnlock; CLock] _ eq_refl). vm_compute in H.
  discriminate H.
Qed.

(** C1 (amended): for every sequence of lock() and unlock() calls on an
    initialised session, against a broker that confirms every board_select
    and accepts every board_deselect, all calls return; lockDepth stays >= 0
    and is the count of lock calls minus unlock calls with the clipping
    applied at each call, that is, the difference of the totals plus the
    number of unlock calls made at depth 0 (so it is the clipped difference
    whenever no unlock was made at depth 0); board_select is sent exactly at
    the lock calls made at depth 0 and board_deselect exactly at the unlock
    calls made at depth 1, so a nest of any depth sends one of each; and
    unlock() at depth 0 changes nothing and sends nothing. *)
Theorem C1_lock_depth_and_traffic (broker : Broker) (fuel : nat)
    (cs : list Call) (w : World) :
  grants_select broker -> accepts_deselect broker -> (1 <= fuel)%nat ->
  ready (self w) ->
  let d := _nested_locks (self w) in
  exists w',
    run_calls broker fuel cs w = Some (w', Return tt)
    /\ 0 <= _nested_locks (self w')
    /\ _nested_locks (self w') = depth_after d cs
    /\ _nested_locks (self w')
       = d + count_locks cs - count_unlocks cs + idle_unlocks d cs
    /\ (d = 0 -> idle_unlocks 0 cs = 0 ->
        _nested_locks (self w') = clipped_difference cs)
    /\ wire w' = wire w ++ expected_traffic (iid (self w)) d cs
    /\ (forall n, d = 0 ->
        cs = replicate (S n) CLock ++ replicate (S n) CUnlock ->
        _nested_locks (self w') = 0 /\
        wire w' = wire w ++ [Sent (board_select (iid (self w)));
                             Sent board_deselect])
    /\ (forall w0, _nested_locks (self w0) = 0 ->
        unlock broker w0 = Some (w0, Return tt)).
Proof.
  intros Hg Ha Hf Hr d. pose proof Hr as [_ Hd].
  eexists. split; [apply run_calls_refines; assumption|]. cbn [self wire].
  change (_nested_locks (set_nested_locks (depth_after d cs) (self w)))
    with (depth_after d cs).
  repeat split.
  - apply depth_after_nonneg; assumption.
  - apply depth_after_counts; assumption.
  - intros E Hi. fold d. rewrite E. apply depth_after_clipped; assumption.
  - fold d. rewrite H. subst cs. apply (nest_traffic 0 n).
  - fold d. rewrite H. subst cs.
    destruct (nest_traffic (iid (self w)) n) as [_ ->]. reflexivity.
  - intros w0 H0. apply unlock_idle; assumption.
Qed.

Lemma C1_lock_depth_and_traffic_witness :
  exists w',
    run_calls granting 1 [CUnlock; CLock; CLock; CUnlock]
      (mkWorld (sample_session 0 5) []) = Some (w', Return tt)
    /\ _nested_locks (self w') = 1
    /\ wire w' = [Sent (board_select 1)].
Proof.
  destruct (C1_lock_depth_and_traffic granting 1
              [CUnlock; CLock; CLock; CUnlock] (mkWorld (sample_session 0 5) []))
    as (w' & Hrun & _ & Hdepth & _ & _ & Hwire & _).
  - intros h id. reflexivity.
  - intros h. reflexivity.
  - lia.
  - split; [exists 5; split; [reflexivity | lia] | simpl; lia].
  - exists w'. split; [exact Hrun | split; [exact Hdepth | exact Hwire]].
Defined.

(** *** The retry loop *)

Section Retry.

Variable broker : Broker.

Lemma reports_busy_inv (r : Outcome ReplyData) :
  reports_busy r = true -> exists d, r = Return d /\ selected d = Some false.
Proof.
  destruct r as [d|e]; simpl; [|discriminate].
  destruct (selected d) as [[|]|] eqn:E; try discriminate.
  intros _. exists d. split; [reflexivity | exact E].
Qed.

Lemma count_selects_replicate id j :
  count_selects (replicate j (Sent (board_select id))) = j.
Proof. induction j as [|j IH]; simpl; [reflexivity | rewrite IH; reflexivity]. Qed.

Lemma replicate_snoc {A} (x : A) n : replicate n x ++ [x] = replicate (S n) x.
Proof. induction n as [|n IH]; simpl; [reflexivity | rewrite IH; reflexivity]. Qed.

Lemma loop_condition_holds budget attempts :
  budget = 0 \/ attempts < budget ->
  (budget =? 0) || (attempts <? budget) = true.
Proof.
  intros [->| H]; [reflexivity|].
  apply orb_true_iff. right. apply Z.ltb_lt. exact H.
Qed.

(** With the budget not yet used up, the loop goes on through the busy
    replies that are left and returns at the first confirming one. *)
Lemma lock_loop_succeeds b h0 busy budget :
  busy_then_free broker h0 busy ->
  budget = 0 \/ Z.of_nat busy + 1 <= budget ->
  forall r j n w,
    (j + r = busy)%nat -> (r < n)%nat ->
    _lock_attempts (self w) = Some budget ->
    wire w = h0 ++ replicate j (Sent (board_select (iid (self w)))) ->
    lock_loop broker b n (Z.of_nat j) w
    = Some (mkWorld (self w)
              (h0 ++ replicate (S busy) (Sent (board_select (iid (self w))))),
            Return tt).
Proof.
  intros Hbusy Hbud. induction r as [|r IH]; intros j n w Hj Hn Hb Hw;
    (destruct n as [|n]; [lia|]); cbn [lock_loop]; rewrite Hb;
    rewrite loop_condition_holds by lia; unfold_m;
    pose proof (Hbusy (replicate j (Sent (board_select (iid (self w)))))
                  (iid (self w))) as Hans;
    rewrite count_selects_replicate, <- Hw in Hans.
  - destruct (Nat.ltb_spec j busy); [lia|].
    apply confirms_inv in Hans as (d & -> & Hs). rewrite Hs.
    rewrite Hw, <- app_assoc, replicate_snoc.
    replace j with busy by lia. reflexivity.
  - destruct (Nat.ltb_spec j busy); [|lia].
    apply reports_busy_inv in Hans as (d & -> & Hs). rewrite Hs.
    replace (Z.of_nat j + 1) with (Z.of_nat (S j)) by lia.
    rewrite (IH (S j) n); cbn [self wire]; try lia; try assumption; [reflexivity|].
    rewrite Hw, <- app_assoc, replicate_snoc. reflexivity.
Qed.

(** With a positive budget no larger than the number of busy replies, the
    loop uses the budget up and raises. *)
Lemma lock_loop_exhausts b h0 busy budget :
  busy_then_free broker h0 busy ->
  1 <= budget <= Z.of_nat busy ->
  forall r j n w,
    Z.of_nat (j + r) = budget -> (r <= n)%nat ->
    _lock_attempts (self w) = Some budget ->
    wire w = h0 ++ replicate j (Sent (board_select (iid (self w)))) ->
    lock_loop broker b n (Z.of_nat j) w
    = Some (mkWorld (self w)
              (h0 ++ replicate (Z.to_nat budget) (Sent (board_select (iid (self w))))),
            Raise (CommandError (unable_to_lock (self w)))).
Proof.
  intros Hbusy Hbud. induction r as [|r IH]; intros j n w Hj Hn Hb Hw.
  - assert ((budget =? 0) || (Z.of_nat j <? budget) = false) as Hc.
    { apply orb_false_iff. split; [apply Z.eqb_neq | apply Z.ltb_ge]; lia. }
    destruct n; cbn [lock_loop]; rewrite Hb, Hc;
      (replace (Z.to_nat budget) with j by lia); rewrite <- Hw;
      destruct w; reflexivity.
  - destruct n as [|n]; [lia|]. cbn [lock_loop]. rewrite Hb.
    rewrite loop_condition_holds by lia. unfold_m.
    pose proof (Hbusy (replicate j (Sent (board_select (iid (self w)))))
                  (iid (self w))) as Hans.
    rewrite count_selects_replicate, <- Hw in Hans.
    destruct (Nat.ltb_spec j busy); [|lia].
    apply reports_busy_inv in Hans as (d & -> & Hs). rewrite Hs.
    replace (Z.of_nat j + 1) with (Z.of_nat (S j)) by lia.
    rewrite (IH (S j) n); cbn [self wire]; try lia; try assumption; [reflexivity|].
    rewrite Hw, <- app_assoc, replicate_snoc. reflexivity.
Qed.

End Retry.

(** C2: an unlocked session whose broker reports the device busy to exactly
    the first N board_select requests and confirms afterwards.  When the
    budget is the sentinel 0 or at least N+1, lock() returns after exactly
    N+1 requests with the depth at 1, for every fuel above N (so with the
    sentinel it retries until the confirming reply); when 1 <= budget <= N
    it raises the "may be in use" CommandError after budget requests. *)
Theorem C2_lock_retry_budget (broker : Broker) (fuel busy : nat)
    (budget : Z) (w : World) :
  _nested_locks (self w) = 0 ->
  _lock_attempts (self w) = Some budget ->
  busy_then_free broker (wire w) busy ->
  (busy < fuel)%nat ->
  let request := Sent (board_select (iid (self w))) in
  (budget = 0 \/ Z.of_nat busy + 1 <= budget ->
   lock broker fuel w
   = Some (mkWorld (set_nested_locks 1 (self w))
             (wire w ++ replicate (S busy) request), Return tt))
  /\ (1 <= budget <= Z.of_nat busy ->
      lock broker fuel w
      = Some (mkWorld (set_nested_locks 1 (self w))
                (wire w ++ replicate (Z.to_nat budget) request),
              Raise (CommandError (unable_to_lock (self w))))).
Proof.
  intros Hd Hb Hbusy Hf request.
  assert (forall o,
    lock_loop broker (name_bound "ServerError") fuel (Z.of_nat 0)
      (mkWorld (set_nested_locks 1 (self w)) (wire w)) = o ->
    lock broker fuel w = o) as Hstep.
  { intros o <-. unfold lock, lock_with. unfold_m. rewrite Hd. reflexivity. }
  split; intros Hbud; apply Hstep.
  - rewrite (lock_loop_succeeds broker _ (wire w) busy budget Hbusy Hbud busy 0%nat);
      cbn [self wire]; try lia; try assumption; [reflexivity|].
    simpl. rewrite app_nil_r. reflexivity.
  - rewrite (lock_loop_exhausts broker _ (wire w) busy budget Hbusy Hbud
               (Z.to_nat budget) 0%nat);
      cbn [self wire]; try lia; try assumption; [reflexivity|].
    simpl. rewrite app_nil_r. reflexivity.
Qed.

Lemma C2_lock_retry_budget_witness :
  lock (busy_broker 2) 3 (mkWorld (sample_session 0 5) [])
  = Some (mkWorld (sample_session 1 5)
            [Sent (board_select 1); Sent (board_select 1); Sent (board_select 1)],
          Return tt).
Proof.
  apply (C2_lock_retry_budget (busy_broker 2) 3 2 5 (mkWorld (sample_session 0 5) [])).
  - reflexivity.
  - reflexivity.
  - intros h id. simpl. destruct (count_selects h <? 2)%nat; reflexivity.
  - lia.
  - right. lia.
Defined.

(** *** Errors during [lock] *)

Section LockErrors.

Variable broker : Broker.

(** Whatever the channel raises for the first select, [lock] raises a
    NameError in its place: transport.py binds no [ServerError]. *)
Lemma lock_masks_channel_errors n (w : World) budget e :
  _nested_locks (self w) = 0 ->
  _lock_attempts (self w) = Some budget -> 0 <= budget ->
  answer broker (wire w) (board_select (iid (self w))) = Raise e ->
  lock broker (S n) w
  = Some (mkWorld (set_nested_locks 1 (self w))
            (wire w ++ [Sent (board_select (iid (self w)))]),
          Raise (NameError "ServerError")).
Proof.
  intros Hd Hb Hpos He. unfold lock, lock_with. unfold_m. rewrite Hd. simpl.
  rewrite Hb, loop_condition_holds by lia. unfold_m. rewrite He. reflexivity.
Qed.

(** Were the name bound, an unknown device id would end [lock] at the first
    request with the CommandError that names the device. *)
Lemma lock_with_bound_unknown_device n (w : World) budget :
  _nested_locks (self w) = 0 ->
  _lock_attempts (self w) = Some budget -> 0 <= budget ->
  answer broker (wire w) (board_select (iid (self w)))
  = Raise (ServerError "KeyError") ->
  lock_with broker (S n) true w
  = Some (mkWorld (set_nested_locks 1 (self w))
            (wire w ++ [Sent (board_select (iid (self w)))]),
          Raise (CommandError (unable_to_select (self w)))).
Proof.
  intros Hd Hb Hpos He. unfold lock_with. unfold_m. rewrite Hd. simpl.
  rewrite Hb, loop_condition_holds by lia. unfold_m. rewrite He. reflexivity.
Qed.

(** Were the name bound, any other exception of the channel would leave
    [lock] unchanged. *)
Lemma lock_with_bound_other_error n (w : World) budget e :
  _nested_locks (self w) = 0 ->
  _lock_attempts (self w) = Some budget -> 0 <= budget ->
  answer broker (wire w) (board_select (iid (self w))) = Raise e ->
  e <> ServerError "KeyError" ->
  lock_with broker (S n) true w
  = Some (mkWorld (set_nested_locks 1 (self w))
            (wire w ++ [Sent (board_select (iid (self w)))]),
          Raise e).
Proof.
  intros Hd Hb Hpos He Hne. unfold lock_with. unfold_m. rewrite Hd. simpl.
  rewrite Hb, loop_condition_holds by lia. unfold_m. rewrite He.
  destruct e as [type| | | | | | | |]; try reflexivity.
  unfold lock_except.
  destruct (String.eqb_spec type "KeyError") as [->|]; [congruence | reflexivity].
Qed.

(** A [lock] that raises has sent selects only, none of them confirmed, and
    has left the session as it was after the increment. *)
Lemma lock_loop_raises b : forall n attempts w w' e,
  lock_loop broker b n attempts w = Some (w', Raise e) ->
  self w' = self w /\
  exists k,
    wire w' = wire w ++ replicate k (Sent (board_select (iid (self w)))) /\
    forall j, (j < k)%nat ->
      confirms (answer broker
                  (wire w ++ replicate j (Sent (board_select (iid (self w)))))
                  (board_select (iid (self w)))) = false.
Proof.
  induction n as [|n IH]; intros attempts w w' e; cbn [lock_loop];
    destruct (_lock_attempts (self w)) as [budget|];
    try (destruct ((budget =? 0) || (attempts <? budget)));
    try discriminate;
    try (intros [= <- <-]; split; [reflexivity|]; exists 0%nat;
         split; [simpl; rewrite app_nil_r; reflexivity | intros; lia]).
  unfold_m.
  destruct (answer broker (wire w) (board_select (iid (self w)))) as [d|e0] eqn:Ea.
  - destruct (selected d) as [[|]|] eqn:Es.
    + discriminate.
    + intros Hrec. apply IH in Hrec as [Hs (k & Hw & Hk)]. cbn [self wire] in *.
      split; [exact Hs|]. exists (S k). split.
      * rewrite Hw, <- app_assoc. reflexivity.
      * intros [|j] Hj.
        -- simpl. rewrite app_nil_r, Ea. simpl. rewrite Es. reflexivity.
        -- specialize (Hk j ltac:(lia)). rewrite <- app_assoc in Hk. exact Hk.
    + intros Hh.
      assert (self w' = self w /\
              wire w' = wire w ++ [Sent (board_select (iid (self w)))])
        as [Hs Hw].
      { unfold lock_except in Hh. destruct b; unfold_m; injection Hh as <- _; split; reflexivity. }
      split; [exact Hs|]. exists 1%nat. split; [exact Hw|].
      intros j Hj. assert (j = 0)%nat as -> by lia. simpl.
      rewrite app_nil_r, Ea. simpl. rewrite Es. reflexivity.
  - intros Hh.
    assert (self w' = self w /\
            wire w' = wire w ++ [Sent (board_select (iid (self w)))])
      as [Hs Hw].
    { unfold lock_except in Hh. destruct b; [destruct e0 as [type| | | | | | | |]|];
        try (destruct (String.eqb type "KeyError"));
        unfold_m; injection Hh as <- _; split; reflexivity. }
    split; [exact Hs|]. exists 1%nat. split; [exact Hw|].
    intros j Hj. assert (j = 0)%nat as -> by lia. simpl.
    rewrite app_nil_r, Ea. reflexivity.
Qed.

End LockErrors.

(** C3: on the reply that reports the device id unknown (a ServerError
    whose type is KeyError) lock() raises at the first request, but what it
    raises is NameError("ServerError") and not the CommandError naming the
    device: the [except ServerError] clause names a class transport.py never
    imports.  With the name bound the same call raises
    "Unable to select device 0d28:0204:1". *)
Theorem C3_unknown_device_raises_NameError :
  lock (refusing_broker (ServerError "KeyError")) 1
    (mkWorld (sample_session 0 5) [])
  = Some (mkWorld (sample_session 1 5) [Sent (board_select 1)],
          Raise (NameError "ServerError"))
  /\ lock_with (refusing_broker (ServerError "KeyError")) 1 true
       (mkWorld (sample_session 0 5) [])
     = Some (mkWorld (sample_session 1 5) [Sent (board_select 1)],
             Raise (CommandError "Unable to select device 0d28:0204:1"))
  /\ lock (refusing_broker (SocketError "timed out")) 1
       (mkWorld (sample_session 0 5) [])
     = Some (mkWorld (sample_session 1 5) [Sent (board_select 1)],
             Raise (NameError "ServerError")).
Proof. repeat split; vm_compute; reflexivity. Qed.

(** C10: whenever lock() raises, the depth is one more than before the
    call: the increment made on entry is not rolled back.  A failed
    outermost lock() therefore leaves locked() true although the call sent
    nothing but board_select requests, none of which was confirmed. *)
Theorem C10_failed_lock_keeps_increment (broker : Broker) (fuel : nat)
    (w w' : World) (e : exn) :
  lock broker fuel w = Some (w', Raise e) ->
  self w' = set_nested_locks (_nested_locks (self w) + 1) (self w)
  /\ _nested_locks (self w') = _nested_locks (self w) + 1
  /\ (_nested_locks (self w) = 0 -> locked (self w') = true)
  /\ exists k,
       wire w' = wire w ++ replicate k (Sent (board_select (iid (self w)))) /\
       forall j, (j < k)%nat ->
         confirms (answer broker
                     (wire w ++ replicate j (Sent (board_select (iid (self w)))))
                     (board_select (iid (self w)))) = false.
Proof.
  unfold lock, lock_with. unfold_m.
  destruct (1 <? _nested_locks (self w) + 1); [discriminate|].
  intros Hl. apply lock_loop_raises in Hl as [Hs (k & Hw & Hk)].
  cbn [self wire] in *. rewrite Hs. cbn [_nested_locks set_nested_locks].
  repeat split.
  - intros ->. reflexivity.
  - exists k. split; assumption.
Qed.

Lemma C10_failed_lock_keeps_increment_witness :
  exists w' e,
    lock (busy_broker 7) 3 (mkWorld (sample_session 0 2) [])
    = Some (w', Raise e)
    /\ _nested_locks (self w') = 1
    /\ locked (self w') = true.
Proof.
  destruct (C10_failed_lock_keeps_increment (busy_broker 7) 3
              (mkWorld (sample_session 0 2) [])
              (mkWorld (sample_session 1 2)
                 [Sent (board_select 1); Sent (board_select 1)])
              (CommandError (unable_to_lock (sample_session 0 2))))
    as (_ & Hdepth & Hlocked & _).
  - vm_compute. reflexivity.
  - eexists _, _. split; [vm_compute; reflexivity|].
    split; [exact Hdepth | apply Hlocked; reflexivity].
Defined.

(** *** Lock-scoped operations against a cooperative broker *)

(** *** Channel histories *)

Lemma framed_nested d id mid : d <> 0 -> framed d id mid = mid.
Proof.
  intros Hd. unfold framed. destruct (Z.eqb_spec d 0); [contradiction|].
  simpl. apply app_nil_r.
Qed.

Lemma entering_nested (w : World) :
  _nested_locks (self w) <> 0 ->
  entering w = update (set_nested_locks (_nested_locks (self w) + 1)) w.
Proof.
  intros Hd. unfold entering, update.
  destruct (Z.eqb_spec (_nested_locks (self w)) 0); [contradiction|].
  rewrite app_nil_r. reflexivity.
Qed.

Lemma count_flushes_app h1 h2 :
  count_flushes (h1 ++ h2) = (count_flushes h1 + count_flushes h2)%nat.
Proof. induction h1 as [|e h1 IH]; simpl; [reflexivity | rewrite IH; lia]. Qed.

Lemma count_flushes_framed d id mid :
  count_flushes (framed d id mid) = count_flushes mid.
Proof.
  unfold framed. rewrite !count_flushes_app.
  destruct (d =? 0); simpl; lia.
Qed.

Lemma write_command_not_flush o : count_flushes [Sent (write_command o)] = O.
Proof. destruct o; reflexivity. Qed.

Lemma count_flushes_deferred_writes d id (os : list WriteOp) :
  count_flushes (concat (map (fun o => framed d id [Sent (write_command o)]) os)) = O.
Proof.
  induction os as [|o os IH]; cbn [map concat]; [reflexivity|].
  rewrite count_flushes_app, count_flushes_framed, IH, write_command_not_flush.
  reflexivity.
Qed.

Lemma pending_reads_snoc h e :
  pending_reads (h ++ [e]) = note_event (pending_reads h) e.
Proof. unfold pending_reads. rewrite fold_left_app. reflexivity. Qed.

Lemma pending_reads_entering (w : World) :
  pending_reads (wire (entering w)) = pending_reads (wire w).
Proof.
  unfold entering. cbn [wire]. destruct (_nested_locks (self w) =? 0).
  - rewrite pending_reads_snoc. reflexivity.
  - rewrite app_nil_r. reflexivity.
Qed.

Lemma pending_reads_framed_read h d id c :
  is_read c = true ->
  pending_reads (h ++ framed d id [Sent c]) = pending_reads h ++ [c].
Proof.
  intros Hc. unfold framed. destruct (d =? 0); simpl.
  - change (h ++ Sent (board_select id) :: Sent c :: [Sent board_deselect])
      with (h ++ [Sent (board_select id)] ++ [Sent c] ++ [Sent board_deselect]).
    rewrite !app_assoc, !pending_reads_snoc. cbn [note_event].
    destruct c; try discriminate; reflexivity.
  - rewrite pending_reads_snoc. destruct c; try discriminate; reflexivity.
Qed.

Lemma is_read_read_command r : is_read (read_command r) = true.
Proof. destruct r; reflexivity. Qed.

Lemma ready_entering w : ready (self w) -> ready (self (entering w)).
Proof. intros Hr. destruct Hr as [Hb Hd]. split; [exact Hb | simpl; lia]. Qed.

Lemma leaving_entering (f : Session -> Session) (w : World) (mid : list Event) :
  (forall s n, set_nested_locks n (f s) = f (set_nested_locks n s)) ->
  leaving (_nested_locks (self w))
    (mkWorld (f (self (entering w))) (wire (entering w) ++ mid))
  = mkWorld (f (self w))
      (wire w ++ framed (_nested_locks (self w)) (iid (self w)) mid).
Proof.
  intros Hf. unfold leaving, entering, framed. cbn [self wire].
  rewrite Hf, set_nested_locks_twice, <- !app_assoc.
  f_equal. f_equal. destruct w as [[] ?]; reflexivity.
Qed.

Section Scoped.

Variable broker : Broker.
Variable fuel : nat.
Hypothesis Hcoop : cooperative broker.
Hypothesis Hfuel : (1 <= fuel)%nat.

Lemma cooperative_accepts_deselect : accepts_deselect broker.
Proof. intros h. apply Hcoop. Qed.

(** [with self:] around a body that ends, normally or not, at the depth it
    was entered with. *)
Lemma with_self_run {A} (body : M A) (w w2 : World) (r : Outcome A) :
  ready (self w) ->
  body (entering w) = Some (w2, r) ->
  _nested_locks (self w2) = _nested_locks (self w) + 1 ->
  with_self broker fuel body w = Some (leaving (_nested_locks (self w)) w2, r).
Proof.
  intros Hr Hbody Hd. pose proof Hr as [_ Hpos].
  unfold with_self. unfold bind at 1. unfold lock.
  rewrite lock_with_granted by (assumption || apply Hcoop).
  fold (entering w). unfold try_finally. rewrite Hbody.
  rewrite unlock_accepted by (apply cooperative_accepts_deselect || lia).
  rewrite Hd. unfold leaving.
  replace (Z.max 0 (_nested_locks (self w) + 1 - 1)) with (_nested_locks (self w)) by lia.
  destruct (Z.eqb_spec (_nested_locks (self w) + 1) 1),
    (Z.eqb_spec (_nested_locks (self w)) 0); try lia; destruct r; reflexivity.
Qed.

(** One command in the scope of the lock. *)
Lemma scoped_command (c : Command) (w : World) :
  ready (self w) ->
  with_self broker fuel (do _ <- _command broker c; ret tt) w
  = Some (mkWorld (self w)
            (wire w ++ framed (_nested_locks (self w)) (iid (self w)) [Sent c]),
          Return tt).
Proof.
  intros Hr.
  destruct (succeeds_inv _ (proj2 Hcoop (wire (entering w)) c)) as [d Hd].
  erewrite with_self_run; [| assumption | unfold_m; rewrite Hd; reflexivity | reflexivity].
  f_equal. f_equal. apply (leaving_entering (fun s => s)). reflexivity.
Qed.

(** [flush]: one request; the reads of the reply go to the end of the
    buffer, in the order received. *)
Lemma flush_run (w : World) (data : ReplyData) :
  ready (self w) ->
  answer broker (wire (entering w)) flush_cmd = Return data ->
  flush broker fuel w
  = Some (mkWorld (set_buffer (_buffer (self w) ++ default [] (reads data)) (self w))
            (wire w ++ framed (_nested_locks (self w)) (iid (self w)) [Sent flush_cmd]),
          Return tt).
Proof.
  intros Hr Hd. unfold flush.
  erewrite with_self_run with
    (w2 := mkWorld (set_buffer (_buffer (self w) ++ default [] (reads data))
                      (self (entering w)))
             (wire (entering w) ++ [Sent flush_cmd]));
    [| assumption | | reflexivity].
  - f_equal. f_equal.
    apply (leaving_entering (set_buffer (_buffer (self w) ++ default [] (reads data)))).
    reflexivity.
  - unfold_m. rewrite Hd. destruct (reads data) as [l|]; simpl.
    + reflexivity.
    + rewrite app_nil_r. destruct w as [[] ?]; reflexivity.
Qed.

Lemma flush_returns (w : World) :
  ready (self w) ->
  exists data,
    answer broker (wire (entering w)) flush_cmd = Return data /\
    flush broker fuel w
    = Some (mkWorld (set_buffer (_buffer (self w) ++ default [] (reads data)) (self w))
              (wire w ++ framed (_nested_locks (self w)) (iid (self w)) [Sent flush_cmd]),
            Return tt).
Proof.
  intros Hr.
  destruct (succeeds_inv _ (proj2 Hcoop (wire (entering w)) flush_cmd)) as [d Hd].
  exists d. split; [exact Hd | apply flush_run; assumption].
Qed.

(** Complete-write with deferred transfers off: the write command, then
    one flush, then the return. *)
Lemma write_immediate (c : Command) (w : World) :
  ready (self w) -> deferred_transfer (self w) = false ->
  exists l,
    with_self broker fuel (run _command broker c; _write broker fuel) w
    = Some (mkWorld (set_buffer (_buffer (self w) ++ l) (self w))
              (wire w ++ framed (_nested_locks (self w)) (iid (self w))
                           [Sent c; Sent flush_cmd]),
            Return tt).
Proof.
  intros Hr Hdef. pose proof Hr as [_ Hpos].
  destruct (succeeds_inv _ (proj2 Hcoop (wire (entering w)) c)) as [d Hd].
  set (w1 := mkWorld (self (entering w)) (wire (entering w) ++ [Sent c])).
  assert (ready (self w1)) as Hr1 by (apply ready_entering; assumption).
  destruct (flush_returns w1 Hr1) as (data & _ & Hflush).
  exists (default [] (reads data)).
  erewrite with_self_run; [| assumption | | ].
  - f_equal. f_equal.
    apply (leaving_entering (set_buffer (_buffer (self w) ++ default [] (reads data)))
             w [Sent c; Sent flush_cmd]).
    reflexivity.
  - unfold _write. unfold_m. rewrite Hd, Hdef. cbn [negb].
    fold w1. rewrite Hflush. rewrite framed_nested by (simpl; lia).
    unfold w1. cbn [self wire]. rewrite <- app_assoc. reflexivity.
  - reflexivity.
Qed.

(** Complete-write with deferred transfers on: the write command only. *)
Lemma write_deferred (c : Command) (w : World) :
  ready (self w) -> deferred_transfer (self w) = true ->
  with_self broker fuel (run _command broker c; _write broker fuel) w
  = Some (mkWorld (self w)
            (wire w ++ framed (_nested_locks (self w)) (iid (self w)) [Sent c]),
          Return tt).
Proof.
  intros Hr Hdef.
  destruct (succeeds_inv _ (proj2 Hcoop (wire (entering w)) c)) as [d Hd].
  erewrite with_self_run; [| assumption | | ].
  - f_equal. f_equal. apply (leaving_entering (fun s => s)). reflexivity.
  - unfold _write. unfold_m. rewrite Hd, Hdef. reflexivity.
  - reflexivity.
Qed.

Lemma write_op_scoped (o : WriteOp) :
  valid_write o = true ->
  write_op broker fuel o
  = with_self broker fuel
      (run _command broker (write_command o); _write broker fuel).
Proof.
  destruct o; simpl; intros Hv; try reflexivity.
  unfold writeMem. rewrite Hv. reflexivity.
Qed.

(** Any number of deferred writes: the write commands and no flush. *)
Lemma run_writes_deferred (os : list WriteOp) : forall w,
  ready (self w) -> deferred_transfer (self w) = true ->
  forallb valid_write os = true ->
  run_writes broker fuel os w
  = Some (mkWorld (self w)
            (wire w ++ concat (map (fun o =>
                                 framed (_nested_locks (self w)) (iid (self w))
                                   [Sent (write_command o)]) os)),
          Return tt).
Proof.
  induction os as [|o os IH]; intros w Hr Hdef Hv.
  - simpl. unfold ret. rewrite app_nil_r. destruct w; reflexivity.
  - simpl in Hv. apply andb_true_iff in Hv as [Hv1 Hv2].
    cbn [run_writes]. unfold bind at 1.
    rewrite write_op_scoped, write_deferred by assumption.
    rewrite IH by assumption. cbn [self wire map concat].
    rewrite <- app_assoc. reflexivity.
Qed.

(** *** Reads *)

(** Complete-read on a buffer that holds results: the oldest one, and no
    request, whatever the broker. *)
Lemma _read_buffered (w : World) v rest :
  _buffer (self w) = v :: rest ->
  _read broker fuel w = Some (update (set_buffer rest) w, Return v).
Proof. intros Hb. unfold _read. unfold_m. rewrite Hb. simpl. rewrite Hb. reflexivity. Qed.

(** Complete-read on an empty buffer: one flush, then the oldest of the
    results it brought. *)
Lemma _read_empty (w : World) :
  ready (self w) -> _buffer (self w) = [] ->
  exists data,
    answer broker (wire (entering w)) flush_cmd = Return data /\
    _read broker fuel w
    = Some (mkWorld (set_buffer (tail (default [] (reads data))) (self w))
              (wire w ++ framed (_nested_locks (self w)) (iid (self w)) [Sent flush_cmd]),
            match default [] (reads data) with
            | [] => Raise IndexError
            | v :: _ => Return v
            end).
Proof.
  intros Hr Hb. destruct (flush_returns w Hr) as (data & Hd & Hflush).
  exists data. split; [exact Hd|].
  unfold _read. unfold bind at 1. unfold get at 1. rewrite Hb.
  unfold bind at 1. rewrite Hflush, Hb. unfold_m.
  destruct (default [] (reads data)); reflexivity.
Qed.

Lemma read_request_scoped (r : ReadRequest) (mode : Z) :
  valid_read r = true ->
  read_request broker fuel r mode
  = with_self broker fuel (read_body broker fuel (read_command r) mode).
Proof.
  destruct r; simpl; intros Hv; try reflexivity.
  unfold readMem. rewrite Hv. reflexivity.
Qed.

(** READ_START: the request, no flush, no result. *)
Lemma read_start (c : Command) (w : World) :
  ready (self w) ->
  with_self broker fuel (read_body broker fuel c READ_START) w
  = Some (mkWorld (self w)
            (wire w ++ framed (_nested_locks (self w)) (iid (self w)) [Sent c]),
          Return None).
Proof.
  intros Hr.
  destruct (succeeds_inv _ (proj2 Hcoop (wire (entering w)) c)) as [d Hd].
  erewrite with_self_run; [| assumption | | ].
  - f_equal. f_equal. apply (leaving_entering (fun s => s)). reflexivity.
  - unfold read_body. unfold_m. rewrite Hd. reflexivity.
  - reflexivity.
Qed.

(** READ_END on a buffer that holds results: the oldest one, no request. *)
Lemma read_end_buffered (c : Command) (w : World) v rest :
  ready (self w) -> _buffer (self w) = v :: rest ->
  with_self broker fuel (read_body broker fuel c READ_END) w
  = Some (mkWorld (set_buffer rest (self w))
            (wire w ++ framed (_nested_locks (self w)) (iid (self w)) []),
          Return (Some v)).
Proof.
  intros Hr Hb.
  erewrite with_self_run; [| assumption | | ].
  - f_equal. f_equal.
    rewrite <- (leaving_entering (set_buffer rest) w []) by reflexivity.
    rewrite app_nil_r. reflexivity.
  - unfold read_body.
    change (issues READ_END) with false. change (consumes READ_END) with true.
    cbv iota. unfold bind at 1. unfold ret at 1. unfold bind at 1.
    rewrite (_read_buffered (entering w) v rest) by exact Hb. reflexivity.
  - reflexivity.
Qed.

(** READ_END on an empty buffer: one flush, then the oldest result of its
    reply. *)
Lemma read_end_empty (c : Command) (w : World) :
  ready (self w) -> _buffer (self w) = [] ->
  exists data,
    answer broker (wire (entering w)) flush_cmd = Return data /\
    with_self broker fuel (read_body broker fuel c READ_END) w
    = Some (mkWorld (set_buffer (tail (default [] (reads data))) (self w))
              (wire w ++ framed (_nested_locks (self w)) (iid (self w)) [Sent flush_cmd]),
            popped (default [] (reads data))).
Proof.
  intros Hr Hb. pose proof Hr as [_ Hpos].
  destruct (_read_empty (entering w) (ready_entering w Hr) Hb) as (data & Hd & Hread).
  rewrite entering_nested in Hd by (simpl; lia). cbn [update wire] in Hd.
  exists data. split; [exact Hd|].
  erewrite with_self_run; [| assumption | | ].
  - f_equal. f_equal.
    apply (leaving_entering (set_buffer (tail (default [] (reads data)))) w [Sent flush_cmd]).
    reflexivity.
  - unfold read_body.
    change (issues READ_END) with false. change (consumes READ_END) with true.
    cbv iota. unfold bind at 1. unfold ret at 1. unfold bind at 1.
    rewrite Hread. rewrite framed_nested by (simpl; lia).
    destruct (default [] (reads data)); reflexivity.
  - reflexivity.
Qed.

(** A consuming read, READ_NOW or READ_END, that finds the buffer empty:
    its request if it issues one, then one flush. *)
Lemma read_consuming_empty (c : Command) (mode : Z) (w : World) :
  consumes mode = true -> ready (self w) -> _buffer (self w) = [] ->
  exists data,
    with_self broker fuel (read_body broker fuel c mode) w
    = Some (mkWorld (set_buffer (tail (default [] (reads data))) (self w))
              (wire w ++ framed (_nested_locks (self w)) (iid (self w))
                           ((if issues mode then [Sent c] else [])
                              ++ [Sent flush_cmd])),
            popped (default [] (reads data))).
Proof.
  intros Hm Hr Hb. pose proof Hr as [_ Hpos].
  set (issued := if issues mode then [Sent c] else []).
  set (w1 := mkWorld (self (entering w)) (wire (entering w) ++ issued)).
  assert (ready (self w1)) as Hr1 by (apply ready_entering; assumption).
  destruct (_read_empty w1 Hr1 Hb) as (data & _ & Hread).
  exists data.
  erewrite with_self_run; [| assumption | | ].
  - f_equal. f_equal.
    apply (leaving_entering (set_buffer (tail (default [] (reads data)))) w
             (issued ++ [Sent flush_cmd])).
    reflexivity.
  - unfold read_body. rewrite Hm. unfold bind at 1.
    assert ((if issues mode then (do _ <- _command broker c; ret tt) else ret tt)
              (entering w) = Some (w1, Return tt)) as ->.
    { unfold w1, issued. destruct (issues mode).
      - destruct (succeeds_inv _ (proj2 Hcoop (wire (entering w)) c)) as [d Hd].
        unfold_m. rewrite Hd. reflexivity.
      - unfold ret. rewrite app_nil_r. destruct (entering w); reflexivity. }
    unfold bind at 1. rewrite Hread. rewrite framed_nested by (simpl; lia).
    unfold w1. cbn [self wire]. rewrite <- app_assoc.
    destruct (default [] (reads data)); reflexivity.
  - destruct (default [] (reads data)); reflexivity.
Qed.

End Scoped.

Lemma ready_set_buffer s l : ready s -> ready (set_buffer l s).
Proof. intros [Hb Hd]. split; assumption. Qed.

(** C4: three read requests issued with READ_START and then three calls
    with READ_END, on a session with nothing buffered and nothing
    outstanding, against a cooperative broker whose flush replies list the
    results of the pending requests in request order.  The three requests go
    out before any flush; the first READ_END sends the one flush; the three
    calls return the broker's results for the first, second and third
    request, in that order.  In general a consuming read returns the oldest
    buffered result without any request when the buffer is not empty, and
    otherwise flushes first, the reads of the reply being appended in the
    order received, and then takes the oldest. *)
Theorem C4_pipelined_reads_in_order (broker : Broker) (fuel : nat)
    (value_of : list Event -> Command -> value)
    (r1 r2 r3 e1 e2 e3 : ReadRequest) (w : World) :
  cooperative broker -> flushes_in_order broker value_of ->
  (1 <= fuel)%nat -> ready (self w) ->
  forallb valid_read [r1; r2; r3; e1; e2; e3] = true ->
  _buffer (self w) = [] -> pending_reads (wire w) = [] ->
  let d := _nested_locks (self w) in
  let id := iid (self w) in
  let c1 := read_command r1 in
  let c2 := read_command r2 in
  let c3 := read_command r3 in
  let h3 := wire w ++ framed d id [Sent c1] ++ framed d id [Sent c2]
              ++ framed d id [Sent c3] in
  let hf := h3 ++ (if d =? 0 then [Sent (board_select id)] else []) in
  run_reads broker fuel [r1; r2; r3] READ_START w
  = Some (mkWorld (self w) h3, Return [None; None; None])
  /\ count_flushes h3 = count_flushes (wire w)
  /\ pending_reads h3 = [c1; c2; c3]
  /\ (exists w6,
        run_reads broker fuel [e1; e2; e3] READ_END (mkWorld (self w) h3)
        = Some (w6, Return [Some (value_of hf c1); Some (value_of hf c2);
                            Some (value_of hf c3)])
        /\ _buffer (self w6) = []
        /\ wire w6 = h3 ++ framed d id [Sent flush_cmd] ++ framed d id []
                        ++ framed d id []
        /\ count_flushes (wire w6) = S (count_flushes (wire w)))
  /\ (forall w0 v rest,
        _buffer (self w0) = v :: rest ->
        _read broker fuel w0 = Some (update (set_buffer rest) w0, Return v))
  /\ (forall w0,
        ready (self w0) -> _buffer (self w0) = [] ->
        exists data,
          answer broker (wire (entering w0)) flush_cmd = Return data /\
          _read broker fuel w0
          = Some (mkWorld (set_buffer (tail (default [] (reads data))) (self w0))
                    (wire w0 ++ framed (_nested_locks (self w0)) (iid (self w0))
                                  [Sent flush_cmd]),
                  match default [] (reads data) with
                  | [] => Raise IndexError
                  | v :: _ => Return v
                  end))
  /\ (forall w0,
        ready (self w0) ->
        exists data,
          answer broker (wire (entering w0)) flush_cmd = Return data /\
          flush broker fuel w0
          = Some (mkWorld (set_buffer (_buffer (self w0) ++ default [] (reads data))
                             (self w0))
                    (wire w0 ++ framed (_nested_locks (self w0)) (iid (self w0))
                                  [Sent flush_cmd]),
                  Return tt)).
Proof.
  intros Hcoop Hfifo Hfuel Hr Hv Hbuf Hpend d id c1 c2 c3 h3 hf.
  cbn [forallb] in Hv.
  repeat (apply andb_true_iff in Hv as [? Hv]).
  assert (pending_reads h3 = [c1; c2; c3]) as Hp3.
  { unfold h3. rewrite !app_assoc.
    rewrite !pending_reads_framed_read by apply is_read_read_command.
    rewrite Hpend. reflexivity. }
  assert (count_flushes h3 = count_flushes (wire w)) as Hc3.
  { unfold h3. rewrite !count_flushes_app, !count_flushes_framed.
    unfold c1, c2, c3. destruct r1, r2, r3; simpl; lia. }
  split; [|split; [exact Hc3 | split; [exact Hp3|]]].
  - cbn [run_reads]. rewrite !read_request_scoped by assumption.
    unfold bind at 1. rewrite (read_start broker fuel Hcoop Hfuel) by assumption.
    unfold bind at 1. unfold bind at 1.
    rewrite (read_start broker fuel Hcoop Hfuel) by assumption.
    unfold bind at 1. unfold bind at 1.
    rewrite (read_start broker fuel Hcoop Hfuel) by assumption.
    cbn [self wire]. unfold_m. unfold h3. rewrite <- !app_assoc. reflexivity.
  - split; [| repeat split].
    + set (w3 := mkWorld (self w) h3).
      assert (ready (self w3)) as Hr3 by exact Hr.
      destruct (read_end_empty broker fuel Hcoop Hfuel (read_command e1) w3 Hr3 Hbuf)
        as (data & Hans & Hend1).
      destruct (Hfifo (wire (entering w3))) as (data' & Hans' & Hreads).
      rewrite Hans in Hans'. injection Hans' as <-.
      rewrite pending_reads_entering in Hreads. cbn [wire w3] in Hreads.
      rewrite Hp3 in Hreads. cbn [map] in Hreads.
      change (wire (entering w3)) with hf in Hreads.
      rewrite Hreads in Hend1. cbn [default tail popped] in Hend1.
      eexists. split; [| split; [| split]].
      * cbn [run_reads]. rewrite !read_request_scoped by assumption.
        unfold bind at 1. rewrite Hend1.
        unfold bind at 1. unfold bind at 1.
        erewrite (read_end_buffered broker fuel Hcoop Hfuel);
          [| apply ready_set_buffer; exact Hr3 | reflexivity].
        unfold bind at 1. unfold bind at 1.
        erewrite (read_end_buffered broker fuel Hcoop Hfuel);
          [| apply ready_set_buffer; apply ready_set_buffer; exact Hr3 | reflexivity].
        unfold_m. reflexivity.
      * reflexivity.
      * cbn [self wire w3]. rewrite <- !app_assoc. reflexivity.
      * cbn [self wire w3]. rewrite !count_flushes_app, !count_flushes_framed.
        rewrite Hc3. simpl. lia.
    + intros w0 v rest Hb. apply _read_buffered. exact Hb.
    + intros w0 Hr0 Hb0. apply _read_empty; assumption.
    + intros w0 Hr0. apply flush_returns; assumption.
Qed.

Lemma fifo_broker_cooperative mem : cooperative (fifo_broker mem).
Proof. split; [intros h id; reflexivity | intros h c; destruct c; reflexivity]. Qed.

Lemma fifo_broker_flushes_in_order mem :
  flushes_in_order (fifo_broker mem) (fun _ => mem).
Proof. intros h. eexists. split; reflexivity. Qed.

Lemma sample_session_ready d budget :
  0 <= d -> 0 <= budget -> ready (sample_session d budget).
Proof. intros Hd Hb. split; [exists budget; split; [reflexivity | exact Hb] | exact Hd]. Qed.

Lemma C4_pipelined_reads_in_order_witness :
  run_reads (fifo_broker sample_mem) 1 [ReadDP 4; ReadAP 8; ReadMem 12 32]
    READ_START (mkWorld (sample_session 0 5) [])
  = Some (mkWorld (sample_session 0 5)
            [Sent (board_select 1); Sent (read_dp 4); Sent board_deselect;
             Sent (board_select 1); Sent (read_ap 8); Sent board_deselect;
             Sent (board_select 1); Sent (read_mem 32 12); Sent board_deselect],
          Return [None; None; None])
  /\ exists w6,
       run_reads (fifo_broker sample_mem) 1 [ReadDP 0; ReadAP 0; ReadMem 0 32]
         READ_END
         (mkWorld (sample_session 0 5)
            [Sent (board_select 1); Sent (read_dp 4); Sent board_deselect;
             Sent (board_select 1); Sent (read_ap 8); Sent board_deselect;
             Sent (board_select 1); Sent (read_mem 32 12); Sent board_deselect])
       = Some (w6, Return [Some (VInt 1004); Some (VInt 1008); Some (VInt 1012)]).
Proof.
  destruct (C4_pipelined_reads_in_order (fifo_broker sample_mem) 1
              (fun _ => sample_mem)
              (ReadDP 4) (ReadAP 8) (ReadMem 12 32)
              (ReadDP 0) (ReadAP 0) (ReadMem 0 32)
              (mkWorld (sample_session 0 5) []))
    as (Hstart & _ & _ & (w6 & Hend & _) & _).
  - split; [intros h id; reflexivity | intros h c; destruct c; reflexivity].
  - intros h. eexists. split; reflexivity.
  - lia.
  - split; [exists 5; split; [reflexivity | lia] | simpl; lia].
  - reflexivity.
  - reflexivity.
  - reflexivity.
  - split; [exact Hstart | exists w6; exact Hend].
Defined.

(** C5: with deferredTransfer false each write operation (writeDP,
    writeAP, writeMem, writeBlock32) sends its write command, then exactly
    one flush, and returns; with deferredTransfer true any number of
    consecutive writes sends the write commands and no flush, and the next
    explicit flush(), or the next consuming read that finds the result
    buffer empty, sends one. *)
Theorem C5_write_flush_discipline (broker : Broker) (fuel : nat) (w : World) :
  cooperative broker -> (1 <= fuel)%nat -> ready (self w) ->
  let d := _nested_locks (self w) in
  let id := iid (self w) in
  (deferred_transfer (self w) = false ->
   forall o, valid_write o = true ->
     exists w',
       write_op broker fuel o w = Some (w', Return tt)
       /\ wire w' = wire w ++ framed d id [Sent (write_command o); Sent flush_cmd]
       /\ count_flushes (wire w') = S (count_flushes (wire w))
       /\ deferred_transfer (self w') = false
       /\ _nested_locks (self w') = d)
  /\ (deferred_transfer (self w) = true ->
      forall os, forallb valid_write os = true ->
        let w' := mkWorld (self w)
                    (wire w ++ concat (map (fun o =>
                                 framed d id [Sent (write_command o)]) os)) in
        run_writes broker fuel os w = Some (w', Return tt)
        /\ count_flushes (wire w') = count_flushes (wire w)
        /\ (exists w'',
              flush broker fuel w' = Some (w'', Return tt)
              /\ count_flushes (wire w'') = S (count_flushes (wire w)))
        /\ (forall r mode,
              valid_read r = true -> consumes mode = true ->
              _buffer (self w) = [] ->
              exists w'' res,
                read_request broker fuel r mode w' = Some (w'', res)
                /\ count_flushes (wire w'') = S (count_flushes (wire w)))).
Proof.
  intros Hcoop Hfuel Hr d id. split.
  - intros Hdef o Hv.
    destruct (write_immediate broker fuel Hcoop Hfuel (write_command o) w Hr Hdef)
      as [l Hw].
    eexists. rewrite write_op_scoped by assumption.
    split; [exact Hw|]. cbn [self wire]. repeat split.
    + rewrite count_flushes_app, count_flushes_framed.
      change [Sent (write_command o); Sent flush_cmd]
        with ([Sent (write_command o)] ++ [Sent flush_cmd]).
      rewrite count_flushes_app, write_command_not_flush. simpl. lia.
    + exact Hdef.
  - intros Hdef os Hv w'.
    assert (count_flushes (wire w') = count_flushes (wire w)) as Hcount.
    { unfold w'. cbn [wire].
      rewrite count_flushes_app, count_flushes_deferred_writes. lia. }
    assert (ready (self w')) as Hr' by exact Hr.
    split; [apply run_writes_deferred; assumption|].
    split; [exact Hcount|]. split.
    + destruct (flush_returns broker fuel Hcoop Hfuel w' Hr') as (data & _ & Hf).
      eexists. split; [exact Hf|]. cbn [wire].
      rewrite count_flushes_app, count_flushes_framed, Hcount. simpl. lia.
    + intros r mode Hvr Hm Hb.
      destruct (read_consuming_empty broker fuel Hcoop Hfuel (read_command r) mode
                  w' Hm Hr' Hb) as (data & Hread).
      eexists. eexists. rewrite read_request_scoped by assumption.
      split; [exact Hread|]. cbn [wire].
      rewrite count_flushes_app, count_flushes_framed, count_flushes_app, Hcount.
      destruct (issues mode); [| simpl; lia].
      destruct r; simpl; lia.
Qed.

Lemma C5_write_flush_discipline_witness :
  (exists w',
     write_op granting 1 (WriteDP 4 7) (mkWorld (sample_session 1 5) [])
     = Some (w', Return tt)
     /\ wire w' = [Sent (write_dp 4 7); Sent flush_cmd])
  /\ run_writes granting 1 [WriteDP 4 7; WriteAP 8 9; WriteMem 12 1 8]
       (mkWorld (set_deferred_transfer true (sample_session 1 5)) [])
     = Some (mkWorld (set_deferred_transfer true (sample_session 1 5))
               [Sent (write_dp 4 7); Sent (write_ap 8 9); Sent (write_mem 8 12 1)],
             Return tt).
Proof.
  split.
  - destruct (C5_write_flush_discipline granting 1
                (mkWorld (sample_session 1 5) [])) as [Hnow _].
    + split; [intros h id; reflexivity | intros h c; destruct c; reflexivity].
    + lia.
    + split; [exists 5; split; [reflexivity | lia] | simpl; lia].
    + destruct (Hnow eq_refl (WriteDP 4 7) eq_refl) as (w' & Hrun & Hwire & _).
      exists w'. split; [exact Hrun | exact Hwire].
  - destruct (C5_write_flush_discipline granting 1
                (mkWorld (set_deferred_transfer true (sample_session 1 5)) []))
      as [_ Hlater].
    + split; [intros h id; reflexivity | intros h c; destruct c; reflexivity].
    + lia.
    + split; [exists 5; split; [reflexivity | lia] | simpl; lia].
    + destruct (Hlater eq_refl [WriteDP 4 7; WriteAP 8 9; WriteMem 12 1 8] eq_refl)
        as (Hrun & _).
      exact Hrun.
Defined.

(** *** init and uninit *)


Section Lifecycle.

Variable broker : Broker.
Variable fuel : nat.
Hypothesis Hcoop : cooperative broker.
Hypothesis Hdial : connects broker.
Hypothesis Hfuel : (1 <= fuel)%nat.

Lemma init_run (frequency packet_count : option Z) (budget : Z)
    (new_socket : bool) (w : World) :
  0 <= budget -> _nested_locks (self w) = 0 ->
  let c := _client (self w) in
  let c' := if new_socket then mkClient (address c) true else c in
  let s1 := set_nested_locks 1
              (set_client c' (set_init_args budget new_socket (self w))) in
  init broker fuel frequency packet_count budget new_socket w
  = Some (mkWorld s1
            (wire w
               ++ (if new_socket
                   then [Opened (address c);
                         Sent (board_enumerate (vid (self w)) (pid (self w)))]
                   else [])
               ++ [Sent (board_select (iid (self w)));
                   Sent (dap_init (truthy frequency) (truthy packet_count))]),
          Return tt).
Proof.
  intros Hb Hd c c' s1. unfold init.
  unfold bind at 1. unfold modify at 1. unfold bind at 1.
  set (w0 := update (set_init_args budget new_socket) w).
  assert (exists w1,
    (if new_socket
     then run modify (fun s => set_client (mkClient (address (_client s)) false) s);
          run client_init broker;
          do s <- get;
          do _ <- _command broker (board_enumerate (vid s) (pid s)); ret tt
     else ret tt) w0 = Some (w1, Return tt)
    /\ self w1 = set_client c' (set_init_args budget new_socket (self w))
    /\ wire w1 = wire w ++ (if new_socket
                            then [Opened (address c);
                                  Sent (board_enumerate (vid (self w)) (pid (self w)))]
                            else [])) as (w1 & -> & Hs1 & Hw1).
  { unfold c'. destruct new_socket.
    - unfold client_init. unfold_m. rewrite Hdial.
      destruct (succeeds_inv _ (proj2 Hcoop (wire w ++ [Opened (address c)])
                                  (board_enumerate (vid (self w)) (pid (self w)))))
        as [d1 Hd1].
      subst c. simpl. rewrite Hd1.
      eexists. split; [reflexivity|]. cbn [self wire].
      split; [reflexivity | rewrite <- app_assoc; reflexivity].
    - eexists. split; [reflexivity|]. unfold w0, update. cbn [self wire].
      split; [| rewrite app_nil_r; reflexivity].
      destruct w as [[] ?]; reflexivity. }
  assert (ready (self w1)) as Hr1.
  { rewrite Hs1. split; [exists budget; split; [reflexivity | exact Hb] |].
    simpl. rewrite Hd. lia. }
  unfold bind at 1. unfold lock.
  rewrite lock_with_granted by (assumption || apply Hcoop).
  rewrite Hs1, Hw1. cbn [_nested_locks set_client set_init_args iid].
  rewrite Hd. cbn [Z.eqb Z.add Pos.add].
  destruct (succeeds_inv _ (proj2 Hcoop
    ((wire w ++ (if new_socket
                 then [Opened (address c);
                       Sent (board_enumerate (vid (self w)) (pid (self w)))]
                 else [])) ++ [Sent (board_select (iid (self w)))])
    (dap_init (truthy frequency) (truthy packet_count)))) as [d2 Hd2].
  unfold_m. rewrite Hd2. rewrite <- !app_assoc. reflexivity.
Qed.

Lemma uninit_run (w : World) :
  ready (self w) ->
  forall new_socket, _new_socket (self w) = Some new_socket ->
  uninit broker fuel w
  = Some (mkWorld
            (if new_socket
             then set_client (mkClient (address (_client (self w))) false) (self w)
             else self w)
            (wire w
               ++ framed (_nested_locks (self w)) (iid (self w)) [Sent dap_uninit]
               ++ (if new_socket then [Closed] else [])),
          Return tt).
Proof.
  intros Hr new_socket Hn. unfold uninit. unfold bind at 1.
  rewrite (scoped_command broker fuel Hcoop Hfuel) by assumption.
  unfold bind at 1. unfold get at 1. cbn [self]. rewrite Hn.
  destruct new_socket.
  - unfold client_uninit. cbn [self wire]. rewrite <- app_assoc. reflexivity.
  - unfold ret. rewrite app_nil_r. reflexivity.
Qed.

End Lifecycle.



End TransportFacts.

(** ** Properties of the socket layer *)

Module UnixSocketFacts.
Import UnixSocket.

(** *** Connections *)

Section Liveness.

Context {S : Type} (ops : StreamSocket S).

Lemma send_forwards (c : UnixConnection.t S) data :
  snd (UnixConnection.send ops c data)
  = snd (sock_sendall ops (UnixConnection._socket c) data)
  /\ UnixConnection._isalive (fst (UnixConnection.send ops c data))
     = UnixConnection._isalive c.
Proof.
  unfold UnixConnection.send.
  destruct (sock_sendall ops (UnixConnection._socket c) data) as [s' r].
  split; reflexivity.
Qed.

Lemma recv_forwards (c : UnixConnection.t S) size :
  snd (UnixConnection.recv ops c size)
  = snd (sock_recv ops (UnixConnection._socket c) size).
Proof.
  unfold UnixConnection.recv.
  destruct (sock_recv ops (UnixConnection._socket c) size) as [s' [data|e]];
    reflexivity.
Qed.

(** No send and no receive brings a dead connection back. *)
Lemma call_keeps_dead (c : UnixConnection.t S) k :
  UnixConnection._isalive c = false ->
  UnixConnection._isalive (fst (UnixConnection.call ops c k)) = false.
Proof.
  intros Hd. destruct k as [data|size]; simpl.
  - unfold UnixConnection.send.
    destruct (sock_sendall ops (UnixConnection._socket c) data) as [s' r].
    exact Hd.
  - unfold UnixConnection.recv.
    destruct (sock_recv ops (UnixConnection._socket c) size) as [s' [data|e]];
      simpl; [destruct (String.eqb data ""); [reflexivity | exact Hd] | exact Hd].
Qed.

Lemma calls_keep_dead ks : forall (c : UnixConnection.t S),
  UnixConnection._isalive c = false ->
  UnixConnection._isalive (UnixConnection.calls ops c ks) = false.
Proof.
  induction ks as [|k ks IH]; intros c Hd; simpl; [exact Hd|].
  apply IH. apply call_keeps_dead. exact Hd.
Qed.

End Liveness.

(** C7, as the specification words it, fails: on an endpoint whose peer has
    shut down its sending side, recv returns the empty string and alive()
    becomes false, and the next send and the next recv both return
    normally instead of failing. *)
Lemma C7_dead_connection_still_serves_counterexample :
  ~ (forall c',
       UnixConnection.recv UnixConnection.half_closed
         (UnixConnection.new []) 65536 = (c', Return ""%string) ->
       forall k, exists e,
         snd (UnixConnection.call UnixConnection.half_closed c' k) = Raise e).
Proof.
  intros H.
  destruct (H _ eq_refl (UnixConnection.Send "ping")) as [e He].
  vm_compute in He. discriminate He.
Qed.

(** C7 (amended): a receive call that returns the empty string leaves
    alive() false, and alive() stays false through every later send and
    receive; those later calls are not refused by the connection: each is
    passed to the socket and ends the way the socket call ends. *)
Theorem C7_empty_receive_marks_dead {S : Type} (ops : StreamSocket S)
    (c c' : UnixConnection.t S) (size : Z) :
  UnixConnection.recv ops c size = (c', Return ""%string) ->
  UnixConnection.isalive c' = false
  /\ (forall ks,
        UnixConnection.isalive (UnixConnection.calls ops c' ks) = false)
  /\ (forall data,
        snd (UnixConnection.send ops c' data)
        = snd (sock_sendall ops (UnixConnection._socket c') data))
  /\ (forall size',
        snd (UnixConnection.recv ops c' size')
        = snd (sock_recv ops (UnixConnection._socket c') size')).
Proof.
  intros Hrecv.
  assert (UnixConnection._isalive c' = false) as Hdead.
  { unfold UnixConnection.recv in Hrecv.
    destruct (sock_recv ops (UnixConnection._socket c) size) as [s' [data|e]];
      [| discriminate].
    injection Hrecv as <- ->. reflexivity. }
  split; [exact Hdead|]. split; [| split].
  - intros ks. apply calls_keep_dead. exact Hdead.
  - intros data. apply send_forwards.
  - intros size'. apply recv_forwards.
Qed.

Lemma C7_empty_receive_marks_dead_witness :
  UnixConnection.isalive
    (fst (UnixConnection.recv UnixConnection.half_closed
            (UnixConnection.new []) 65536)) = false.
Proof.
  destruct (C7_empty_receive_marks_dead UnixConnection.half_closed
              (UnixConnection.new [])
              (fst (UnixConnection.recv UnixConnection.half_closed
                      (UnixConnection.new []) 65536))
              65536 eq_refl) as [Hdead _].
  exact Hdead.
Defined.

(** *** Opening the listening socket *)





Lemma makedirs_present d f n :
  files f !! d = Some n -> fst (makedirs d f) = f.
Proof.
  intros Hd. unfold makedirs. destruct (String.eqb d ""); [reflexivity|].
  rewrite Hd. reflexivity.
Qed.


Lemma remove_stale_skips a f :
  stale_socket a f = false -> UnixServer.remove_stale a f = f.
Proof.
  unfold UnixServer.remove_stale, stale_socket, stat_mode, access_w.
  destruct (files f !! a) as [n|]; [| reflexivity].
  intros ->. reflexivity.
Qed.






(** *** Interrupting accept *)

Section Interrupt.

Context {S : Type} (ops : StreamSocket S).














End Interrupt.



(** *** Sample runs *)

Example dirname_default : dirname "/tmp/pydaplink/socket" = "/tmp/pydaplink"%string.
Proof. reflexivity. Qed.

Example dirname_relative : dirname "socket" = ""%string.
Proof. reflexivity. Qed.

Example dirname_root : dirname "/socket" = "/"%string.
Proof. reflexivity. Qed.

Example dirname_doubled : dirname "run//socket" = "run"%string.
Proof. reflexivity. Qed.

Example socket_mode_is_socket : S_ISSOCK (S_IFSOCK + 493) = true.
Proof. reflexivity. Qed.

Example regular_mode_is_not_socket : S_ISSOCK (S_IFREG + 420) = false.
Proof. reflexivity. Qed.

(** A leftover, writable socket file is unlinked and the path is bound
    again. *)
Example open_succeeds_on_leftover :
  let r := UnixServer.open sample_server
             (UnixServer.mkOS (leftover_fs true) ([] : list (list string))) in
  snd r = Return tt
  /\ unlinks (UnixServer.fs (snd (fst r))) = ["/tmp/pydaplink/socket"%string]
  /\ fst (fst r) = listening_server.
Proof. vm_compute. repeat split; reflexivity. Qed.

(** An accept that passes its check before the flag is cleared still
    returns the connection that waits. *)
Example accept_wins_the_race :
  option_map (fun y => UnixServer.accepting y)
    (UnixServer.exec UnixConnection.half_closed
       [UnixServer.Arrives ["pending"%string]; UnixServer.AcceptSelect;
        UnixServer.AcceptFinish; UnixServer.ShutdownFlag;
        UnixServer.ShutdownSignal]
       (UnixServer.mkSys listening_server
          (UnixServer.mkOS (leftover_fs true) []) UnixServer.AtSelect
          UnixServer.AtFlag))
  = Some (UnixServer.Returned
            (Return (Some (UnixConnection.new ["pending"%string])))).
Proof. reflexivity. Qed.

(** With nothing waiting and no shutdown, [select] stays blocked. *)
Example accept_blocks_when_idle :
  UnixServer.accept UnixConnection.half_closed listening_server
    (UnixServer.mkOS (leftover_fs true) [])
  = (UnixServer.mkOS (leftover_fs true) [], Blocked).
Proof. reflexivity. Qed.

End UnixSocketFacts.

(** ** Further properties of the session *)

Module TransportExtras.
Import Transport TransportFacts.

(** *** Lock-scoped operations on every exit *)

Section Exits.

Variable broker : Broker.
Variable fuel : nat.

(** [unlock] at depth 2 or more: only the count goes down. *)
Lemma unlock_nested (w : World) :
  2 <= _nested_locks (self w) ->
  unlock broker w
  = Some (update (set_nested_locks (_nested_locks (self w) - 1)) w, Return tt).
Proof.
  intros Hd. unfold unlock. unfold_m.
  destruct (Z.eqb_spec (_nested_locks (self w)) 1); [lia|]. simpl.
  destruct (Z.ltb_spec 0 (_nested_locks (self w))); [reflexivity | lia].
Qed.

(** [unlock] at depth 1 follows the deselect: on its error the depth stays
    at 1. *)
Lemma unlock_outermost (w : World) :
  _nested_locks (self w) = 1 ->
  unlock broker w
  = Some (match answer broker (wire w) board_deselect with
          | Return _ =>
              (mkWorld (set_nested_locks 0 (self w)) (wire w ++ [Sent board_deselect]),
               Return tt)
          | Raise e =>
              (mkWorld (self w) (wire w ++ [Sent board_deselect]), Raise e)
          end).
Proof.
  intros Hd. unfold unlock. unfold_m. rewrite Hd. simpl.
  destruct (answer broker (wire w) board_deselect); simpl; [| reflexivity].
  rewrite Hd. simpl. rewrite Hd. reflexivity.
Qed.

(** One command under [with self:] on a locked session, whatever the
    broker: the command alone, no select, no deselect. *)
Lemma nested_query {A} (f : ReplyData -> A) (c : Command) (w : World) :
  1 <= _nested_locks (self w) ->
  with_self broker fuel (do resp <- _command broker c; ret (f resp)) w
  = Some (mkWorld (self w) (wire w ++ [Sent c]),
          answered f (answer broker (wire w) c)).
Proof.
  intros Hd. unfold with_self. unfold bind at 1. unfold lock.
  rewrite lock_with_reentrant by exact Hd.
  unfold try_finally, bind, _command, ret, update. cbn [self wire].
  destruct (answer broker (wire w) c) as [d|e];
    rewrite unlock_nested by (simpl; lia); unfold update; cbn [self wire];
    cbn [_nested_locks set_nested_locks answered];
    replace (_nested_locks (self w) + 1 - 1) with (_nested_locks (self w)) by lia;
    destruct w as [[] ?]; reflexivity.
Qed.

(** The same on an unlocked session whose select is confirmed. *)
Lemma outermost_query {A} (f : ReplyData -> A) (c : Command) (w : World) budget :
  (1 <= fuel)%nat ->
  _nested_locks (self w) = 0 ->
  _lock_attempts (self w) = Some budget -> 0 <= budget ->
  confirms (answer broker (wire w) (board_select (iid (self w)))) = true ->
  with_self broker fuel (do resp <- _command broker c; ret (f resp)) w
  = Some (scoped_once broker f c w).
Proof.
  intros Hf Hd Hb Hpos Hc.
  assert (exists n, fuel = S n) as [n Hn] by (exists (pred fuel); lia).
  unfold with_self. unfold bind at 1. unfold lock.
  rewrite (lock_with_first_confirmed broker fuel _ w budget n) by assumption.
  unfold try_finally, bind, _command, ret, scoped_once. cbn [self wire].
  destruct (answer broker (wire w ++ [Sent (board_select (iid (self w)))]) c)
    as [d|e]; rewrite unlock_outermost by reflexivity; cbn [self wire];
    destruct (answer broker _ board_deselect); cbn [answered];
    try reflexivity; destruct w as [[] ?]; simpl in *; subst; reflexivity.
Qed.

Lemma simple_op_scoped (o : SimpleOp) :
  simple_op broker fuel o
  = with_self broker fuel
      (do resp <- _command broker (simple_command o); ret ((fun _ => tt) resp)).
Proof. destruct o as [|[|]| |]; reflexivity. Qed.

End Exits.

(** X1: reset, assertReset, setClock and setPacketCount on an unlocked
    session whose select is confirmed send the select, their one command
    and the deselect, on every exit.  When the deselect is accepted the
    session is exactly as before and the outcome is the command's: an error
    of the command goes to the caller after the lock is released.  When the
    deselect raises, its error is what the caller gets, also after a
    successful command, and the depth stays at 1. *)
Theorem X1_simple_op_outermost (broker : Broker) (fuel : nat) (o : SimpleOp)
    (w : World) (budget : Z) :
  (1 <= fuel)%nat ->
  _nested_locks (self w) = 0 ->
  _lock_attempts (self w) = Some budget -> 0 <= budget ->
  confirms (answer broker (wire w) (board_select (iid (self w)))) = true ->
  simple_op broker fuel o w
  = Some (scoped_once broker (fun _ => tt) (simple_command o) w).
Proof.
  intros Hf Hd Hb Hpos Hc. rewrite simple_op_scoped.
  apply (outermost_query broker fuel (fun _ => tt) _ w budget); assumption.
Qed.

Lemma X1_simple_op_outermost_witness :
  simple_op (failing_broker is_reset (ServerError "IOError")) 1 OpReset
    (mkWorld (sample_session 0 5) [])
  = Some (mkWorld (sample_session 0 5)
            [Sent (board_select 1); Sent reset_cmd; Sent board_deselect],
          Raise (ServerError "IOError")).
Proof.
  apply (X1_simple_op_outermost (failing_broker is_reset (ServerError "IOError"))
           1 OpReset (mkWorld (sample_session 0 5) []) 5).
  - lia.
  - reflexivity.
  - reflexivity.
  - lia.
  - reflexivity.
Defined.

(** X2: on a session that is already locked, the same four operations send
    their one command and nothing else, for every broker and without any
    fuel: no select, no deselect, the session unchanged, the outcome the
    command's. *)
Theorem X2_simple_op_nested (broker : Broker) (fuel : nat) (o : SimpleOp)
    (w : World) :
  1 <= _nested_locks (self w) ->
  simple_op broker fuel o w
  = Some (mkWorld (self w) (wire w ++ [Sent (simple_command o)]),
          dropped (answer broker (wire w) (simple_command o))).
Proof.
  intros Hd. rewrite simple_op_scoped.
  apply (nested_query broker fuel (fun _ => tt)). exact Hd.
Qed.

Lemma X2_simple_op_nested_witness :
  simple_op (refusing_broker (ServerError "KeyError")) 0 (OpSetClock 1000000)
    (mkWorld (sample_session 2 5) [])
  = Some (mkWorld (sample_session 2 5) [Sent (dap_frequency 1000000)], Return tt).
Proof.
  apply (X2_simple_op_nested (refusing_broker (ServerError "KeyError")) 0
           (OpSetClock 1000000) (mkWorld (sample_session 2 5) [])).
  simpl. lia.
Defined.

(** X3: info(request) sends dap_info under the lock and returns the
    [result] entry of the reply, or None when the reply has none; an error
    of the command goes to the caller.  On a locked session that is all it
    sends; on an unlocked one the select and the deselect go around it. *)
Theorem X3_info_result (broker : Broker) (fuel : nat) (request : Z) (w : World) :
  (1 <= _nested_locks (self w) ->
   info broker fuel request w
   = Some (mkWorld (self w) (wire w ++ [Sent (dap_info request)]),
           answered result (answer broker (wire w) (dap_info request))))
  /\ (forall budget,
        (1 <= fuel)%nat -> _nested_locks (self w) = 0 ->
        _lock_attempts (self w) = Some budget -> 0 <= budget ->
        confirms (answer broker (wire w) (board_select (iid (self w)))) = true ->
        info broker fuel request w
        = Some (scoped_once broker result (dap_info request) w)).
Proof.
  split.
  - intros Hd. apply (nested_query broker fuel result). exact Hd.
  - intros budget Hf Hd Hb Hpos Hc.
    apply (outermost_query broker fuel result _ w budget); assumption.
Qed.

Lemma X3_info_result_witness :
  info granting 1 240 (mkWorld (sample_session 1 5) [])
  = Some (mkWorld (sample_session 1 5) [Sent (dap_info 240)], Return None).
Proof.
  destruct (X3_info_result granting 1 240 (mkWorld (sample_session 1 5) []))
    as [Hnested _].
  apply Hnested. simpl. lia.
Defined.

(** *** What a failed lock leaves behind *)

Lemma lock_raise_depth broker fuel (w w' : World) e :
  lock broker fuel w = Some (w', Raise e) ->
  _nested_locks (self w') = _nested_locks (self w) + 1
  /\ _nested_locks (self w) <= 0.
Proof.
  unfold lock, lock_with. unfold_m.
  destruct (Z.ltb_spec 1 (_nested_locks (self w) + 1)); [discriminate|].
  intros Hl. apply lock_loop_raises in Hl as [Hs _].
  cbn [self] in Hs. rewrite Hs. simpl. lia.
Qed.

(** X4: once an outermost lock() has raised, the session counts as locked,
    and every later reset, assertReset, setClock or setPacketCount sends its
    command without ever asking for the device: no board_select goes out,
    and the depth stays where the failed lock() left it. *)
Theorem X4_operations_after_failed_lock (broker : Broker) (fuel : nat)
    (w w1 : World) (e : exn) (o : SimpleOp) :
  _nested_locks (self w) = 0 ->
  lock broker fuel w = Some (w1, Raise e) ->
  locked (self w1) = true
  /\ simple_op broker fuel o w1
     = Some (mkWorld (self w1) (wire w1 ++ [Sent (simple_command o)]),
             dropped (answer broker (wire w1) (simple_command o))).
Proof.
  intros Hd Hl. apply lock_raise_depth in Hl as [Hd1 _]. rewrite Hd in Hd1.
  split.
  - unfold locked. rewrite Hd1. reflexivity.
  - rewrite simple_op_scoped.
    apply (nested_query broker fuel (fun _ => tt)). lia.
Qed.

Lemma X4_operations_after_failed_lock_witness :
  simple_op (busy_broker 7) 3 OpReset
    (mkWorld (sample_session 1 2) [Sent (board_select 1); Sent (board_select 1)])
  = Some (mkWorld (sample_session 1 2)
            [Sent (board_select 1); Sent (board_select 1); Sent reset_cmd],
          Return tt).
Proof.
  destruct (X4_operations_after_failed_lock (busy_broker 7) 3
              (mkWorld (sample_session 0 2) [])
              (mkWorld (sample_session 1 2)
                 [Sent (board_select 1); Sent (board_select 1)])
              (CommandError (unable_to_lock (sample_session 0 2))) OpReset)
    as [_ Hop].
  - reflexivity.
  - vm_compute. reflexivity.
  - exact Hop.
Defined.

(** X5: with a negative lock_attempts the loop of lock() is never entered:
    the outermost lock() raises the "may be in use" error at once, for
    every broker, without sending a single request, and leaves the depth
    at 1. *)
Theorem X5_negative_budget (broker : Broker) (fuel : nat) (w : World) (budget : Z) :
  _nested_locks (self w) = 0 ->
  _lock_attempts (self w) = Some budget -> budget < 0 ->
  lock broker fuel w
  = Some (mkWorld (set_nested_locks 1 (self w)) (wire w),
          Raise (CommandError (unable_to_lock (self w)))).
Proof.
  intros Hd Hb Hneg. unfold lock, lock_with. unfold_m. rewrite Hd. simpl.
  assert ((budget =? 0) || (0 <? budget) = false) as Hc.
  { apply orb_false_iff. split; [apply Z.eqb_neq | apply Z.ltb_ge]; lia. }
  destruct fuel; simpl; rewrite Hb, Hc; reflexivity.
Qed.

Lemma X5_negative_budget_witness :
  lock granting 9 (mkWorld (sample_session 0 (-1)) [])
  = Some (mkWorld (sample_session 1 (-1)) [],
          Raise (CommandError
                   "Unable to lock device 0d28:0204:1, may be in use by another process")).
Proof.
  apply (X5_negative_budget granting 9 (mkWorld (sample_session 0 (-1)) []) (-1)).
  - reflexivity.
  - reflexivity.
  - lia.
Defined.

(** *** The deferred-transfer switch and immediate reads *)

Section Pipeline.

Variable broker : Broker.
Variable fuel : nat.
Hypothesis Hcoop : cooperative broker.
Hypothesis Hfuel : (1 <= fuel)%nat.

(** A request and complete-read on a locked session with an empty buffer:
    the request, one flush, and the oldest result of the reply. *)
Lemma issue_then_read (c : Command) (w : World) :
  ready (self w) -> 1 <= _nested_locks (self w) -> _buffer (self w) = [] ->
  exists data,
    answer broker (wire w ++ [Sent c]) flush_cmd = Return data /\
    (run _command broker c; _read broker fuel) w
    = Some (mkWorld (set_buffer (tail (default [] (reads data))) (self w))
              (wire w ++ [Sent c; Sent flush_cmd]),
            match default [] (reads data) with
            | [] => Raise IndexError
            | v :: _ => Return v
            end).
Proof.
  intros Hr Hd Hb.
  set (w1 := mkWorld (self w) (wire w ++ [Sent c])).
  destruct (_read_empty broker fuel Hcoop Hfuel w1 Hr Hb) as (data & Ha & Hread).
  rewrite entering_nested in Ha by (simpl; lia). cbn [update wire w1] in Ha.
  exists data. split; [exact Ha|].
  destruct (succeeds_inv _ (proj2 Hcoop (wire w) c)) as [d0 Hd0].
  unfold bind at 1. unfold _command at 1. rewrite Hd0. fold w1.
  rewrite Hread, framed_nested by (simpl; lia).
  unfold w1. cbn [self wire]. rewrite <- app_assoc. reflexivity.
Qed.

(** READ_NOW that finds the buffer empty, with the reply of its flush
    named. *)
Lemma read_now_run (c : Command) (w : World) :
  ready (self w) -> _buffer (self w) = [] ->
  exists data,
    answer broker (wire (entering w) ++ [Sent c]) flush_cmd = Return data /\
    with_self broker fuel (read_body broker fuel c READ_NOW) w
    = Some (mkWorld (set_buffer (tail (default [] (reads data))) (self w))
              (wire w ++ framed (_nested_locks (self w)) (iid (self w))
                           [Sent c; Sent flush_cmd]),
            popped (default [] (reads data))).
Proof.
  intros Hr Hb. pose proof Hr as [_ Hpos].
  destruct (issue_then_read c (entering w) (ready_entering w Hr)
              ltac:(simpl; lia) Hb) as (data & Ha & Hrun).
  exists data. split; [exact Ha|].
  erewrite (with_self_run broker fuel Hcoop Hfuel); [| assumption | | ].
  - f_equal. f_equal.
    apply (leaving_entering (set_buffer (tail (default [] (reads data)))) w
             [Sent c; Sent flush_cmd]).
    reflexivity.
  - unfold read_body.
    change (issues READ_NOW) with true. change (consumes READ_NOW) with true.
    cbv iota.
    assert (forall w0,
      (run (do _ <- _command broker c; ret tt);
       do v <- _read broker fuel; ret (Some v)) w0
      = match (run _command broker c; _read broker fuel) w0 with
        | Some (w', Return v) => Some (w', Return (Some v))
        | Some (w', Raise e) => Some (w', Raise e)
        | None => None
        end) as Hshape.
    { intros w0. unfold bind, _command, ret.
      destruct (answer broker (wire w0) c); [| reflexivity].
      destruct (_read broker fuel _) as [[w' [v|e]]|]; reflexivity. }
    rewrite Hshape, Hrun.
    destruct (default [] (reads data)); reflexivity.
  - destruct (default [] (reads data)); reflexivity.
Qed.

End Pipeline.

(** X6: setDeferredTransfer.  Switching deferred transfers off while they
    are on first sends one flush, whose reads go to the end of the buffer,
    and only then clears the flag; every other call (switching on, or off
    when already off) just stores the flag and sends nothing, whatever the
    broker. *)
Theorem X6_setDeferredTransfer (broker : Broker) (fuel : nat) (w : World) :
  (forall enable,
     deferred_transfer (self w) = false \/ enable = true ->
     setDeferredTransfer broker fuel enable w
     = Some (update (set_deferred_transfer enable) w, Return tt))
  /\ (cooperative broker -> (1 <= fuel)%nat -> ready (self w) ->
      deferred_transfer (self w) = true ->
      exists data,
        answer broker (wire (entering w)) flush_cmd = Return data /\
        setDeferredTransfer broker fuel false w
        = Some (mkWorld
                  (set_deferred_transfer false
                     (set_buffer (_buffer (self w) ++ default [] (reads data))
                        (self w)))
                  (wire w ++ framed (_nested_locks (self w)) (iid (self w))
                               [Sent flush_cmd]),
                Return tt)).
Proof.
  split.
  - intros enable Hcase. unfold setDeferredTransfer. unfold_m.
    assert (deferred_transfer (self w) && negb enable = false) as ->.
    { destruct Hcase as [-> | ->]; [reflexivity | apply andb_false_r]. }
    reflexivity.
  - intros Hcoop Hfuel Hr Hdef.
    destruct (flush_returns broker fuel Hcoop Hfuel w Hr) as (data & Ha & Hflush).
    exists data. split; [exact Ha|].
    unfold setDeferredTransfer. unfold bind at 1. unfold get at 1.
    rewrite Hdef. cbn [negb andb]. unfold bind at 1. rewrite Hflush.
    reflexivity.
Qed.

Lemma X6_setDeferredTransfer_witness :
  setDeferredTransfer (fifo_broker sample_mem) 1 false
    (mkWorld (set_deferred_transfer true (sample_session 1 5))
       [Sent (write_dp 4 7); Sent (read_dp 8)])
  = Some (mkWorld (set_deferred_transfer false
                     (set_buffer [VInt 1008] (sample_session 1 5)))
            [Sent (write_dp 4 7); Sent (read_dp 8); Sent flush_cmd],
          Return tt).
Proof.
  destruct (X6_setDeferredTransfer (fifo_broker sample_mem) 1
              (mkWorld (set_deferred_transfer true (sample_session 1 5))
                 [Sent (write_dp 4 7); Sent (read_dp 8)])) as [_ Hoff].
  destruct Hoff as (data & Ha & Hrun).
  - split; [intros h id; reflexivity | intros h c; destruct c; reflexivity].
  - lia.
  - split; [exists 5; split; [reflexivity | lia] | simpl; lia].
  - reflexivity.
  - injection Ha as <-. exact Hrun.
Defined.

(** X7: a read with READ_NOW (the default mode) on an empty local buffer,
    against a cooperative broker whose flush replies list the pending
    results in request order.  It sends its request and one flush and
    returns the result of the oldest request that was pending: its own when
    nothing was outstanding, and otherwise the result of the oldest
    READ_START that was never ended, its own result staying in the buffer
    behind the others. *)
Theorem X7_read_now (broker : Broker) (fuel : nat)
    (value_of : list Event -> Command -> value) (r : ReadRequest) (w : World) :
  cooperative broker -> flushes_in_order broker value_of ->
  (1 <= fuel)%nat -> ready (self w) -> valid_read r = true ->
  _buffer (self w) = [] ->
  let c := read_command r in
  let h := wire (entering w) ++ [Sent c] in
  let results := map (value_of h) (pending_reads (wire w) ++ [c]) in
  read_request broker fuel r READ_NOW w
  = Some (mkWorld (set_buffer (tail results) (self w))
            (wire w ++ framed (_nested_locks (self w)) (iid (self w))
                         [Sent c; Sent flush_cmd]),
          popped results)
  /\ (pending_reads (wire w) = [] ->
      popped results = Return (Some (value_of h c)) /\ tail results = [])
  /\ (forall c0 rest,
        pending_reads (wire w) = c0 :: rest ->
        popped results = Return (Some (value_of h c0))
        /\ tail results = map (value_of h) (rest ++ [c])).
Proof.
  intros Hcoop Hfifo Hfuel Hr Hv Hb c h results.
  split; [| split].
  - rewrite read_request_scoped by exact Hv.
    destruct (read_now_run broker fuel Hcoop Hfuel c w Hr Hb) as (data & Ha & Hrun).
    destruct (Hfifo h) as (data' & Ha' & Hreads).
    unfold h in Ha'. rewrite Ha in Ha'. injection Ha' as <-.
    unfold h in Hreads.
    rewrite pending_reads_snoc, pending_reads_entering in Hreads.
    assert (note_event (pending_reads (wire w)) (Sent c)
            = pending_reads (wire w) ++ [c]) as Hnote
      by (unfold c; destruct r; reflexivity).
    rewrite Hnote in Hreads. fold h in Hreads. fold results in Hreads.
    rewrite Hreads in Hrun. exact Hrun.
  - intros Hp. unfold results. rewrite Hp. split; reflexivity.
  - intros c0 rest Hp. unfold results. rewrite Hp. split; reflexivity.
Qed.

Lemma X7_read_now_witness :
  read_request (fifo_broker sample_mem) 1 (ReadAP 8) READ_NOW
    (mkWorld (sample_session 1 5) [Sent (read_dp 4)])
  = Some (mkWorld (set_buffer [VInt 1008] (sample_session 1 5))
            [Sent (read_dp 4); Sent (read_ap 8); Sent flush_cmd],
          Return (Some (VInt 1004))).
Proof.
  destruct (X7_read_now (fifo_broker sample_mem) 1 (fun _ => sample_mem)
              (ReadAP 8) (mkWorld (sample_session 1 5) [Sent (read_dp 4)]))
    as [Hrun _].
  - split; [intros h id; reflexivity | intros h c; destruct c; reflexivity].
  - intros h. eexists. split; reflexivity.
  - lia.
  - split; [exists 5; split; [reflexivity | lia] | simpl; lia].
  - reflexivity.
  - reflexivity.
  - exact Hrun.
Defined.

(** X8: a read with READ_END when nothing is buffered and no request is
    outstanding, against the same kind of broker: one flush goes out, its
    reply brings no result, and the call raises IndexError; the lock taken
    for the call is released again and the buffer stays empty. *)
Theorem X8_read_end_without_start (broker : Broker) (fuel : nat)
    (value_of : list Event -> Command -> value) (r : ReadRequest) (w : World) :
  cooperative broker -> flushes_in_order broker value_of ->
  (1 <= fuel)%nat -> ready (self w) -> valid_read r = true ->
  _buffer (self w) = [] -> pending_reads (wire w) = [] ->
  read_request broker fuel r READ_END w
  = Some (mkWorld (set_buffer [] (self w))
            (wire w ++ framed (_nested_locks (self w)) (iid (self w))
                         [Sent flush_cmd]),
          Raise IndexError).
Proof.
  intros Hcoop Hfifo Hfuel Hr Hv Hb Hp.
  rewrite read_request_scoped by exact Hv.
  destruct (read_end_empty broker fuel Hcoop Hfuel (read_command r) w Hr Hb)
    as (data & Ha & Hrun).
  destruct (Hfifo (wire (entering w))) as (data' & Ha' & Hreads).
  rewrite Ha in Ha'. injection Ha' as <-.
  rewrite pending_reads_entering, Hp in Hreads. cbn [map] in Hreads.
  rewrite Hreads in Hrun. exact Hrun.
Qed.

Lemma X8_read_end_without_start_witness :
  read_request (fifo_broker sample_mem) 1 (ReadDP 4) READ_END
    (mkWorld (sample_session 0 5) [])
  = Some (mkWorld (sample_session 0 5)
            [Sent (board_select 1); Sent flush_cmd; Sent board_deselect],
          Raise IndexError).
Proof.
  apply (X8_read_end_without_start (fifo_broker sample_mem) 1 (fun _ => sample_mem)
           (ReadDP 4) (mkWorld (sample_session 0 5) [])).
  - split; [intros h id; reflexivity | intros h c; destruct c; reflexivity].
  - intros h. eexists. split; reflexivity.
  - lia.
  - split; [exists 5; split; [reflexivity | lia] | simpl; lia].
  - reflexivity.
  - reflexivity.
  - reflexivity.
Defined.

(** X9: readBlock32 has no mode: it always sends its read_block request
    and consumes.  On an empty buffer with nothing outstanding, against a
    cooperative broker that answers in request order, it sends the request
    and one flush and returns the broker's result for that request, leaving
    the buffer empty. *)
Theorem X9_readBlock32 (broker : Broker) (fuel : nat)
    (value_of : list Event -> Command -> value) (addr count : Z) (w : World) :
  cooperative broker -> flushes_in_order broker value_of ->
  (1 <= fuel)%nat -> ready (self w) ->
  _buffer (self w) = [] -> pending_reads (wire w) = [] ->
  let c := read_block addr count in
  readBlock32 broker fuel addr count w
  = Some (mkWorld (set_buffer [] (self w))
            (wire w ++ framed (_nested_locks (self w)) (iid (self w))
                         [Sent c; Sent flush_cmd]),
          Return (value_of (wire (entering w) ++ [Sent c]) c)).
Proof.
  intros Hcoop Hfifo Hfuel Hr Hb Hp c. pose proof Hr as [_ Hpos].
  destruct (issue_then_read broker fuel Hcoop Hfuel c (entering w)
              (ready_entering w Hr) ltac:(simpl; lia) Hb) as (data & Ha & Hrun).
  destruct (Hfifo (wire (entering w) ++ [Sent c])) as (data' & Ha' & Hreads).
  rewrite Ha in Ha'. injection Ha' as <-.
  rewrite pending_reads_snoc, pending_reads_entering, Hp in Hreads.
  cbn [note_event c is_read app map] in Hreads.
  rewrite Hreads in Hrun. cbn [default tail] in Hrun.
  unfold readBlock32.
  erewrite (with_self_run broker fuel Hcoop Hfuel); [| assumption | exact Hrun | reflexivity].
  f_equal. f_equal.
  apply (leaving_entering (set_buffer []) w [Sent c; Sent flush_cmd]). reflexivity.
Qed.

Lemma X9_readBlock32_witness :
  readBlock32 (fifo_broker sample_mem) 1 256 4 (mkWorld (sample_session 1 5) [])
  = Some (mkWorld (sample_session 1 5) [Sent (read_block 256 4); Sent flush_cmd],
          Return (VBlock [256; 4])).
Proof.
  apply (X9_readBlock32 (fifo_broker sample_mem) 1 (fun _ => sample_mem) 256 4
           (mkWorld (sample_session 1 5) [])).
  - split; [intros h id; reflexivity | intros h c; destruct c; reflexivity].
  - intros h. eexists. split; reflexivity.
  - lia.
  - split; [exists 5; split; [reflexivity | lia] | simpl; lia].
  - reflexivity.
  - reflexivity.
Defined.

(** *** Construction and the life cycle *)



(** X11: init() that cannot get the device.  When the connection of its
    own client cannot be set up, init() raises the error of the connect
    before anything is sent or locked.  When the device stays busy for the
    whole budget, init() raises the "may be in use" error after the
    board_enumerate and budget board_select requests: dap_init is never
    sent, the depth is left at 1, and the connection init() opened is left
    open. *)
Theorem X11_init_failures (broker : Broker) (fuel busy : nat)
    (frequency packet_count : option Z) (budget : Z) (w : World) :
  _nested_locks (self w) = 0 ->
  let a := address (_client (self w)) in
  let enumerate := board_enumerate (vid (self w)) (pid (self w)) in
  (forall e,
     dial broker (wire w) a = Some e ->
     init broker fuel frequency packet_count budget true w
     = Some (mkWorld (set_client (mkClient a false)
                        (set_init_args budget true (self w))) (wire w),
             Raise e))
  /\ (dial broker (wire w) a = None ->
      succeeds (answer broker (wire w ++ [Opened a]) enumerate) = true ->
      busy_then_free broker (wire w ++ [Opened a; Sent enumerate]) busy ->
      1 <= budget <= Z.of_nat busy -> (busy <= fuel)%nat ->
      init broker fuel frequency packet_count budget true w
      = Some (mkWorld (set_nested_locks 1
                         (set_client (mkClient a true)
                            (set_init_args budget true (self w))))
                (wire w ++ [Opened a; Sent enumerate]
                   ++ replicate (Z.to_nat budget)
                        (Sent (board_select (iid (self w))))),
              Raise (CommandError (unable_to_lock (self w))))).
Proof.
  intros Hd a enumerate. split.
  - intros e He. unfold init, client_init. unfold_m. fold a. rewrite He.
    reflexivity.
  - intros Hdial Henum Hbusy Hbud Hfuel.
    apply succeeds_inv in Henum as [d1 Hd1].
    unfold init, client_init, lock, lock_with. unfold_m. fold a.
    rewrite Hdial. simpl. fold a. fold enumerate. rewrite Hd1. simpl.
    rewrite Hd. simpl.
    rewrite (lock_loop_exhausts broker _ (wire w ++ [Opened a; Sent enumerate])
               busy budget Hbusy Hbud (Z.to_nat budget) 0%nat);
      cbn [self wire _lock_attempts set_nested_locks set_client set_init_args iid];
      try lia; try reflexivity.
    + rewrite <- app_assoc. reflexivity.
    + simpl. rewrite app_nil_r, <- app_assoc. reflexivity.
Qed.

Lemma X11_init_failures_witness :
  init (busy_broker 7) 7 None None 2 true (mkWorld fresh_session [])
  = Some (mkWorld (set_nested_locks 1
                     (set_client (mkClient "/tmp/pydaplink/socket" true)
                        (set_init_args 2 true fresh_session)))
            [Opened "/tmp/pydaplink/socket"; Sent (board_enumerate 3368 516);
             Sent (board_select 1); Sent (board_select 1)],
          Raise (CommandError
                   "Unable to lock device 0d28:0204:1, may be in use by another process")).
Proof.
  destruct (X11_init_failures (busy_broker 7) 7 7 None None 2
              (mkWorld fresh_session []) eq_refl) as [_ Hbusy].
  apply Hbusy.
  - reflexivity.
  - reflexivity.
  - intros h id. simpl. destruct (count_selects h <? 7)%nat; reflexivity.
  - lia.
  - lia.
Defined.

(** X12: the way to end unlocked.  init(), then unlock(), then uninit(),
    against a cooperative broker: init() takes the lock, the explicit
    unlock() gives it back with a board_deselect, uninit() selects the
    device once more for dap_uninit and deselects it again, and the session
    ends at depth 0 with as many deselects as selects; a connection init()
    opened is closed last. *)
Theorem X12_init_unlock_uninit (broker : Broker) (fuel : nat)
    (frequency packet_count : option Z) (budget : Z) (new_socket : bool)
    (w : World) :
  cooperative broker -> connects broker -> (1 <= fuel)%nat ->
  0 <= budget -> _nested_locks (self w) = 0 ->
  exists w3,
    (run init broker fuel frequency packet_count budget new_socket;
     run unlock broker; uninit broker fuel) w = Some (w3, Return tt)
    /\ _nested_locks (self w3) = 0
    /\ wire w3
       = wire w
           ++ (if new_socket
               then [Opened (address (_client (self w)));
                     Sent (board_enumerate (vid (self w)) (pid (self w)))]
               else [])
           ++ [Sent (board_select (iid (self w)));
               Sent (dap_init (truthy frequency) (truthy packet_count));
               Sent board_deselect;
               Sent (board_select (iid (self w)));
               Sent dap_uninit;
               Sent board_deselect]
           ++ (if new_socket then [Closed] else [])
    /\ (new_socket = true -> connected (_client (self w3)) = false).
Proof.
  intros Hcoop Hdial Hfuel Hb Hd.
  pose proof (init_run broker fuel Hcoop Hdial Hfuel frequency packet_count
                budget new_socket w Hb Hd) as Hinit.
  cbv zeta in Hinit.
  match type of Hinit with _ = Some (?W, _) => set (w1 := W) in * end.
  pose proof (unlock_accepted broker w1 (cooperative_accepts_deselect broker Hcoop)
                ltac:(simpl; lia)) as Hunlock.
  match type of Hunlock with _ = Some (?W, _) => set (w2 := W) in * end.
  assert (ready (self w2)) as Hr2.
  { split; [exists budget; split; [reflexivity | exact Hb] | simpl; lia]. }
  pose proof (uninit_run broker fuel Hcoop Hfuel w2 Hr2 new_socket eq_refl) as Hun.
  match type of Hun with _ = Some (?W, _) => set (w3 := W) in * end.
  exists w3. split; [| split; [| split]].
  - unfold bind at 1. rewrite Hinit. unfold bind at 1. rewrite Hunlock. exact Hun.
  - unfold w3. destruct new_socket; reflexivity.
  - unfold w3, w2, w1. cbn [self wire _nested_locks set_nested_locks].
    change (1 =? 1) with true. change (Z.max 0 (1 - 1)) with 0.
    unfold framed. change (0 =? 0) with true. cbv iota.
    cbn [iid set_nested_locks set_client set_init_args].
    rewrite <- !app_assoc. reflexivity.
  - intros ->. reflexivity.
Qed.

Lemma X12_init_unlock_uninit_witness :
  exists w3,
    (run init granting 1 (Some 1000000) None 5 true;
     run unlock granting; uninit granting 1) (mkWorld fresh_session [])
    = Some (w3, Return tt)
    /\ _nested_locks (self w3) = 0.
Proof.
  destruct (X12_init_unlock_uninit granting 1 (Some 1000000) None 5 true
              (mkWorld fresh_session [])) as (w3 & Hrun & Hdepth & _).
  - split; [intros h id; reflexivity | intros h c; destruct c; reflexivity].
  - intros h a. reflexivity.
  - lia.
  - lia.
  - reflexivity.
  - exists w3. split; [exact Hrun | exact Hdepth].
Defined.

(** *** What every operation keeps, on every broker *)

Section Preservation.

Variable R : World -> World -> Prop.
Hypothesis R_refl : forall w, R w w.
Hypothesis R_trans : forall w1 w2 w3, R w1 w2 -> R w2 w3 -> R w1 w3.

Lemma preserves_ret {A} (a : A) : preserves R (ret a).
Proof. intros w w' r [= <- _]. apply R_refl. Qed.

Lemma preserves_raise {A} (e : exn) : preserves R (raise (A := A) e).
Proof. intros w w' r [= <- _]. apply R_refl. Qed.

Lemma preserves_get : preserves R get.
Proof. intros w w' r [= <- _]. apply R_refl. Qed.

Lemma preserves_bind {A B} (m : M A) (k : A -> M B) :
  preserves R m -> (forall a, preserves R (k a)) -> preserves R (bind m k).
Proof.
  intros Hm Hk w w' r. unfold bind.
  destruct (m w) as [[w1 [a|e]]|] eqn:Em; [| | discriminate].
  - intros Hrun. eapply R_trans; [eapply Hm; exact Em | eapply Hk; exact Hrun].
  - intros [= <- _]. eapply Hm. exact Em.
Qed.

Lemma preserves_try_except {A} (body : M A) (handler : exn -> M A) :
  preserves R body -> (forall e, preserves R (handler e)) ->
  preserves R (try_except body handler).
Proof.
  intros Hb Hh w w' r. unfold try_except.
  destruct (body w) as [[w1 [a|e]]|] eqn:Eb; [| | discriminate].
  - intros [= <- _]. eapply Hb. exact Eb.
  - intros Hrun. eapply R_trans; [eapply Hb; exact Eb | eapply Hh; exact Hrun].
Qed.

Lemma preserves_try_finally {A} (body : M A) (final : M unit) :
  preserves R body -> preserves R final -> preserves R (try_finally body final).
Proof.
  intros Hb Hf w w' r. unfold try_finally.
  destruct (body w) as [[w1 r1]|] eqn:Eb; [| discriminate].
  destruct (final w1) as [[w2 [[]|e]]|] eqn:Ef; [| | discriminate];
    intros [= <- _]; (eapply R_trans; [eapply Hb; exact Eb | eapply Hf; exact Ef]).
Qed.

End Preservation.

Lemma steady_refl w : steady w w.
Proof.
  split; [repeat split | split; [reflexivity | auto]].
Qed.

Lemma steady_trans w1 w2 w3 : steady w1 w2 -> steady w2 w3 -> steady w1 w3.
Proof.
  intros (I1 & P1 & D1) (I2 & P2 & D2). split; [| split].
  - unfold same_identity in *.
    destruct I1 as (? & ? & ? & ? & ? & ? & ? & ? & ?).
    destruct I2 as (? & ? & ? & ? & ? & ? & ? & ? & ?).
    repeat split; congruence.
  - etransitivity; eassumption.
  - auto.
Qed.

Section Steady.

Variable broker : Broker.
Variable fuel : nat.

Lemma steady_command c : preserves steady (_command broker c).
Proof.
  intros w w' r [= <- _]. split; [repeat split | split; [| auto]].
  cbn [wire]. apply prefix_app_r. reflexivity.
Qed.

(** An update that leaves the identity and the channel alone, and the
    depth not negative. *)
Lemma steady_modify (f : Session -> Session) :
  (forall s, same_identity s (f s)) ->
  (forall s, 0 <= _nested_locks s -> 0 <= _nested_locks (f s)) ->
  preserves steady (modify f).
Proof.
  intros Hi Hd w w' r [= <- _]. split; [apply Hi | split; [reflexivity | apply Hd]].
Qed.

Lemma steady_set_buffer l : preserves steady (modify (set_buffer l)).
Proof. apply steady_modify; intros s; [repeat split | auto]. Qed.

Lemma steady_set_deferred b : preserves steady (modify (set_deferred_transfer b)).
Proof. apply steady_modify; intros s; [repeat split | auto]. Qed.

Lemma steady_lock_except {A} b e : preserves steady (lock_except (A := A) b e).
Proof.
  unfold lock_except. destruct b; [| apply preserves_raise, steady_refl].
  destruct e; try (apply preserves_raise, steady_refl).
  destruct (String.eqb type "KeyError"); [| apply preserves_raise, steady_refl].
  apply (preserves_bind steady steady_trans); [apply preserves_get, steady_refl|].
  intros s. apply preserves_raise, steady_refl.
Qed.

Lemma steady_lock_loop b : forall n attempts,
  preserves steady (lock_loop broker b n attempts).
Proof.
  induction n as [|n IH]; intros attempts w w' r; cbn [lock_loop];
    destruct (_lock_attempts (self w)) as [budget|];
    try (destruct ((budget =? 0) || (attempts <? budget)));
    try discriminate;
    try (intros [= <- _]; apply steady_refl).
  apply (preserves_bind steady steady_trans).
  - apply (preserves_try_except steady steady_trans).
    + apply (preserves_bind steady steady_trans); [apply steady_command|].
      intros data. destruct (selected data);
        [apply preserves_ret | apply preserves_raise]; apply steady_refl.
    + intros e. apply steady_lock_except.
  - intros [|]; [apply preserves_ret, steady_refl | apply IH].
Qed.

Lemma steady_lock : preserves steady (lock broker fuel).
Proof.
  unfold lock, lock_with.
  apply (preserves_bind steady steady_trans).
  - apply steady_modify; intros s; [repeat split | simpl; lia].
  - intros _. apply (preserves_bind steady steady_trans);
      [apply preserves_get, steady_refl|].
    intros s. destruct (1 <? _nested_locks s);
      [apply preserves_ret, steady_refl | apply steady_lock_loop].
Qed.

Lemma steady_unlock : preserves steady (unlock broker).
Proof.
  intros w w' r. unfold unlock. unfold_m.
  destruct (_nested_locks (self w) =? 1) eqn:E1.
  - destruct (answer broker (wire w) board_deselect) as [d|e]; simpl.
    + destruct (Z.ltb_spec 0 (_nested_locks (self w))); intros [= <- _];
        (split; [repeat split | split; [apply prefix_app_r; reflexivity|]]);
        simpl; lia.
    + intros [= <- _].
      split; [repeat split | split; [apply prefix_app_r; reflexivity | auto]].
  - simpl. destruct (Z.ltb_spec 0 (_nested_locks (self w))); intros [= <- _].
    + split; [repeat split | split; [reflexivity | simpl; lia]].
    + apply steady_refl.
Qed.

Lemma steady_with_self {A} (body : M A) :
  preserves steady body -> preserves steady (with_self broker fuel body).
Proof.
  intros Hb. unfold with_self.
  apply (preserves_bind steady steady_trans); [apply steady_lock|].
  intros _. apply (preserves_try_finally steady steady_trans);
    [exact Hb | apply steady_unlock].
Qed.

End Steady.

(** Breaks a goal [preserves steady m] down along the structure of [m]. *)
Ltac steady_step :=
  first
    [ apply preserves_ret, steady_refl
    | apply preserves_raise, steady_refl
    | apply preserves_get, steady_refl
    | apply steady_command
    | apply steady_set_buffer
    | apply steady_set_deferred
    | apply steady_modify;
        [intros ?; repeat split; reflexivity | intros ? ?; assumption]
    | apply steady_with_self
    | apply (preserves_bind steady steady_trans); [| intros ?]
    | match goal with
      | |- preserves _ (if ?b then _ else _) => destruct b
      | |- preserves _ (match ?x with _ => _ end) => destruct x
      end ].

Lemma steady_flush broker fuel : preserves steady (flush broker fuel).
Proof. unfold flush. repeat steady_step. Qed.

Lemma steady_run_op broker fuel (o : Op) : preserves steady (run_op broker fuel o).
Proof.
  destruct o as [request|o|enable|o|r mode|addr count|]; unfold run_op.
  - unfold info. repeat steady_step.
  - rewrite simple_op_scoped. repeat steady_step.
  - unfold setDeferredTransfer. repeat steady_step.
  - destruct o; unfold write_op, writeDP, writeAP, writeMem, writeBlock32, _write;
      repeat steady_step.
  - destruct r; unfold read_request, readDP, readAP, readMem, read_body, _read;
      repeat steady_step.
  - unfold readBlock32, _read. repeat steady_step.
  - repeat steady_step.
Qed.

(** X13: what no operation does.  Through any sequence of info, reset,
    assertReset, setClock, setPacketCount, setDeferredTransfer, writes,
    reads of every mode, readBlock32 and flush, on every broker and through
    every exception on the way, the ids, names, client and init arguments
    of the session stay what they were, nothing is ever taken back from the
    channel history, and the depth never becomes negative. *)
Theorem X13_operations_keep_identity (broker : Broker) (fuel : nat)
    (os : list Op) (w w' : World) (r : Outcome unit) :
  run_ops broker fuel os w = Some (w', r) ->
  same_identity (self w) (self w')
  /\ wire w `prefix_of` wire w'
  /\ (0 <= _nested_locks (self w) -> 0 <= _nested_locks (self w')).
Proof.
  revert w w' r. change (preserves steady (run_ops broker fuel os)).
  induction os as [|o os IH]; cbn [run_ops].
  - apply preserves_ret, steady_refl.
  - apply (preserves_bind steady steady_trans); [apply steady_run_op|].
    intros _. exact IH.
Qed.

Lemma X13_operations_keep_identity_witness :
  exists w' r,
    run_ops (busy_broker 7) 3 [OSimple OpReset; OFlush]
      (mkWorld (sample_session 0 2) []) = Some (w', r)
    /\ same_identity (sample_session 0 2) (self w')
    /\ [] `prefix_of` wire w'.
Proof.
  destruct (X13_operations_keep_identity (busy_broker 7) 3
              [OSimple OpReset; OFlush] (mkWorld (sample_session 0 2) [])
              (mkWorld (sample_session 1 2)
                 [Sent (board_select 1); Sent (board_select 1)])
              (Raise (CommandError (unable_to_lock (sample_session 0 2)))))
    as (Hid & Hwire & _).
  - vm_compute. reflexivity.
  - eexists _, _. split; [vm_compute; reflexivity|].
    split; [exact Hid | exact Hwire].
Defined.

(** *** The depth after every operation *)

Section Settling.

Variable broker : Broker.
Variable fuel : nat.

Lemma lock_loop_self b : forall n attempts w w' r,
  lock_loop broker b n attempts w = Some (w', r) -> self w' = self w.
Proof.
  induction n as [|n IH]; intros attempts w w' r; cbn [lock_loop];
    destruct (_lock_attempts (self w)) as [budget|];
    try (destruct ((budget =? 0) || (attempts <? budget)));
    try discriminate; try (intros [= <- _]; reflexivity).
  unfold_m.
  destruct (answer broker (wire w) (board_select (iid (self w)))) as [d|e].
  - destruct (selected d) as [[|]|].
    + intros [= <- _]. reflexivity.
    + intros Hrec. apply IH in Hrec. exact Hrec.
    + unfold lock_except. destruct b; unfold_m; intros [= <- _]; reflexivity.
  - unfold lock_except. destruct b; [destruct e as [type| | | | | | | |]|];
      try (destruct (String.eqb type "KeyError"));
      unfold_m; intros [= <- _]; reflexivity.
Qed.

(** Whatever [lock] does, the depth is one more afterwards. *)
Lemma lock_depth w w1 r1 :
  lock broker fuel w = Some (w1, r1) ->
  _nested_locks (self w1) = _nested_locks (self w) + 1.
Proof.
  unfold lock, lock_with. unfold_m.
  destruct (1 <? _nested_locks (self w) + 1).
  - intros [= <- _]. reflexivity.
  - intros Hl. apply lock_loop_self in Hl. rewrite Hl. reflexivity.
Qed.

Lemma settles_ret {A} (a : A) : settles (ret a).
Proof. intros w w' r [= <- _]. split; [reflexivity | intros Hd; left; exact Hd]. Qed.

Lemma settles_raise {A} (e : exn) : settles (raise (A := A) e).
Proof. intros w w' r [= <- _]. split; [reflexivity | intros Hd; left; exact Hd]. Qed.

Lemma settles_get : settles get.
Proof. intros w w' r [= <- _]. split; [reflexivity | intros Hd; left; exact Hd]. Qed.

Lemma settles_command c : settles (_command broker c).
Proof. intros w w' r [= <- _]. split; [reflexivity | intros Hd; left; exact Hd]. Qed.

Lemma settles_modify (f : Session -> Session) :
  (forall s, _nested_locks (f s) = _nested_locks s) -> settles (modify f).
Proof.
  intros Hf w w' r [= <- _]. cbn [self update]. rewrite Hf.
  split; [reflexivity | intros Hd; left; exact Hd].
Qed.

Lemma settles_bind {A B} (m : M A) (k : A -> M B) :
  settles m -> (forall a, settles (k a)) -> settles (bind m k).
Proof.
  intros Hm Hk w w' r. unfold bind.
  destruct (m w) as [[w1 [a|e]]|] eqn:Em; [| | discriminate].
  - intros Hrun. destruct (Hm _ _ _ Em) as [Hm1 Hm0].
    destruct (Hk a _ _ _ Hrun) as [Hk1 Hk0]. split.
    + intros Hd. rewrite Hk1, Hm1; [reflexivity | exact Hd | rewrite Hm1; assumption].
    + intros Hd. destruct (Hm0 Hd) as [E|[_ []]]. apply Hk0. exact E.
  - intros [= <- <-]. apply (Hm _ _ _ Em).
Qed.

(** [with self:] around a body that settles. *)
Lemma settles_with_self {A} (body : M A) :
  settles body -> settles (with_self broker fuel body).
Proof.
  intros Hb w w' r Hrun.
  destruct (Z_lt_ge_dec (_nested_locks (self w)) 0) as [Hneg|Hpos];
    [split; intros; lia|].
  revert Hrun. unfold with_self. unfold bind at 1.
  destruct (lock broker fuel w) as [[w1 [[]|e1]]|] eqn:El; [| | discriminate].
  - pose proof (lock_depth _ _ _ El) as Hd1.
    unfold try_finally.
    destruct (body w1) as [[w2 r2]|] eqn:Eb; [| discriminate].
    destruct (Hb _ _ _ Eb) as [Hb1 _]. specialize (Hb1 ltac:(lia)).
    destruct (Z_le_gt_dec 2 (_nested_locks (self w2))) as [Hdeep|Hflat].
    + rewrite unlock_nested by exact Hdeep.
      intros [= <- _]. cbn [self update _nested_locks set_nested_locks].
      split; intros Hd; lia.
    + rewrite unlock_outermost by lia.
      destruct (answer broker (wire w2) board_deselect); intros [= <- <-];
        cbn [self _nested_locks set_nested_locks].
      * split; intros Hd; [lia | left; reflexivity].
      * split; intros Hd; [lia | right; split; [lia | exact I]].
  - intros [= <- <-]. pose proof (lock_depth _ _ _ El) as Hd1. split.
    + intros Hd. exfalso. unfold lock in El.
      rewrite (lock_with_reentrant broker fuel _ w Hd) in El. discriminate.
    + intros Hd. right. split; [lia | exact I].
Qed.

End Settling.

Ltac settle_step :=
  first
    [ apply settles_ret
    | apply settles_raise
    | apply settles_get
    | apply settles_command
    | apply settles_modify; intros ?; reflexivity
    | apply settles_with_self
    | apply settles_bind; [| intros ?]
    | match goal with
      | |- settles (if ?b then _ else _) => destruct b
      | |- settles (match ?x with _ => _ end) => destruct x
      end ].

Lemma settles_run_op broker fuel (o : Op) : settles (run_op broker fuel o).
Proof.
  destruct o as [request|o|enable|o|r mode|addr count|]; unfold run_op.
  - unfold info. repeat settle_step.
  - rewrite simple_op_scoped. repeat settle_step.
  - unfold setDeferredTransfer. repeat settle_step.
  - destruct o; unfold write_op, writeDP, writeAP, writeMem, writeBlock32, _write;
      repeat settle_step.
  - destruct r; unfold read_request, readDP, readAP, readMem, read_body, _read;
      repeat settle_step.
  - unfold readBlock32, _read. repeat settle_step.
  - repeat settle_step.
Qed.

(** X14: the lock is given back on every exit.  Any sequence of info,
    reset, assertReset, setClock, setPacketCount, setDeferredTransfer,
    writes, reads, readBlock32 and flush, on every broker and whatever is
    raised on the way: started on a locked session it ends at the depth it
    started with; started on an unlocked session it ends unlocked whenever
    it returns normally, and when it raises it ends at depth 0 or, if
    taking or giving back the lock is what failed, at depth 1. *)
Theorem X14_operations_restore_depth (broker : Broker) (fuel : nat)
    (os : list Op) (w w' : World) (r : Outcome unit) :
  run_ops broker fuel os w = Some (w', r) ->
  (1 <= _nested_locks (self w) ->
   _nested_locks (self w') = _nested_locks (self w))
  /\ (_nested_locks (self w) = 0 ->
      _nested_locks (self w') = 0
      \/ (_nested_locks (self w') = 1 /\ raised r)).
Proof.
  revert w w' r. change (settles (run_ops broker fuel os)).
  induction os as [|o os IH]; cbn [run_ops].
  - apply settles_ret.
  - apply settles_bind; [apply settles_run_op|]. intros _. exact IH.
Qed.

Lemma X14_operations_restore_depth_witness :
  exists w',
    run_ops (failing_broker is_reset (ServerError "IOError")) 1
      [OWrite (WriteDP 4 7); OSimple OpReset; OFlush]
      (mkWorld (sample_session 0 5) [])
    = Some (w', Raise (ServerError "IOError"))
    /\ _nested_locks (self w') = 0.
Proof.
  eexists. split; [vm_compute; reflexivity|].
  destruct (X14_operations_restore_depth
              (failing_broker is_reset (ServerError "IOError")) 1
              [OWrite (WriteDP 4 7); OSimple OpReset; OFlush]
              (mkWorld (sample_session 0 5) []) _ _ ltac:(vm_compute; reflexivity))
    as [_ Hunlocked].
  destruct (Hunlocked eq_refl) as [H0|[H1 _]]; [exact H0 | discriminate H1].
Defined.

(** *** The result buffer as a queue *)




Section Queue.

Variable broker : Broker.
Variable fuel : nat.







End Queue.





End TransportExtras.

(** ** Further properties of the socket layer *)

Module UnixSocketExtras.
Import UnixSocket UnixSocketFacts.

(** *** Liveness of a connection *)

Section Calls.

Context {S : Type} (ops : StreamSocket S).

Lemma method_socket (c : UnixConnection.t S) m :
  UnixConnection._socket (method ops c m)
  = socket_after ops (UnixConnection._socket c) m.
Proof.
  destruct m as [data|size| |]; simpl.
  - unfold UnixConnection.send.
    destruct (sock_sendall ops (UnixConnection._socket c) data); reflexivity.
  - unfold UnixConnection.recv.
    destruct (sock_recv ops (UnixConnection._socket c) size) as [s' [d|e]];
      reflexivity.
  - unfold UnixConnection.shutdown.
    destruct (sock_shutdown ops (UnixConnection._socket c)) as [s' [[]|[]]];
      reflexivity.
  - reflexivity.
Qed.

Lemma method_alive (c : UnixConnection.t S) m :
  UnixConnection._isalive (method ops c m)
  = UnixConnection._isalive c
    && negb (ends_liveness ops (UnixConnection._socket c) m).
Proof.
  destruct m as [data|size| |]; simpl.
  - unfold UnixConnection.send.
    destruct (sock_sendall ops (UnixConnection._socket c) data); simpl.
    rewrite andb_true_r. reflexivity.
  - unfold UnixConnection.recv.
    destruct (sock_recv ops (UnixConnection._socket c) size) as [s' [d|e]]; simpl.
    + destruct (String.eqb d ""); simpl;
        [rewrite andb_false_r | rewrite andb_true_r]; reflexivity.
    + rewrite andb_true_r. reflexivity.
  - unfold UnixConnection.shutdown.
    destruct (sock_shutdown ops (UnixConnection._socket c)) as [s' [[]|[]]];
      simpl; rewrite andb_false_r; reflexivity.
  - rewrite andb_true_r. reflexivity.
Qed.

End Calls.

(** X16: alive() after any sequence of send, recv, shutdown and close calls
    is true exactly when it was true before and none of the calls was a
    shutdown or a recv that the socket answered with the empty string.  In
    particular a send that fails, a recv that raises and a close leave it
    as it is, and nothing makes a dead connection alive again. *)
Theorem X16_alive_after_calls {S : Type} (ops : StreamSocket S)
    (ms : list Method) (c : UnixConnection.t S) :
  UnixConnection.isalive (methods ops c ms)
  = UnixConnection.isalive c
    && negb (any_ends_liveness ops (UnixConnection._socket c) ms).
Proof.
  unfold UnixConnection.isalive. revert c.
  induction ms as [|m ms IH]; intros c; cbn [methods any_ends_liveness].
  - rewrite andb_true_r. reflexivity.
  - rewrite IH, method_alive, method_socket, negb_orb, andb_assoc. reflexivity.
Qed.

(** *** Accepting *)

Section Accepting.

Context {S : Type} (ops : StreamSocket S).

Lemma accept_serving sv (os : UnixServer.OS S) conn rest :
  serving sv -> UnixServer.backlog os = conn :: rest ->
  UnixServer.accept ops sv os
  = (UnixServer.mkOS (UnixServer.fs os) rest, accepted ops sv conn).
Proof.
  intros (Ha & sk & p & Hs & Hp & Hc & Hl & H1 & Hu) Hb.
  unfold UnixServer.accept, UnixServer.select_wait, UnixServer.accept_finish.
  rewrite Hs, Hp, Hc, H1, Hl, Hb, Ha. reflexivity.
Qed.

End Accepting.

(** X17: on a server that is alive and listening, accept() hands out the
    waiting connections in the order they arrived, one per call, each
    wrapped as a live Connection with the server's timeout applied, and
    leaves the later ones waiting. *)
Theorem X17_accept_in_arrival_order {S : Type} (ops : StreamSocket S)
    (sv : UnixServer.t) (conns rest : list S) (f : FS) :
  serving sv ->
  accept_n ops sv (UnixServer.mkOS f (conns ++ rest)) (length conns)
  = (UnixServer.mkOS f rest, map (accepted ops sv) conns).
Proof.
  intros Hs. induction conns as [|conn conns IH]; [reflexivity|].
  cbn [length accept_n app map].
  rewrite (accept_serving ops sv (UnixServer.mkOS f (conn :: conns ++ rest))
             conn (conns ++ rest) Hs eq_refl).
  cbn [UnixServer.fs]. rewrite IH. reflexivity.
Qed.

Lemma X17_accept_in_arrival_order_witness :
  accept_n UnixConnection.half_closed listening_server
    (UnixServer.mkOS (leftover_fs true) [["a"]; ["b"]; ["c"]]%string) 2
  = (UnixServer.mkOS (leftover_fs true) [["c"%string]],
     [Finished (Return (Some (UnixConnection.new ["a"%string])));
      Finished (Return (Some (UnixConnection.new ["b"%string])))]).
Proof.
  apply (X17_accept_in_arrival_order UnixConnection.half_closed listening_server
           [["a"]; ["b"]]%string [["c"%string]] (leftover_fs true)).
  split; [reflexivity|]. eexists _, _. repeat split; reflexivity.
Defined.

(** X18: accept() never loses a waiting connection.  Whatever the state of
    the server, either the call leaves everything that waits where it is
    and returns no Connection (it blocks, raises or returns None), or the
    server is alive and the call takes exactly the oldest waiting
    connection and returns it. *)
Theorem X18_accept_takes_head_or_nothing {S : Type} (ops : StreamSocket S)
    (sv : UnixServer.t) (os : UnixServer.OS S) :
  (fst (UnixServer.accept ops sv os) = os
   /\ forall c, snd (UnixServer.accept ops sv os) <> Finished (Return (Some c)))
  \/ (UnixServer._isalive sv = true
      /\ exists conn rest,
           UnixServer.backlog os = conn :: rest
           /\ UnixServer.accept ops sv os
              = (UnixServer.mkOS (UnixServer.fs os) rest, accepted ops sv conn)).
Proof.
  unfold UnixServer.accept.
  destruct (UnixServer.select_wait sv os) as [|[[]|e]];
    try (left; split; [reflexivity | intros c; discriminate]).
  unfold UnixServer.accept_finish.
  destruct (UnixServer._isalive sv) eqn:Ha; simpl;
    [| left; split; [reflexivity | intros c; discriminate]].
  destruct (UnixServer._socket sv) as [sk|];
    [| left; split; [reflexivity | intros c; discriminate]].
  destruct (UnixServer.closed sk);
    [left; split; [reflexivity | intros c; discriminate]|].
  destruct (UnixServer.listening sk); simpl;
    [| left; split; [reflexivity | intros c; discriminate]].
  destruct (UnixServer.backlog os) as [|conn rest] eqn:Hb.
  - destruct (UnixServer.timeout sk);
      left; split; try reflexivity; intros c; discriminate.
  - right. split; [reflexivity|]. exists conn, rest. split; reflexivity.
Qed.

(** *** Opening and closing the listening socket *)

Lemma bind_path_success a f :
  snd (bind_path a f) = Return tt ->
  files f !! a = None /\ dir_writable (dirname a) f = true
  /\ a <> dirname a
  /\ fst (bind_path a f)
     = mkFS (<[a := fresh_socket_node]> (files f)) (may_mkdir f) (unlinks f).
Proof.
  unfold bind_path.
  destruct (files f !! a) eqn:Ea; [discriminate|].
  destruct (files f !! dirname a) eqn:Ed; [| discriminate].
  destruct (dir_writable (dirname a) f) eqn:Ew; [| discriminate].
  intros _. repeat split. intros Heq. rewrite <- Heq, Ea in Ed. discriminate.
Qed.

Lemma bind_path_failure a f e :
  snd (bind_path a f) = Raise e -> fst (bind_path a f) = f.
Proof.
  unfold bind_path.
  destruct (files f !! a); [reflexivity|].
  destruct (files f !! dirname a); [| reflexivity].
  destruct (dir_writable (dirname a) f); [discriminate | reflexivity].
Qed.

Lemma open_returns {S : Type} sv (os : UnixServer.OS S) :
  snd (bind_path (UnixServer.address sv) (prepared sv (UnixServer.fs os)))
  = Return tt ->
  UnixServer.open sv os
  = (UnixServer.mk (UnixServer.address sv) true (UnixServer._timeout sv)
       (Some UnixServer.socket_pair)
       (Some (UnixServer.mkSock (UnixServer._timeout sv)
                (Some (UnixServer.address sv)) true false)),
     UnixServer.mkOS
       (fst (bind_path (UnixServer.address sv) (prepared sv (UnixServer.fs os))))
       (UnixServer.backlog os),
     Return tt).
Proof.
  unfold UnixServer.open, prepared.
  destruct (bind_path _ _) as [f3 [[]|e]]; simpl; [reflexivity | discriminate].
Qed.

Lemma open_raises {S : Type} sv (os : UnixServer.OS S) e :
  snd (bind_path (UnixServer.address sv) (prepared sv (UnixServer.fs os)))
  = Raise e ->
  UnixServer.open sv os
  = (UnixServer.mk (UnixServer.address sv) (UnixServer._isalive sv)
       (UnixServer._timeout sv) (Some UnixServer.socket_pair)
       (Some (UnixServer.mkSock (UnixServer._timeout sv) None false false)),
     UnixServer.mkOS (prepared sv (UnixServer.fs os)) (UnixServer.backlog os),
     Raise e).
Proof.
  intros Hb. pose proof (bind_path_failure _ _ _ Hb) as Hf.
  unfold UnixServer.open, prepared in *.
  destruct (bind_path _ _) as [f3 [[]|e']]; simpl in *; [discriminate|].
  injection Hb as ->. subst f3. reflexivity.
Qed.

Lemma open_outcome {S : Type} sv (os : UnixServer.OS S) :
  snd (UnixServer.open sv os)
  = snd (bind_path (UnixServer.address sv) (prepared sv (UnixServer.fs os))).
Proof.
  unfold UnixServer.open, prepared.
  destruct (bind_path _ _) as [f3 [[]|e]]; reflexivity.
Qed.




Lemma fresh_socket_node_is_socket :
  S_ISSOCK (st_mode fresh_socket_node) = true
  /\ S_ISDIR (st_mode fresh_socket_node) = false
  /\ w_ok fresh_socket_node = true.
Proof. repeat split. Qed.

(** What a successful [open] leaves in the file system. *)
Lemma open_success_fs {S : Type} sv (os : UnixServer.OS S) :
  snd (UnixServer.open sv os) = Return tt ->
  let a := UnixServer.address sv in
  let after := UnixServer.fs (snd (fst (UnixServer.open sv os))) in
  files after !! a = Some fresh_socket_node
  /\ dir_writable (dirname a) after = true
  /\ a <> dirname a
  /\ exists dn, files after !! dirname a = Some dn.
Proof.
  intros Hok a after. rewrite open_outcome in Hok.
  pose proof (bind_path_success _ _ Hok) as (Hfree & Hw & Hne & Hfs).
  unfold after. rewrite (open_returns sv os Hok). cbn [fst snd UnixServer.fs].
  rewrite Hfs. fold a in Hne, Hw |- *.
  assert (exists dn, files (prepared sv (UnixServer.fs os)) !! dirname a = Some dn)
    as [dn Hdn].
  { unfold dir_writable in Hw.
    destruct (files (prepared sv (UnixServer.fs os)) !! dirname a) as [dn|];
      [eauto | discriminate]. }
  split; [apply lookup_insert_eq|]. split; [| split; [exact Hne|]].
  - unfold dir_writable in *. cbn [files].
    rewrite lookup_insert_ne by exact Hne. exact Hw.
  - exists dn. cbn [files]. rewrite lookup_insert_ne by exact Hne. exact Hdn.
Qed.



(** X21: open() and then close().  After an open() that returned, close()
    returns normally too: it closes the listening socket and both ends of
    the interrupt pair and removes the socket file, so that the path is free
    again.  On the closed server accept() raises instead of blocking, and
    shutdown() raises as well, though it still clears alive. *)
Theorem X21_open_then_close {S : Type} (ops : StreamSocket S)
    (sv : UnixServer.t) (os : UnixServer.OS S) :
  snd (UnixServer.open sv os) = Return tt ->
  let sv1 := fst (fst (UnixServer.open sv os)) in
  let os1 := snd (fst (UnixServer.open sv os)) in
  let sv2 := fst (fst (UnixServer.close sv1 os1)) in
  let os2 := snd (fst (UnixServer.close sv1 os1)) in
  snd (UnixServer.close sv1 os1) = Return tt
  /\ files (UnixServer.fs os2) !! UnixServer.address sv = None
  /\ unlinks (UnixServer.fs os2)
     = unlinks (UnixServer.fs os1) ++ [UnixServer.address sv]
  /\ (exists sk p,
        UnixServer._socket sv2 = Some sk /\ UnixServer._shutdown_pipe sv2 = Some p
        /\ UnixServer.closed sk = true /\ UnixServer.end0_closed p = true
        /\ UnixServer.end1_closed p = true)
  /\ UnixServer.accept ops sv2 os2
     = (os2, Finished (Raise (SocketError "Bad file descriptor")))
  /\ snd (UnixServer.shutdown sv2) = Raise (SocketError "Bad file descriptor")
  /\ UnixServer.isalive (fst (UnixServer.shutdown sv2)) = false.
Proof.
  intros Hok sv1 os1 sv2 os2.
  pose proof (open_success_fs sv os Hok) as (Hfile & Hw & Hne & _).
  fold os1 in Hfile, Hw.
  rewrite open_outcome in Hok.
  assert (sv1 = UnixServer.mk (UnixServer.address sv) true (UnixServer._timeout sv)
                  (Some UnixServer.socket_pair)
                  (Some (UnixServer.mkSock (UnixServer._timeout sv)
                           (Some (UnixServer.address sv)) true false))) as Hsv1
    by (unfold sv1; rewrite (open_returns sv os Hok); reflexivity).
  assert (unlink (UnixServer.address sv) (UnixServer.fs os1)
          = (mkFS (delete (UnixServer.address sv) (files (UnixServer.fs os1)))
               (may_mkdir (UnixServer.fs os1))
               (unlinks (UnixServer.fs os1) ++ [UnixServer.address sv]),
             Return tt)) as Hunlink.
  { unfold unlink. rewrite Hfile, Hw. reflexivity. }
  assert (UnixServer.close sv1 os1
          = (UnixServer.mk (UnixServer.address sv) true (UnixServer._timeout sv)
               (Some (UnixServer.mkPipe "" true true))
               (Some (UnixServer.mkSock (UnixServer._timeout sv)
                        (Some (UnixServer.address sv)) true true)),
             UnixServer.mkOS
               (mkFS (delete (UnixServer.address sv) (files (UnixServer.fs os1)))
                  (may_mkdir (UnixServer.fs os1))
                  (unlinks (UnixServer.fs os1) ++ [UnixServer.address sv]))
               (UnixServer.backlog os1),
             Return tt)) as Hclose.
  { rewrite Hsv1. unfold UnixServer.close. cbn [UnixServer._socket
      UnixServer._shutdown_pipe UnixServer.address UnixServer._isalive
      UnixServer._timeout UnixServer.timeout UnixServer.bound
      UnixServer.listening UnixServer.unread UnixServer.socket_pair].
    rewrite Hunlink. reflexivity. }
  unfold sv2, os2. rewrite Hclose. cbn [fst snd UnixServer.fs files unlinks].
  split; [reflexivity|]. split; [apply lookup_delete_eq|].
  split; [reflexivity|]. split; [eexists _, _; repeat split; reflexivity|].
  repeat split.
Qed.

Lemma X21_open_then_close_witness :
  files (UnixServer.fs
           (snd (fst (UnixServer.close
                        (fst (fst (UnixServer.open sample_server
                                     (UnixServer.mkOS bare_fs
                                        ([] : list (list string))))))
                        (snd (fst (UnixServer.open sample_server
                                     (UnixServer.mkOS bare_fs
                                        ([] : list (list string))))))))))
    !! "/tmp/pydaplink/socket"%string = None.
Proof.
  destruct (X21_open_then_close UnixConnection.half_closed sample_server
              (UnixServer.mkOS bare_fs ([] : list (list string))))
    as (_ & Hfree & _).
  - vm_compute. reflexivity.
  - exact Hfree.
Defined.





(** X24: close() removes whatever file is at the address, not only a
    socket.  With a file at the path that is not a socket and not a
    directory, in a directory that takes changes, open() raises from bind
    and leaves the file alone, and the close() that follows unlinks that
    same file. *)
Theorem X24_close_after_failed_open_unlinks {S : Type} (sv : UnixServer.t)
    (os : UnixServer.OS S) (n : Node) :
  let a := UnixServer.address sv in
  files (UnixServer.fs os) !! a = Some n ->
  S_ISSOCK (st_mode n) = false -> S_ISDIR (st_mode n) = false ->
  dir_writable (dirname a) (UnixServer.fs os) = true ->
  let sv1 := fst (fst (UnixServer.open sv os)) in
  let os1 := snd (fst (UnixServer.open sv os)) in
  snd (UnixServer.open sv os) = Raise (SocketError "Address already in use")
  /\ files (UnixServer.fs os1) !! a = Some n
  /\ snd (UnixServer.close sv1 os1) = Return tt
  /\ files (UnixServer.fs (snd (fst (UnixServer.close sv1 os1)))) !! a = None.
Proof.
  intros a Hn Hsock Hdir Hw sv1 os1.
  assert (exists dn, files (UnixServer.fs os) !! dirname a = Some dn) as [dn Hdn].
  { unfold dir_writable in Hw.
    destruct (files (UnixServer.fs os) !! dirname a) as [dn|]; [eauto | discriminate]. }
  assert (prepared sv (UnixServer.fs os) = UnixServer.fs os) as Hprep.
  { unfold prepared. fold a. rewrite (makedirs_present _ _ dn Hdn).
    apply remove_stale_skips. unfold stale_socket. rewrite Hn, Hsock. reflexivity. }
  assert (snd (bind_path a (prepared sv (UnixServer.fs os)))
          = Raise (SocketError "Address already in use")) as Hbind
    by (rewrite Hprep; unfold bind_path; rewrite Hn; reflexivity).
  unfold sv1, os1. rewrite (open_raises sv os _ Hbind), Hprep.
  cbn [fst snd UnixServer.fs].
  split; [reflexivity|]. split; [exact Hn|].
  unfold UnixServer.close. cbn [UnixServer._socket UnixServer._shutdown_pipe
    UnixServer.address fst snd UnixServer.fs].
  fold a. unfold unlink. rewrite Hn, Hdir, Hw. cbn [fst files].
  split; [reflexivity | apply lookup_delete_eq].
Qed.

Lemma X24_close_after_failed_open_unlinks_witness :
  files (UnixServer.fs
           (snd (fst (UnixServer.close
                        (fst (fst (UnixServer.open sample_server
                                     (UnixServer.mkOS occupied_fs
                                        ([] : list (list string))))))
                        (snd (fst (UnixServer.open sample_server
                                     (UnixServer.mkOS occupied_fs
                                        ([] : list (list string))))))))))
    !! "/tmp/pydaplink/socket"%string = None.
Proof.
  destruct (X24_close_after_failed_open_unlinks sample_server
              (UnixServer.mkOS occupied_fs ([] : list (list string)))
              (mkNode (S_IFREG + 420) true))
    as (_ & _ & _ & Hgone).
  - vm_compute. reflexivity.
  - vm_compute. reflexivity.
  - vm_compute. reflexivity.
  - vm_compute. reflexivity.
  - exact Hgone.
Defined.

(** *** Valid addresses *)



(** *** The client *)

(** X26: a UnixClient is a connection only once open() has connected it.
    A new client is not alive, and send and recv on it raise AttributeError
    and change nothing.  An open() whose connect fails raises that error and
    leaves the client as it was.  An open() whose connect succeeds makes the
    client alive on the connected socket with the configured timeout; from
    then on send ends the way the socket's sendall ends, and a recv that
    the socket answers with the empty string makes it not alive again. *)
Theorem X26_client_lifecycle {S : Type} (ops : StreamSocket S)
    (connect : string -> Outcome S) (address : string) (timeout : option Z) :
  let c0 := UnixClient.new (S := S) address timeout in
  UnixClient.isalive c0 = false
  /\ (forall data,
        UnixClient.send ops c0 data = (c0, Raise (AttributeError "_socket")))
  /\ (forall size,
        UnixClient.recv ops c0 size = (c0, Raise (AttributeError "_socket")))
  /\ (forall e,
        connect address = Raise e ->
        UnixClient.open ops connect c0 = (c0, Raise e))
  /\ (forall s,
        connect address = Return s ->
        let c1 := fst (UnixClient.open ops connect c0) in
        let s1 := sock_settimeout ops s timeout in
        snd (UnixClient.open ops connect c0) = Return tt
        /\ UnixClient.isalive c1 = true
        /\ UnixClient._socket c1 = Some s1
        /\ (forall data,
              snd (UnixClient.send ops c1 data) = snd (sock_sendall ops s1 data)
              /\ UnixClient.isalive (fst (UnixClient.send ops c1 data)) = true)
        /\ (forall size,
              snd (sock_recv ops s1 size) = Return ""%string ->
              snd (UnixClient.recv ops c1 size) = Return ""%string
              /\ UnixClient.isalive (fst (UnixClient.recv ops c1 size)) = false)).
Proof.
  intros c0. split; [reflexivity|]. split; [reflexivity|]. split; [reflexivity|].
  split.
  - intros e He. unfold UnixClient.open. cbn [UnixClient.address c0 UnixClient.new].
    rewrite He. reflexivity.
  - intros s Hs c1 s1.
    assert (UnixClient.open ops connect c0
            = (UnixClient.mk address true timeout (Some s1), Return tt)) as Hopen
      by (unfold UnixClient.open, c0; simpl; rewrite Hs; reflexivity).
    unfold c1. rewrite Hopen. cbn [fst snd].
    split; [reflexivity|]. split; [reflexivity|]. split; [reflexivity|].
    split.
    + intros data. unfold UnixClient.send, UnixConnection.send. simpl.
      destruct (sock_sendall ops s1 data); split; reflexivity.
    + intros size Hempty. unfold UnixClient.recv, UnixConnection.recv. simpl.
      destruct (sock_recv ops s1 size) as [s' [d|e]]; simpl in *;
        [injection Hempty as ->; split; reflexivity | discriminate].
Qed.

Lemma X26_client_lifecycle_witness :
  UnixClient.isalive
    (fst (UnixClient.recv UnixConnection.half_closed
            (fst (UnixClient.open UnixConnection.half_closed
                    (fun _ => Return [])
                    (UnixClient.new "/tmp/pydaplink/socket" None)))
            65536)) = false.
Proof.
  destruct (X26_client_lifecycle UnixConnection.half_closed (fun _ => Return [])
              "/tmp/pydaplink/socket" None) as (_ & _ & _ & _ & Hopen).
  destruct (Hopen [] eq_refl) as (_ & _ & _ & _ & Hrecv).
  destruct (Hrecv 65536 eq_refl) as [_ Hdead].
  exact Hdead.
Defined.

End UnixSocketExtras.
